(* ===== verification/_CoqProject ===== *)
-Q . S2P
Prelude.v
Relogio.v
Mensagem.v
Processo.v
Processo2.v
P2.v
P2Sistema.v
Sistema.v
BemFormado.v
Interface.v
Seguranca.v
Progresso.v
SimulacaoP2.v
Processo2Sistema.v
Impasse.v
Abandono.v
Lamport.v
Servico.v
