(* ===== verification/Prelude.v ===== *)
(** * Verification of FelipeBonadia/Mutual-Exclusion

    The repository implements distributed mutual exclusion in the style of
    Ricart-Agrawala.  A fixed set of peer processes exchanges JSON messages
    over TCP.  Every message carries a Lamport timestamp and one of the kinds
    ["requisicao"] (request), ["ack"] or ["nack"].  Three near-copies of one
    program exist:
    - [src/p1.py] is the base protocol, with ids "p1".."p3".
    - [src/p2.py] adds a Nack reply when a request is deferred, acknowledges
      only the first deferred request on release, and prompts the operator
      when a Nack arrives.
    - [src/processo2.py] is the base protocol with ids
      "processo1".."processo3" and without the debug output.

    Each process keeps five globals: [recurso_ocupado] (a flag "the local
    process holds the resource"), [fila_recurso] (the queue of deferred
    requests), [respostas_esperadas] (a dict from resource name to the set of
    peers whose ack is awaited), [relogio_local] (the Lamport clock) and
    [esperando_recurso] (the resource requested or held, or None).
    Two threads touch them: the server thread [servidor] runs
    [processar_mensagem] once per received message, and the main thread
    [interface_usuario] runs [entrar_recurso_critico] and
    [sair_recurso_critico].  The main thread busy-waits in [while] loops.

    ** Library layout (the files of _CoqProject, in dependency order)

    - [Prelude] (this file): the Python execution model shared by all
      components.  It holds the exceptions [Excecao] ([KeyError],
      [TypeError], [ValueError]) and the monad [PyM S O A] of a Python
      statement sequence over globals [S] that emits outputs [O].  When an
      exception is raised, the mutations and sends made before it persist,
      as in Python.  It also holds the [for] loop [para_cada], the counting
      function [contar] with its lemmas, the hint databases [pym], [mutex]
      and [mutex_rw], the tactics [pym_simpl] and [decidir], and the
      generic scheduler [executar_lista] with its soundness lemma
      [executar_lista_rtc].
    - [Relogio]: the Lamport clock, [atualizar_relogio] and the
      [relogio_local += 1] ticks.
    - [Mensagem]: the message dict, the JSON object that [servidor]
      receives, the field lookups of [processar_mensagem] that raise
      [KeyError], and the tuple comparison
      [(relogio_local, ID_PROCESSO) > (timestamp, remetente)].
    - [Processo]: the engine of [src/p1.py].  Its handlers are monadic
      functions with the source's names, over the record [Estado] of the
      five globals; the configuration ([ID_PROCESSO], [PROCESSOS]) is a
      Section variable.  The main thread is the state machine [Fase]: one
      step runs one command ([passo_comando]), one answer at the busy prompt
      ([passo_escolha]), or one iteration of a polling loop
      ([passo_aguardar_liberacao], [passo_aguardar_acks]).
    - [Processo2]: the handlers of [src/processo2.py], transcribed from its
      own lines and proved equal to p1's ([motor_igual]).
    - [P2]: the handlers of [src/p2.py], from its own lines: the ones it
      shares with p1 (proved the same functions), the configuration of the
      peer "p2", and those that differ from p1's:
      [enviar_nack], [entrar_recurso_critico] with its waiter thread,
      [aguardar_recurso], [sair_recurso_critico] and [processar_mensagem]
      with the Nack branch, the field lookups and the command step.  The
      operator's answers are parameters.
    - [P2Sistema]: N processes of [src/p2.py] with their extra daemon
      threads [aguardar_recurso], as the step relation [passo2], with the
      lines printed when a resource is granted or released, and an
      executable scheduler [executar2].
    - [Sistema]: N processes of [src/p1.py] and a lossy, unordered network
      as the step relation [passo] on [Global].  It also holds the
      executable scheduler [executar], proved sound for [passo].
    - [BemFormado]: the well-formedness of the globals of a process
      (pending sets name other peers only, the clock is not negative, the
      queue holds requests), kept by every handler of [src/p1.py] and of
      [src/p2.py] and so by every process of every run; and the termination
      of the drain loop with the fuel it is given.
    - [Interface]: the command line of [interface_usuario] ([strip],
      [split], [startswith], the unpacking and its [ValueError]), and the
      proof that every typed line is a step of [passo].
    - [Seguranca]: the pairwise permission-token invariant [Inv], preserved
      by every rule of [passo], and mutual exclusion.
    - [Progresso]: progress of [src/p1.py].  A request whose every pending
      ack is either in flight or will be sent by a peer that is free to
      answer is granted: one delivery per peer, then the final iteration
      of the [while respostas_esperadas[recurso]] loop.
    - [SimulacaoP2]: a simulation of the runs of [src/p2.py] in which no
      process has an [aguardar_recurso] thread by runs of [src/p1.py]:
      the same globals up to clocks and timestamps, the nacks left out,
      the busy prompt matched by p1's command and answer, and p2's
      release matched by p1's release and the loss of the acks it does
      not send.  Mutual exclusion of those runs follows from [Seguranca].
    - [Processo2Sistema]: the record [Motor] of the handlers the threads
      call, the runs [passo_motor] of any engine, and the proof that the
      runs of [src/processo2.py] are those of [src/p1.py].
    - [Impasse]: the two ways a run blocks for ever.
    - [Abandono]: the predicate [abandono] (a process waits for a peer
      that will never ack it), kept by every rule of [passo], and carried
      to the runs of [src/p2.py] without [aguardar_recurso] threads
      through [SimulacaoP2].
    - [Lamport]: a small program logic ([carimbado_em]) for "sends only
      messages stamped with the sender's id and at most its clock, and
      never moves the clock back", its rules, the tactic [carimbo], and the
      clock condition on every reachable state of both kinds of run.
    - [Servico]: the abstract lock service [passo_servico] on the set of
      grants, the abstraction [detidos] of a [Global], and the refinement
      theorem: every step of a reachable run of [src/p1.py] is a step of
      the service; and the same for the runs of [src/p2.py]
      without [aguardar_recurso] threads, through [SimulacaoP2].

    ** Main results

    - Mutual exclusion ([Seguranca.exclusao_mutua]): in every reachable
      state, no two processes of [src/p1.py] hold the same resource; the
      same for [src/processo2.py]
      ([Processo2Sistema.exclusao_mutua_processo2]).
    - Refinement ([Servico.refinamento_servico]): seen through the grants
      [recurso_ocupado] and [esperando_recurso], every run of
      [src/p1.py] is a run of an abstract lock service.
    - [src/p2.py] loses mutual exclusion
      ([P2Sistema.exclusao_mutua_violada_p2]): an [aguardar_recurso]
      thread and the main thread share [esperando_recurso], and a run of
      three processes prints that r2 is granted to p1 and then to p2 with
      no release in between.
    - Without [aguardar_recurso] threads [src/p2.py] keeps mutual
      exclusion ([SimulacaoP2.exclusao_mutua_p2_sem_aguardador]): the
      violation above comes from those threads, not from the nacks or
      from the release that acks one deferred request only.  Those runs
      also refine the lock service ([Servico.refinamento_servico_p2]).
    - Starvation in [src/p2.py] ([Abandono.pedido_abandonado_p2]): its
      release acks the first deferred request only, and names the
      released resource in that ack; every other deferred requester, and
      the first one when it asked for another resource, then waits for
      the releasing process for ever.
    - Deadlock ([Impasse.impasse_pedidos_cruzados]).  The priority test of
      [processar_mensagem] is evaluated after [atualizar_relogio], so it is
      always true ([Processo.requisicao_mesmo_recurso_sempre_adiada]): a
      process that requests a resource defers every request for it.  Two
      crossed requests for one resource therefore leave both processes
      waiting for ever, whatever the network does.  The spec (section 8)
      expects the rule to be free of deadlock.
    - Progress ([Progresso.pedido_isolado_concedido]): a request is
      granted by a finite run when each awaited peer either has already
      sent its ack, or has the request in its inbox, runs its server
      thread, and neither holds nor requests that resource.  This is the
      positive counterpart of the deadlock: the only obstacle to a grant
      is a peer that defers.
    - The "wait" answer of the busy prompt spins for ever in the only thread
      that could release ([Impasse.espera_liberacao_permanente]).
    - Behaviour of every handler on every branch, errors included:
      deferral, immediate ack, the ack and unknown kinds, the FIFO drain on
      release with the clock of each ack, the silent release of a resource
      not held, the [KeyError] of an unknown sender, and the [KeyError] that
      reading a message raises for the first missing key.
    - [src/processo2.py] runs p1's handlers; [src/p2.py] acks only the first
      deferred request and restarts a request on a Nack answered with "1".
    - The parser round-trips the commands of the help text, accepts any
      first word that begins with "solicitar", and a command without a
      resource ends the process with [ValueError].
    - Clock monotonicity and the Lamport clock condition on runs of
      [src/p1.py] and [src/p2.py]
      ([Lamport.relogios_lamport], [Lamport.relogios_lamport_p2]).
    - The type invariant [BemFormado.bem_formado_invariante] and the
      termination of the drain loop ([BemFormado.drenar_fila_termina]).

    ** Bounds and fuel

    Python integers are unbounded, so clocks and timestamps are [Z] and never
    wrap.  The drain loop [while fila_recurso: ...] of [sair_recurso_critico]
    is a [Fixpoint] with fuel.  The handler passes the length of the queue as
    fuel, which is enough: each iteration pops one entry, and a handler runs
    atomically in the model ([Processo.drenar_fila_eq] proves the whole queue
    is drained; [BemFormado.drenar_fila_termina] proves that any larger fuel
    gives the same run and that the loop leaves by its own test).  The polling loops of the main thread need no fuel: each
    iteration is one step of [passo], and the theorems on them quantify over
    all runs.  The scheduler [executar] runs finite schedules only.

    ** Not modelled

    - Sockets, the JSON text encoding ([json.dumps], [json.loads]) and the
      framing [recv(1024)], the debug colours and the prints other than the
      two lines of [src/p2.py] kept by [P2Sistema].  They
      are I/O: a send is an output of [PyM], and a failed send is the loss
      of a message in [Sistema].
    - [teste_automatico] ([src/p1.py] lines 212-219, [src/p2.py] lines
      237-246), whose thread start is commented out in [__main__]: it
      never runs.  Its body sets [teste_ativo], which only adds a
      [time.sleep], and calls [entrar_recurso_critico("r1")] and
      [sair_recurso_critico("r1")], which are modelled.  The globals
      [debug_mode] and [teste_ativo] select prints and sleeps only.
    - The lock and condition variable, which the code creates and never
      uses.  Thread interleaving inside one handler is not modelled either:
      [Sistema] runs each handler and each loop iteration as one atomic
      step.
    - In [P2Sistema], one iteration of an [aguardar_recurso] thread tests
      [recurso_ocupado] and calls [entrar_recurso_critico] atomically, so
      the prompt that [entrar_recurso_critico] could show in that thread
      when the flag changes in between is not modelled; this only removes
      runs.
    - White space outside ASCII in the command line. *)

From stdpp Require Export base list gmap strings.
From Stdlib Require Export ZArith.
From Stdlib Require String.

(** ** Python exceptions raised by the modelled code *)

Inductive Excecao :=
| KeyError (chave : string)   (** [d[k]] with [k] not a key of [d] *)
| TypeError                   (** a JSON field of the wrong kind *)
| ValueError                  (** [a, b = xs] with [len(xs) != 2] *).

#[export] Instance Excecao_eq_dec : EqDecision Excecao.
Proof. solve_decision. Defined.

(** ** The Python statement monad

    [PyM S O A] runs a sequence of Python statements on the globals [S].  It
    returns a value or an exception, the globals as they are at the end (or
    at the raise) and the outputs emitted (the messages sent), in order. *)

Inductive Resultado (A : Type) :=
| Ok (a : A)
| Exc (e : Excecao).
Arguments Ok {A} a.
Arguments Exc {A} e.

Record Exec (S O A : Type) := mkExec {
  resultado : Resultado A;
  estado_final : S;
  saidas : list O
}.
Arguments mkExec {S O A} resultado estado_final saidas.
Arguments resultado {S O A} _.
Arguments estado_final {S O A} _.
Arguments saidas {S O A} _.

Definition PyM (S O A : Type) := S -> Exec S O A.

Section Monad.
Context {S O : Type}.

Definition py_ret {A} (a : A) : PyM S O A := fun s => mkExec (Ok a) s [].

Definition py_bind {A B} (f : A -> PyM S O B) (m : PyM S O A) : PyM S O B :=
  fun s =>
    match m s with
    | mkExec (Ok a) s1 o1 =>
        match f a s1 with mkExec r s2 o2 => mkExec r s2 (o1 ++ o2) end
    | mkExec (Exc e) s1 o1 => mkExec (Exc e) s1 o1
    end.

(** Reading and writing the globals, sending, raising. *)
Definition py_get : PyM S O S := fun s => mkExec (Ok s) s [].
Definition py_put (s' : S) : PyM S O unit := fun _ => mkExec (Ok tt) s' [].
Definition py_modify (f : S -> S) : PyM S O unit :=
  fun s => mkExec (Ok tt) (f s) [].
Definition py_emit (o : O) : PyM S O unit := fun s => mkExec (Ok tt) s [o].
Definition py_raise {A} (e : Excecao) : PyM S O A :=
  fun s => mkExec (Exc e) s [].

#[export] Instance py_mret : MRet (PyM S O) := @py_ret.
#[export] Instance py_mbind : MBind (PyM S O) := @py_bind.

(** [for x in l: body(x)] *)
Fixpoint para_cada {X} (l : list X) (body : X -> PyM S O unit) : PyM S O unit :=
  match l with
  | [] => py_ret tt
  | x :: l' => py_bind (fun _ => para_cada l' body) (body x)
  end.
End Monad.

(** ** Monad laws, as rewriting lemmas of the database [pym] *)

Create Rewrite HintDb pym.
Create HintDb mutex discriminated.
Create Rewrite HintDb mutex_rw.

Section MonadLaws.
Context {S O : Type}.

Lemma py_bind_ret_l {A B} (a : A) (f : A -> PyM S O B) s :
  py_bind f (py_ret a) s = f a s.
Proof. unfold py_bind, py_ret. destruct (f a s); done. Qed.

Lemma py_bind_ret_r {A} (m : PyM S O A) s : py_bind py_ret m s = m s.
Proof.
  unfold py_bind, py_ret. destruct (m s) as [[] ? ?]; by rewrite ?app_nil_r.
Qed.

Lemma py_bind_assoc {A B C} (m : PyM S O A) (f : A -> PyM S O B)
      (g : B -> PyM S O C) s :
  py_bind g (py_bind f m) s = py_bind (fun a => py_bind g (f a)) m s.
Proof.
  unfold py_bind. destruct (m s) as [[a|e] s1 o1]; [|done].
  destruct (f a s1) as [[b|e] s2 o2]; [|done].
  destruct (g b s2) as [r s3 o3]. by rewrite app_assoc.
Qed.

(** A raise stops the sequence: nothing after it runs. *)
Lemma py_bind_raise {A B} e (f : A -> PyM S O B) s :
  py_bind f (py_raise e) s = mkExec (Exc e) s [].
Proof. done. Qed.

Lemma para_cada_app {X} (l1 l2 : list X) (body : X -> PyM S O unit) s :
  para_cada (l1 ++ l2) body s
  = py_bind (fun _ => para_cada l2 body) (para_cada l1 body) s.
Proof.
  revert s. induction l1 as [|x l1 IH]; intros s; simpl.
  - by rewrite py_bind_ret_l.
  - rewrite py_bind_assoc. unfold py_bind at 1 2.
    destruct (body x s) as [[[]|e] s1 o1]; [|done].
    by rewrite IH.
Qed.
End MonadLaws.

#[export] Hint Rewrite @py_bind_ret_l @py_bind_ret_r @py_bind_assoc
  @py_bind_raise : pym.

(** A statement followed by [return a] leaves the globals where the
    statement left them, whether it raised or not. *)
Lemma py_bind_ret_estado {S O A B} (m : PyM S O A) (f : A -> B) s :
  estado_final (py_bind (fun a => py_ret (f a)) m s) = estado_final (m s).
Proof. unfold py_bind, py_ret. by destruct (m s) as [[] ? ?]. Qed.

(** [pym_simpl] unfolds the monad instances and the primitive statements and
    reduces them.  A component extends it with the projections of its own
    state record; handlers that a proof treats as a black box stay folded
    and are rewritten with their equations. *)
Ltac pym_simpl :=
  repeat progress (
    try unfold mbind, mret, py_mbind, py_mret in *;
    try unfold py_bind, py_ret, py_get, py_put, py_modify, py_emit, py_raise in *;
    cbn beta iota zeta delta [para_cada resultado estado_final saidas andb orb negb]
      in *).

(** ** Counting in lists *)

Fixpoint contar {A} (p : A -> bool) (l : list A) : nat :=
  match l with
  | [] => 0
  | x :: l' => (if p x then 1 else 0) + contar p l'
  end.

Lemma contar_app {A} (p : A -> bool) l1 l2 :
  contar p (l1 ++ l2) = contar p l1 + contar p l2.
Proof. induction l1 as [|x l1 IH]; simpl; [done|]. rewrite IH. lia. Qed.

Lemma contar_middle {A} (p : A -> bool) l1 x l2 :
  contar p (l1 ++ x :: l2) = (if p x then 1 else 0) + contar p (l1 ++ l2).
Proof. rewrite !contar_app. simpl. lia. Qed.

Lemma contar_zero {A} (p : A -> bool) l :
  contar p l = 0 <-> forall x, x ∈ l -> p x = false.
Proof.
  induction l as [|y l IH]; simpl.
  - split; [intros _ x Hx; by apply elem_of_nil in Hx | done].
  - split.
    + intros H x Hx. apply elem_of_cons in Hx as [->|Hx].
      * destruct (p y); [lia|done].
      * apply IH; [lia|done].
    + intros H. rewrite (H y) by (by left). simpl. apply IH.
      intros x Hx. apply H. by right.
Qed.

Lemma contar_pos {A} (p : A -> bool) l x :
  x ∈ l -> p x = true -> 1 <= contar p l.
Proof.
  intros Hx Hp. destruct (decide (contar p l = 0)) as [H|H]; [|lia].
  apply contar_zero with (x := x) in H; [congruence|done].
Qed.

Lemma contar_ext {A} (p q : A -> bool) l :
  (forall x, x ∈ l -> p x = q x) -> contar p l = contar q l.
Proof.
  induction l as [|y l IH]; simpl; intros H; [done|].
  rewrite (H y) by (by left). rewrite IH; [done|]. intros x Hx. apply H. by right.
Qed.

#[export] Hint Rewrite @contar_app : mutex_rw.

(** [decidir] proves a decidable proposition about a concrete input by
    evaluating its decision procedure. *)
Ltac decidir :=
  match goal with |- ?P => apply (bool_decide_eq_true_1 P); vm_compute; reflexivity end.

(** At most one element of a list satisfies [p] when [contar p] is at most
    one. *)
Lemma contar_le_1_unico {A} (p : A -> bool) l x y :
  contar p l <= 1 -> x ∈ l -> y ∈ l -> p x = true -> p y = true -> x = y.
Proof.
  induction l as [|z l IH]; simpl; intros Hle Hx Hy Hpx Hpy;
    [by apply elem_of_nil in Hx|].
  apply elem_of_cons in Hx as [->|Hx], Hy as [->|Hy]; try done.
  - rewrite Hpx in Hle. simpl in Hle.
    pose proof (proj1 (contar_zero p l) ltac:(lia) y Hy). congruence.
  - rewrite Hpy in Hle. simpl in Hle.
    pose proof (proj1 (contar_zero p l) ltac:(lia) x Hx). congruence.
  - apply IH; try done. destruct (p z); lia.
Qed.

(** A property of every element of a list holds on each of its suffixes:
    what a loop leaves of a queue it pops. *)
Lemma Forall_suffix_of {A} (P : A -> Prop) l1 l2 :
  l1 `suffix_of` l2 -> Forall P l2 -> Forall P l1.
Proof. intros [k ->] H. by apply Forall_app in H as [_ ?]. Qed.

(** ** Schedules

    A run of a system is a list of events; [executar_lista] runs them one
    after the other with an executable step [passo_ev], and stops with
    [None] at the first event whose guard fails.  When [passo_ev] only takes
    steps of a relation [R], a whole run is a path of [R]. *)

Section Escalonamento.
Context {G E : Type} (passo_ev : G -> E -> option G).

Fixpoint executar_lista (g : G) (evs : list E) : option G :=
  match evs with
  | [] => Some g
  | ev :: evs' =>
      match passo_ev g ev with
      | Some g' => executar_lista g' evs'
      | None => None
      end
  end.

Lemma executar_lista_rtc (R : G -> G -> Prop) :
  (forall g ev g', passo_ev g ev = Some g' -> R g g') ->
  forall g evs g', executar_lista g evs = Some g' -> rtc R g g'.
Proof.
  intros Hpasso g evs. revert g. induction evs as [|ev evs IH]; intros g g'; simpl.
  - intros [= <-]. apply rtc_refl.
  - destruct (passo_ev g ev) as [g1|] eqn:H1; [|done].
    intros H. eapply rtc_l; [by eapply Hpasso|by apply IH].
Qed.
End Escalonamento.
