(* ===== verification/Relogio.v ===== *)
(** * Relogio: the Lamport clock [relogio_local]

    The clock is the global [relogio_local] of [src/p1.py] (line 44).  It
    changes in two ways:
    - [atualizar_relogio] (lines 53-55) sets it to
      [max(relogio_local, int(timestamp_recebido)) + 1].  [processar_mensagem]
      calls it once per received message, before anything else.
    - [relogio_local += 1] (lines 74 and 90, in [multicast_requisicao] and
      [enviar_ack]) is the tick taken before a message is stamped.

    Python integers are unbounded, so the clock is a [Z] and never wraps.
    The theorems are the spec's clock monotonicity (section 8): every event
    strictly increases the clock, and after an observe of [ts] the clock is at
    least [ts + 1], also after any later events. *)

From S2P Require Import Prelude.
From Stdlib Require Import Sorted.

Module Relogio.

#[local] Open Scope Z_scope.

(** [relogio_local = max(relogio_local, int(timestamp_recebido)) + 1]; the
    [int] of an integer is the integer itself. *)
Definition atualizar_relogio (relogio_local timestamp_recebido : Z) : Z :=
  Z.max relogio_local timestamp_recebido + 1.

(** [relogio_local += 1] *)
Definition incrementar (relogio_local : Z) : Z := relogio_local + 1.

(** The clock events of one process, in the order they happen. *)
Inductive Evento :=
| Incremento              (** a tick before stamping an outgoing message *)
| Recebimento (ts : Z)    (** [atualizar_relogio ts] on a received message *).

Definition aplicar (c : Z) (e : Evento) : Z :=
  match e with
  | Incremento => incrementar c
  | Recebimento ts => atualizar_relogio c ts
  end.

(** The successive clock values of a trace of events. *)
Fixpoint valores (c : Z) (es : list Evento) : list Z :=
  match es with
  | [] => []
  | e :: es' => aplicar c e :: valores (aplicar c e) es'
  end.

Definition relogio_apos (c : Z) (es : list Evento) : Z := foldl aplicar c es.

(** ** Lemmas *)

Lemma atualizar_relogio_gt_local (c ts : Z) : c < atualizar_relogio c ts.
Proof. unfold atualizar_relogio. lia. Qed.

Lemma atualizar_relogio_gt_ts (c ts : Z) : ts < atualizar_relogio c ts.
Proof. unfold atualizar_relogio. lia. Qed.

Lemma aplicar_gt (c : Z) (e : Evento) : c < aplicar c e.
Proof. destruct e; simpl; unfold incrementar, atualizar_relogio; lia. Qed.

#[export] Hint Resolve atualizar_relogio_gt_local atualizar_relogio_gt_ts
  aplicar_gt : mutex.

Lemma relogio_apos_ge (c : Z) (es : list Evento) : c + Z.of_nat (length es) <= relogio_apos c es.
Proof.
  unfold relogio_apos. revert c.
  induction es as [|e es IH]; intros c; simpl; [lia|].
  specialize (IH (aplicar c e)). pose proof (aplicar_gt c e). lia.
Qed.

(** ** Theorems *)

(** C27: one observe puts the clock strictly above both the local clock and
    the received timestamp: [atualizar_relogio c ts >= ts + 1] and
    [> c], and it is the least such value. *)
Theorem atualizar_relogio_spec (c ts : Z) :
  c < atualizar_relogio c ts /\ ts < atualizar_relogio c ts /\
  forall c', c < c' -> ts < c' -> atualizar_relogio c ts <= c'.
Proof. unfold atualizar_relogio. repeat split; intros; lia. Qed.

(** C28: along any trace of ticks and observes, the successive clock values
    are strictly increasing, starting above the initial clock. *)
Theorem valores_estritamente_crescentes (c : Z) (es : list Evento) :
  StronglySorted Z.lt (c :: valores c es).
Proof.
  revert c. induction es as [|e es IH]; intros c; simpl.
  - repeat constructor.
  - constructor; [apply IH|].
    constructor; [apply aplicar_gt|].
    pose proof (IH (aplicar c e)) as Hs.
    apply StronglySorted_inv in Hs as [_ Hall].
    eapply Forall_impl; [exact Hall|]. intros x Hx.
    pose proof (aplicar_gt c e). lia.
Qed.

(** C29: every later event keeps the clock above a timestamp it has observed:
    after a trace that contains [Recebimento ts], the clock exceeds [ts]. *)
Theorem relogio_apos_recebimento (c : Z) (es : list Evento) (ts : Z) :
  Recebimento ts ∈ es -> ts < relogio_apos c es.
Proof.
  intros Hin. apply list_elem_of_split in Hin as (es1 & es2 & ->).
  unfold relogio_apos. rewrite foldl_app. simpl.
  pose proof (relogio_apos_ge (atualizar_relogio (foldl aplicar c es1) ts) es2)
    as Hge.
  unfold relogio_apos in Hge.
  pose proof (atualizar_relogio_gt_ts (foldl aplicar c es1) ts). lia.
Qed.

(** Witness: observing 7 with clock 3 gives 8, the least value above both. *)
Example atualizar_relogio_spec_exemplo :
  atualizar_relogio 3 7 = 8 /\ (forall c', 3 < c' -> 7 < c' -> 8 <= c').
Proof.
  split; [reflexivity|].
  destruct (atualizar_relogio_spec 3 7) as (_ & _ & H). exact H.
Defined.

(** Witness: observing 7 with clock 3, then ticking twice, gives 10. *)
Example relogio_apos_recebimento_exemplo :
  relogio_apos 3 [Recebimento 7; Incremento; Incremento] = 10
  /\ 7 < relogio_apos 3 [Recebimento 7; Incremento; Incremento].
Proof.
  split; [reflexivity|].
  apply relogio_apos_recebimento. by left.
Defined.

End Relogio.
