(* ===== verification/Mensagem.v ===== *)
(** * Mensagem: messages, their dict form, and the priority comparison

    Every message of [src/p1.py] is a dict literal with four keys, built in
    [multicast_requisicao] (lines 75-80) and [enviar_ack] (lines 91-96).  The
    record [Mensagem] has one field per key.  [servidor] (lines 183-193)
    receives a JSON object and [processar_mensagem] (lines 149-152) reads
    the four fields with [mensagem[...]], which raises [KeyError] when a key
    is missing.  [Objeto] is the dict that [json.loads] returns, as a
    [gmap string Valor].

    The model keeps two kinds of JSON value, strings and integers.  A field
    of the wrong kind is reported as [TypeError].  This approximates the
    Python behaviour, which depends on how the value is used later.

    [tupla_maior] is Python's [(a1, s1) > (a2, s2)] on an (int, str) pair,
    used at line 160.  Python compares strings by code point.  On the UTF-8
    bytes of a [string], [String.compare] gives the same order. *)

From S2P Require Import Prelude.

Module Mensagem.

#[local] Open Scope Z_scope.

(** ** The message dict built by the code *)

Record Mensagem := {
  tipo : string;        (** "requisicao", "ack" or "nack" *)
  recurso : string;
  timestamp : Z;
  id : string
}.

#[export] Instance Mensagem_eq_dec : EqDecision Mensagem.
Proof. solve_decision. Defined.

(** ** JSON objects received by the server *)

Inductive Valor :=
| VStr (s : string)
| VInt (z : Z).

#[export] Instance Valor_eq_dec : EqDecision Valor.
Proof. solve_decision. Defined.

Definition Objeto := gmap string Valor.

(** [json.loads(json.dumps(mensagem))] of a message the code builds. *)
Definition para_objeto (m : Mensagem) : Objeto :=
  list_to_map [("tipo", VStr (tipo m)); ("recurso", VStr (recurso m));
               ("timestamp", VInt (timestamp m)); ("id", VStr (id m))].

(** [mensagem[k]] *)
Definition obter (o : Objeto) (k : string) : Resultado Valor :=
  match o !! k with
  | Some v => Ok v
  | None => Exc (KeyError k)
  end.

Definition como_str (v : Valor) : Resultado string :=
  match v with VStr s => Ok s | VInt _ => Exc TypeError end.

Definition como_int (v : Valor) : Resultado Z :=
  match v with VInt z => Ok z | VStr _ => Exc TypeError end.

(** Lines 149-152 and the [int(timestamp_recebido)] of line 55.  The four
    lookups run in the order of the code, so the first missing key in that
    order is the one reported. *)
Definition ler_mensagem (o : Objeto) : Resultado Mensagem :=
  match obter o "tipo", obter o "recurso", obter o "id", obter o "timestamp" with
  | Exc e, _, _, _ | _, Exc e, _, _ | _, _, Exc e, _ | _, _, _, Exc e => Exc e
  | Ok t, Ok r, Ok i, Ok ts =>
      match como_str t, como_str r, como_str i, como_int ts with
      | Ok t', Ok r', Ok i', Ok ts' =>
          Ok {| tipo := t'; recurso := r'; timestamp := ts'; id := i' |}
      | Exc e, _, _, _ | _, Exc e, _, _ | _, _, Exc e, _ | _, _, _, Exc e => Exc e
      end
  end.

(** ** Python tuple comparison [(a1, s1) > (a2, s2)] *)

Definition str_maior (s1 s2 : string) : bool :=
  match String.compare s1 s2 with Gt => true | _ => false end.

Definition tupla_maior (a b : Z * string) : bool :=
  if Z.eqb a.1 b.1 then str_maior a.2 b.2 else Z.gtb a.1 b.1.

(** ** Lemmas on the string order *)

Lemma ascii_compare_trans_gt a b c :
  Ascii.compare a b = Gt -> Ascii.compare b c = Gt -> Ascii.compare a c = Gt.
Proof.
  unfold Ascii.compare. rewrite !N.compare_gt_iff. lia.
Qed.

Lemma ascii_compare_eq_gt a b c :
  Ascii.compare a b = Eq -> Ascii.compare b c = Gt -> Ascii.compare a c = Gt.
Proof. intros ->%Ascii.compare_eq_iff. done. Qed.

Lemma ascii_compare_gt_eq a b c :
  Ascii.compare a b = Gt -> Ascii.compare b c = Eq -> Ascii.compare a c = Gt.
Proof. intros H <-%Ascii.compare_eq_iff. done. Qed.

Lemma string_compare_refl s : String.compare s s = Eq.
Proof.
  induction s as [|a s IH]; simpl; [done|].
  unfold Ascii.compare. rewrite N.compare_refl. done.
Qed.

Lemma string_compare_trans_gt s1 s2 s3 :
  String.compare s1 s2 = Gt -> String.compare s2 s3 = Gt ->
  String.compare s1 s3 = Gt.
Proof.
  revert s2 s3. induction s1 as [|a s1 IH]; intros [|b s2] [|c s3]; simpl;
    try done.
  destruct (Ascii.compare a b) eqn:Hab, (Ascii.compare b c) eqn:Hbc;
    try done; intros H1 H2.
  - apply Ascii.compare_eq_iff in Hab, Hbc. subst.
    unfold Ascii.compare. rewrite N.compare_refl. eauto.
  - by rewrite (ascii_compare_eq_gt _ _ _ Hab Hbc).
  - by rewrite (ascii_compare_gt_eq _ _ _ Hab Hbc).
  - by rewrite (ascii_compare_trans_gt _ _ _ Hab Hbc).
Qed.

Lemma str_maior_irrefl s : str_maior s s = false.
Proof. unfold str_maior. by rewrite string_compare_refl. Qed.

Lemma str_maior_asym s1 s2 : str_maior s1 s2 = true -> str_maior s2 s1 = false.
Proof.
  unfold str_maior. rewrite (String.compare_antisym s2 s1).
  destruct (String.compare s1 s2); done.
Qed.

Lemma str_maior_total s1 s2 :
  s1 <> s2 -> str_maior s1 s2 = true \/ str_maior s2 s1 = true.
Proof.
  intros Hne. unfold str_maior. rewrite (String.compare_antisym s2 s1).
  destruct (String.compare s1 s2) eqn:E; simpl; auto.
  by apply String.compare_eq_iff in E.
Qed.

Lemma tupla_maior_spec (a b : Z * string) :
  tupla_maior a b = true <-> a.1 > b.1 \/ (a.1 = b.1 /\ str_maior a.2 b.2 = true).
Proof.
  unfold tupla_maior. destruct (Z.eqb_spec a.1 b.1) as [E|E].
  - split; [intros; by right|]. intros [H|[_ H]]; [lia|done].
  - rewrite Z.gtb_lt. split; [intros; left; lia|]. intros [H|[H _]]; lia.
Qed.

(** The priority order of line 160 is a strict order on (timestamp, id)
    pairs: irreflexive and transitive. *)
#[export] Instance tupla_maior_strict :
  StrictOrder (fun a b : Z * string => tupla_maior a b = true).
Proof.
  split.
  - intros [t s] H%tupla_maior_spec. simpl in H.
    destruct H as [H|[_ H]]; [lia|]. by rewrite str_maior_irrefl in H.
  - intros [t1 s1] [t2 s2] [t3 s3] H1%tupla_maior_spec H2%tupla_maior_spec.
    apply tupla_maior_spec. simpl in *.
    destruct H1 as [H1|[-> H1]], H2 as [H2|[-> H2]]; try (left; lia).
    right. split; [done|]. unfold str_maior in *.
    destruct (String.compare s1 s2) eqn:E1, (String.compare s2 s3) eqn:E2;
      try done.
    by rewrite (string_compare_trans_gt _ _ _ E1 E2).
Qed.

(** ** Theorems *)

(** The keys read by [processar_mensagem], in the order of lines 149-152. *)
Definition chaves_lidas : list string := ["tipo"; "recurso"; "id"; "timestamp"].

(** C31: reading back the dict of a message gives the message: the four
    fields written by [multicast_requisicao] / [enviar_ack] are the four
    fields read by [processar_mensagem]. *)
Theorem ler_para_objeto (m : Mensagem) : ler_mensagem (para_objeto m) = Ok m.
Proof. destruct m. reflexivity. Qed.

(** C30: a received object that lacks a key raises [KeyError] for the first
    missing key in the order of the code, whatever the other fields are. *)
Theorem ler_mensagem_chave_ausente (o : Objeto) (pre pos : list string) (k : string) :
  chaves_lidas = pre ++ k :: pos ->
  (forall k', k' ∈ pre -> is_Some (o !! k')) ->
  o !! k = None ->
  ler_mensagem o = Exc (KeyError k).
Proof.
  intros Hsplit Hpre Hk. unfold ler_mensagem, obter.
  unfold chaves_lidas in Hsplit.
  destruct pre as [|k1 [|k2 [|k3 [|k4 pre]]]]; simpl in Hsplit; simplify_eq;
    [..|exfalso; destruct pre; simpl in *; congruence];
    rewrite ?Hk;
    repeat match goal with
    | |- context [o !! ?k'] =>
        let H := fresh in
        destruct (Hpre k') as [? H]; [set_solver|]; rewrite H
    end; done.
Qed.

Example ler_mensagem_chave_ausente_exemplo :
  let o : Objeto := <["tipo" := VStr "ack"]> (<["id" := VStr "p2"]> ∅) in
  ler_mensagem o = Exc (KeyError "recurso").
Proof.
  simpl. apply (ler_mensagem_chave_ausente _ ["tipo"] ["id"; "timestamp"]).
  - reflexivity.
  - intros k' Hk. apply list_elem_of_singleton in Hk as ->. by eexists.
  - reflexivity.
Defined.

End Mensagem.
