(* ===== verification/Processo.v ===== *)
(** * Processo: the engine of one process of [src/p1.py]

    The five globals of lines 41-45 are the record [Estado].  The
    configuration constants [ID_PROCESSO] and [PROCESSOS] (lines 29-34) are
    the variables of Section [Motor], so every handler takes them as its
    first two arguments.  Each function of the source is a [PyM] computation
    with the same name: it reads and writes [Estado] and emits the messages
    it sends as pairs (destination, message).

    The main thread of [interface_usuario] / [entrar_recurso_critico] blocks
    in [input()] and in two [while ...: time.sleep(0.1)] loops.  It is the
    state machine [Fase].  One step of it ([passo_comando],
    [passo_escolha], [passo_aguardar_acks], [passo_aguardar_liberacao]) runs
    one command, one answer of the operator, or one iteration of a polling
    loop.

    The theorems give each handler's result on every branch: the deferral
    rule and its constant priority test, the ack for a free resource, the
    ack and unknown kinds, the drain of the queue on release, and the
    [KeyError] paths. *)

From S2P Require Import Prelude Relogio Mensagem.
Import Mensagem.

Module Processo.

#[local] Open Scope Z_scope.

(** ** The globals (lines 41-45) *)

Record Estado := mkEstado {
  recurso_ocupado : bool;
  fila_recurso : list Mensagem;
  respostas_esperadas : gmap string (gset string);
  relogio_local : Z;
  esperando_recurso : option string
}.

Definition estado_inicial : Estado := mkEstado false [] ∅ 0 None.

(** Assignments to one global. *)
Definition com_ocupado (b : bool) (s : Estado) : Estado :=
  mkEstado b (fila_recurso s) (respostas_esperadas s) (relogio_local s)
    (esperando_recurso s).
Definition com_fila (f : list Mensagem) (s : Estado) : Estado :=
  mkEstado (recurso_ocupado s) f (respostas_esperadas s) (relogio_local s)
    (esperando_recurso s).
Definition com_respostas (r : gmap string (gset string)) (s : Estado) : Estado :=
  mkEstado (recurso_ocupado s) (fila_recurso s) r (relogio_local s)
    (esperando_recurso s).
Definition com_relogio (c : Z) (s : Estado) : Estado :=
  mkEstado (recurso_ocupado s) (fila_recurso s) (respostas_esperadas s) c
    (esperando_recurso s).
Definition com_esperando (e : option string) (s : Estado) : Estado :=
  mkEstado (recurso_ocupado s) (fila_recurso s) (respostas_esperadas s)
    (relogio_local s) e.

(** A send: the destination id and the message. *)
Abbreviation Envio := (string * Mensagem)%type.

Abbreviation M := (PyM Estado Envio).

(** Outcome of the first part of [entrar_recurso_critico]. *)
Inductive Entrada :=
| EntradaOcupado       (** [recurso_ocupado] was set: the operator is asked *)
| EntradaRequisitada   (** the request was multicast *).

(** The main thread: where [interface_usuario] is blocked. *)
Inductive Fase :=
| Prompt                          (** [input("> ")] of [interface_usuario] *)
| EscolhaOcupado (r : string)     (** [input("> ")] of line 108 *)
| AguardandoLiberacao (r : string) (** [while recurso_ocupado] of line 111 *)
| AguardandoAcks (r : string)     (** [while respostas_esperadas[recurso]] *)
| Encerrado                       (** after [sair]: the process has exited *).

#[export] Instance Fase_eq_dec : EqDecision Fase.
Proof. solve_decision. Defined.

(** Commands of [interface_usuario] once parsed. *)
Inductive Comando :=
| Solicitar (r : string)
| Liberar (r : string)
| Sair
| Outro.

Section Motor.
Context (ID_PROCESSO : string) (PROCESSOS : list (string * (string * Z))).

(** Lines 53-55. *)
Definition atualizar_relogio (timestamp_recebido : Z) : M unit :=
  py_modify (fun s =>
    com_relogio (Relogio.atualizar_relogio (relogio_local s) timestamp_recebido) s).

(** Lines 59-68: [PROCESSOS[destino]] raises [KeyError] before the
    [try]; a failure of the socket itself is caught and printed, which is
    the loss of the message in the network of [Sistema]. *)
Definition enviar_mensagem (destino : string) (mensagem : Mensagem) : M unit :=
  if bool_decide (destino ∈ PROCESSOS.*1) then py_emit (destino, mensagem)
  else py_raise (KeyError destino).

(** Lines 72-84. *)
Definition multicast_requisicao (recurso : string) : M unit :=
  py_modify (fun s => com_relogio (Relogio.incrementar (relogio_local s)) s);;
  s ← py_get;
  let mensagem := {| tipo := "requisicao"; Mensagem.recurso := recurso;
                     timestamp := relogio_local s; id := ID_PROCESSO |} in
  py_modify (fun s => com_respostas
    (<[recurso := list_to_set (PROCESSOS.*1) ∖ {[ID_PROCESSO]}]>
       (respostas_esperadas s)) s);;
  para_cada (PROCESSOS.*1) (fun destino =>
    if bool_decide (destino ≠ ID_PROCESSO)
    then enviar_mensagem destino mensagem else py_ret tt).

(** Lines 88-97. *)
Definition enviar_ack (destino recurso : string) : M unit :=
  py_modify (fun s => com_relogio (Relogio.incrementar (relogio_local s)) s);;
  s ← py_get;
  enviar_mensagem destino
    {| tipo := "ack"; Mensagem.recurso := recurso;
       timestamp := relogio_local s; id := ID_PROCESSO |}.

(** Lines 101-122 without the prompt: the test of [recurso_ocupado], then
    [esperando_recurso = recurso] and the multicast. *)
Definition entrar_recurso_critico (recurso : string) : M Entrada :=
  s ← py_get;
  if recurso_ocupado s then py_ret EntradaOcupado
  else
    py_modify (com_esperando (Some recurso));;
    multicast_requisicao recurso;;
    py_ret EntradaRequisitada.

(** Lines 123-125, one iteration: the loop test reads
    [respostas_esperadas[recurso]]; when the set is empty the loop exits and
    [recurso_ocupado = True].  The result tells whether the loop exited. *)
Definition verificar_acks (recurso : string) : M bool :=
  s ← py_get;
  match respostas_esperadas s !! recurso with
  | None => py_raise (KeyError recurso)
  | Some pendentes =>
      if bool_decide (pendentes = ∅)
      then py_modify (com_ocupado true);; py_ret true
      else py_ret false
  end.

(** Lines 141-143: [while fila_recurso: requisicao = fila_recurso.pop(0);
    enviar_ack(requisicao["id"], recurso)], with fuel. *)
Fixpoint drenar_fila (fuel : nat) (recurso : string) : M unit :=
  match fuel with
  | O => py_ret tt
  | S fuel' =>
      s ← py_get;
      match fila_recurso s with
      | [] => py_ret tt
      | requisicao :: resto =>
          py_modify (com_fila resto);;
          enviar_ack (id requisicao) recurso;;
          drenar_fila fuel' recurso
      end
  end.

(** Lines 130-143.  A release of a resource that is not held does
    nothing. *)
Definition sair_recurso_critico (recurso : string) : M unit :=
  s ← py_get;
  if recurso_ocupado s && bool_decide (esperando_recurso s = Some recurso) then
    py_modify (com_ocupado false);;
    py_modify (com_esperando None);;
    py_modify (com_ocupado false);;
    s' ← py_get;
    drenar_fila (length (fila_recurso s')) recurso
  else py_ret tt.

(** Lines 154-179, after the field lookups: the message is already read. *)
Definition processar_mensagem (mensagem : Mensagem) : M unit :=
  atualizar_relogio (timestamp mensagem);;
  s ← py_get;
  if bool_decide (tipo mensagem = "requisicao") then
    if recurso_ocupado s
       || (bool_decide (esperando_recurso s = Some (recurso mensagem))
           && tupla_maior (relogio_local s, ID_PROCESSO)
                          (timestamp mensagem, id mensagem))
    then py_modify (fun s => com_fila (fila_recurso s ++ [mensagem]) s)
    else enviar_ack (id mensagem) (recurso mensagem)
  else if bool_decide (tipo mensagem = "ack") then
    match respostas_esperadas s !! recurso mensagem with
    | Some pendentes =>
        py_modify (com_respostas
          (<[recurso mensagem := pendentes ∖ {[id mensagem]}]>
             (respostas_esperadas s)))
    | None => py_ret tt
    end
  else py_ret tt.

(** Lines 147-154: the whole handler on the object that [json.loads]
    returned.  The lookups come first and raise [KeyError] before the
    clock is touched. *)
Definition processar_objeto (o : Objeto) : M unit :=
  match ler_mensagem o with
  | Exc e => py_raise e
  | Ok mensagem => processar_mensagem mensagem
  end.

(** ** The main thread, one step at a time *)

(** Lines 101-122 after a command [solicitar]: the prompt of line 108 when
    [recurso_ocupado], else the wait for the acks. *)
Definition fase_apos_entrada (recurso : string) (e : Entrada) : Fase :=
  match e with
  | EntradaOcupado => EscolhaOcupado recurso
  | EntradaRequisitada => AguardandoAcks recurso
  end.

(** Lines 197-209: one command at the prompt. *)
Definition passo_comando (c : Comando) : M Fase :=
  match c with
  | Solicitar recurso =>
      e ← entrar_recurso_critico recurso; py_ret (fase_apos_entrada recurso e)
  | Liberar recurso => sair_recurso_critico recurso;; py_ret Prompt
  | Sair => py_ret Encerrado
  | Outro => py_ret Prompt
  end.

(** Lines 108-116: the operator's answer; ["1"] waits, anything else gives
    up. *)
Definition passo_escolha (recurso escolha : string) : Fase :=
  if bool_decide (escolha = "1") then AguardandoLiberacao recurso else Prompt.

(** Lines 111-113, one iteration: while [recurso_ocupado] sleep; then the
    recursive call [entrar_recurso_critico(recurso)]. *)
Definition passo_aguardar_liberacao (recurso : string) : M Fase :=
  s ← py_get;
  if recurso_ocupado s then py_ret (AguardandoLiberacao recurso)
  else e ← entrar_recurso_critico recurso; py_ret (fase_apos_entrada recurso e).

(** Lines 123-126, one iteration. *)
Definition passo_aguardar_acks (recurso : string) : M Fase :=
  b ← verificar_acks recurso;
  py_ret (if (b : bool) then Prompt else AguardandoAcks recurso).

End Motor.

(** ** Equations of the handlers *)

(** [proc_simpl]: [pym_simpl] and the globals of [Estado]. *)
Ltac proc_simpl :=
  repeat progress (pym_simpl;
    cbn beta iota zeta delta [recurso_ocupado fila_recurso respostas_esperadas relogio_local
         esperando_recurso com_ocupado com_fila com_respostas com_relogio
         com_esperando] in *).

Section Equacoes.
Context (ID_PROCESSO : string) (PROCESSOS : list (string * (string * Z))).

Definition msg_ack (recurso : string) (c : Z) : Mensagem :=
  {| tipo := "ack"; Mensagem.recurso := recurso; timestamp := c;
     id := ID_PROCESSO |}.

Definition msg_requisicao (recurso : string) (c : Z) : Mensagem :=
  {| tipo := "requisicao"; Mensagem.recurso := recurso; timestamp := c;
     id := ID_PROCESSO |}.

(** The acks that the drain loop sends for the queue [fila], starting from
    clock [c]: one per entry, in queue order, each for [recurso]. *)
Fixpoint acks_da_fila (recurso : string) (c : Z) (fila : list Mensagem) : list Envio :=
  match fila with
  | [] => []
  | q :: fila' => (id q, msg_ack recurso (c + 1)) :: acks_da_fila recurso (c + 1) fila'
  end.

Lemma acks_da_fila_destinos r c f : (acks_da_fila r c f).*1 = id <$> f.
Proof.
  revert c. induction f as [|q f IH]; intros c; simpl; [done|]. by rewrite IH.
Qed.

Lemma acks_da_fila_elem r c f env :
  env ∈ acks_da_fila r c f -> exists q c', q ∈ f /\ env = (id q, msg_ack r c').
Proof.
  revert c. induction f as [|q f IH]; intros c Henv; simpl in Henv.
  - by apply elem_of_nil in Henv.
  - apply elem_of_cons in Henv as [->|Henv].
    + exists q, (c + 1). split; [by left|done].
    + destruct (IH _ Henv) as (q' & c' & Hq & ->). exists q', c'.
      split; [by right|done].
Qed.

(** The [k]-th ack of the drain (from 0) carries the clock [c + k + 1]. *)
Lemma acks_da_fila_imap r c f :
  acks_da_fila r c f = imap (fun k q => (id q, msg_ack r (c + Z.of_nat k + 1))) f.
Proof.
  revert c. induction f as [|q f IH]; intros c; [done|]. cbn [acks_da_fila imap].
  rewrite IH. f_equal; [f_equal; f_equal; lia|].
  apply imap_ext. intros k q' _. simpl. do 3 f_equal. lia.
Qed.

(** What the server does with the JSON of a message built by a peer. *)
Lemma processar_objeto_para_objeto m s :
  processar_objeto ID_PROCESSO PROCESSOS (para_objeto m) s
  = processar_mensagem ID_PROCESSO PROCESSOS m s.
Proof. unfold processar_objeto. by destruct m. Qed.

Lemma enviar_mensagem_ok d m s :
  d ∈ PROCESSOS.*1 -> enviar_mensagem PROCESSOS d m s = mkExec (Ok tt) s [(d, m)].
Proof. intros H. unfold enviar_mensagem. by rewrite bool_decide_eq_true_2. Qed.

Lemma enviar_mensagem_erro d m s :
  d ∉ PROCESSOS.*1 -> enviar_mensagem PROCESSOS d m s = mkExec (Exc (KeyError d)) s [].
Proof. intros H. unfold enviar_mensagem. by rewrite bool_decide_eq_false_2. Qed.

Lemma enviar_ack_ok d r s :
  d ∈ PROCESSOS.*1 ->
  enviar_ack ID_PROCESSO PROCESSOS d r s
  = mkExec (Ok tt) (com_relogio (relogio_local s + 1) s)
      [(d, msg_ack r (relogio_local s + 1))].
Proof. intros H. unfold enviar_ack. pym_simpl. by rewrite enviar_mensagem_ok. Qed.

Lemma enviar_ack_erro d r s :
  d ∉ PROCESSOS.*1 ->
  enviar_ack ID_PROCESSO PROCESSOS d r s
  = mkExec (Exc (KeyError d)) (com_relogio (relogio_local s + 1) s) [].
Proof. intros H. unfold enviar_ack. pym_simpl. by rewrite enviar_mensagem_erro. Qed.

(** The priority test of line 160 runs after [atualizar_relogio]: its
    first component is then above the received timestamp, so it holds
    whatever the ids are. *)
Lemma prioridade_sempre_verdadeira c ts remetente :
  tupla_maior (Relogio.atualizar_relogio c ts, ID_PROCESSO) (ts, remetente) = true.
Proof.
  apply tupla_maior_spec. left. simpl.
  pose proof (Relogio.atualizar_relogio_gt_ts c ts). lia.
Qed.

(** The request branch, with the priority test evaluated. *)
Lemma processar_requisicao_eq m s :
  tipo m = "requisicao" ->
  processar_mensagem ID_PROCESSO PROCESSOS m s =
  let s1 := com_relogio (Relogio.atualizar_relogio (relogio_local s) (timestamp m)) s in
  if recurso_ocupado s || bool_decide (esperando_recurso s = Some (recurso m))
  then mkExec (Ok tt) (com_fila (fila_recurso s ++ [m]) s1) []
  else enviar_ack ID_PROCESSO PROCESSOS (id m) (recurso m) s1.
Proof.
  intros Ht. unfold processar_mensagem, atualizar_relogio. pym_simpl.
  rewrite bool_decide_eq_true_2 by done. simpl.
  rewrite prioridade_sempre_verdadeira, andb_true_r.
  destruct (recurso_ocupado s), (bool_decide _); simpl; try done;
    destruct (enviar_ack _ _ _ _ _); done.
Qed.

Lemma processar_ack_eq m s :
  tipo m = "ack" ->
  processar_mensagem ID_PROCESSO PROCESSOS m s =
  let s1 := com_relogio (Relogio.atualizar_relogio (relogio_local s) (timestamp m)) s in
  mkExec (Ok tt)
    (match respostas_esperadas s !! recurso m with
     | Some pendentes =>
         com_respostas (<[recurso m := pendentes ∖ {[id m]}]> (respostas_esperadas s)) s1
     | None => s1
     end) [].
Proof.
  intros Ht. unfold processar_mensagem, atualizar_relogio. pym_simpl.
  rewrite bool_decide_eq_false_2 by (rewrite Ht; done).
  rewrite bool_decide_eq_true_2 by done. simpl.
  by destruct (respostas_esperadas s !! recurso m).
Qed.

Lemma processar_outro_eq m s :
  tipo m <> "requisicao" -> tipo m <> "ack" ->
  processar_mensagem ID_PROCESSO PROCESSOS m s =
  mkExec (Ok tt)
    (com_relogio (Relogio.atualizar_relogio (relogio_local s) (timestamp m)) s) [].
Proof.
  intros H1 H2. unfold processar_mensagem, atualizar_relogio. pym_simpl.
  by rewrite !bool_decide_eq_false_2.
Qed.

(** The drain loop with enough fuel sends [acks_da_fila] and empties the
    queue. *)
Lemma drenar_fila_eq (fuel : nat) (r : string) (s : Estado) :
  (length (fila_recurso s) <= fuel)%nat ->
  Forall (fun q => id q ∈ PROCESSOS.*1) (fila_recurso s) ->
  drenar_fila ID_PROCESSO PROCESSOS fuel r s =
  mkExec (Ok tt)
    (com_fila [] (com_relogio (relogio_local s + Z.of_nat (length (fila_recurso s))) s))
    (acks_da_fila r (relogio_local s) (fila_recurso s)).
Proof.
  destruct s as [oc fila resp c esp]; simpl.
  revert fuel c. induction fila as [|q fila IH]; intros fuel c Hfuel Hids.
  - destruct fuel; pym_simpl; unfold com_fila, com_relogio; simpl;
      by rewrite Z.add_0_r.
  - destruct fuel as [|fuel]; simpl in Hfuel; [lia|].
    cbn [drenar_fila]. proc_simpl.
    apply Forall_cons in Hids as [Hq Hids].
    rewrite enviar_ack_ok by done.
    unfold com_relogio, com_fila at 2; simpl.
    rewrite (IH fuel (c + 1)); [| first [lia | exact Hids] ..].
    unfold com_fila, com_relogio; simpl. rewrite Nat2Z.inj_succ.
    by replace (c + 1 + Z.of_nat (length fila)) with (c + Z.succ (Z.of_nat (length fila)))
      by lia.
Qed.

Lemma para_cada_multicast (l : list string) (m : Mensagem) s :
  (forall d, d ∈ l -> d ∈ PROCESSOS.*1) ->
  para_cada l (fun destino =>
    if bool_decide (destino ≠ ID_PROCESSO)
    then enviar_mensagem PROCESSOS destino m else py_ret tt) s
  = mkExec (Ok tt) s ((fun d => (d, m)) <$> filter (fun d => d ≠ ID_PROCESSO) l).
Proof.
  revert s. induction l as [|d l IH]; intros s Hl; [done|].
  cbn [para_cada]. unfold py_bind. rewrite filter_cons.
  case_bool_decide as Hd.
  - rewrite enviar_mensagem_ok by (apply Hl; by left). cbn iota beta.
    rewrite IH by (intros; apply Hl; by right).
    by destruct (decide (d ≠ ID_PROCESSO)).
  - unfold py_ret at 1. cbn iota beta.
    rewrite IH by (intros; apply Hl; by right).
    by destruct (decide (d ≠ ID_PROCESSO)).
Qed.

Lemma multicast_requisicao_eq r s :
  multicast_requisicao ID_PROCESSO PROCESSOS r s =
  mkExec (Ok tt)
    (com_respostas (<[r := list_to_set (PROCESSOS.*1) ∖ {[ID_PROCESSO]}]>
                      (respostas_esperadas s))
       (com_relogio (relogio_local s + 1) s))
    ((fun d => (d, msg_requisicao r (relogio_local s + 1)))
       <$> filter (fun d => d ≠ ID_PROCESSO) (PROCESSOS.*1)).
Proof.
  unfold multicast_requisicao. proc_simpl.
  rewrite para_cada_multicast by done. done.
Qed.

Lemma entrar_recurso_critico_eq r s :
  entrar_recurso_critico ID_PROCESSO PROCESSOS r s =
  if recurso_ocupado s then mkExec (Ok EntradaOcupado) s []
  else mkExec (Ok EntradaRequisitada)
    (com_respostas (<[r := list_to_set (PROCESSOS.*1) ∖ {[ID_PROCESSO]}]>
                      (respostas_esperadas s))
       (com_relogio (relogio_local s + 1) (com_esperando (Some r) s)))
    ((fun d => (d, msg_requisicao r (relogio_local s + 1)))
       <$> filter (fun d => d ≠ ID_PROCESSO) (PROCESSOS.*1)).
Proof.
  unfold entrar_recurso_critico. proc_simpl.
  destruct (recurso_ocupado s); [done|]. proc_simpl.
  rewrite multicast_requisicao_eq. simpl. by rewrite app_nil_r.
Qed.

Lemma sair_recurso_critico_eq r s :
  Forall (fun q => id q ∈ PROCESSOS.*1) (fila_recurso s) ->
  sair_recurso_critico ID_PROCESSO PROCESSOS r s =
  if recurso_ocupado s && bool_decide (esperando_recurso s = Some r)
  then mkExec (Ok tt)
    (mkEstado false [] (respostas_esperadas s)
       (relogio_local s + Z.of_nat (length (fila_recurso s))) None)
    (acks_da_fila r (relogio_local s) (fila_recurso s))
  else mkExec (Ok tt) s [].
Proof.
  intros Hids. unfold sair_recurso_critico. proc_simpl.
  destruct (recurso_ocupado s && _); [|done]. proc_simpl.
  rewrite drenar_fila_eq by (simpl; done || lia). done.
Qed.

Lemma verificar_acks_eq r s p :
  respostas_esperadas s !! r = Some p ->
  verificar_acks r s =
  if bool_decide (p = ∅) then mkExec (Ok true) (com_ocupado true s) []
  else mkExec (Ok false) s [].
Proof.
  intros Hp. unfold verificar_acks. proc_simpl. rewrite Hp.
  by destruct (bool_decide (p = ∅)).
Qed.

Lemma passo_comando_solicitar_eq r s :
  passo_comando ID_PROCESSO PROCESSOS (Solicitar r) s =
  if recurso_ocupado s then mkExec (Ok (EscolhaOcupado r)) s []
  else mkExec (Ok (AguardandoAcks r))
    (com_respostas (<[r := list_to_set (PROCESSOS.*1) ∖ {[ID_PROCESSO]}]>
                      (respostas_esperadas s))
       (com_relogio (relogio_local s + 1) (com_esperando (Some r) s)))
    ((fun d => (d, msg_requisicao r (relogio_local s + 1)))
       <$> filter (fun d => d ≠ ID_PROCESSO) (PROCESSOS.*1)).
Proof.
  unfold passo_comando. pym_simpl. rewrite entrar_recurso_critico_eq.
  destruct (recurso_ocupado s); simpl; by rewrite ?app_nil_r.
Qed.

Lemma passo_comando_liberar_eq r s :
  Forall (fun q => id q ∈ PROCESSOS.*1) (fila_recurso s) ->
  passo_comando ID_PROCESSO PROCESSOS (Liberar r) s =
  if recurso_ocupado s && bool_decide (esperando_recurso s = Some r)
  then mkExec (Ok Prompt)
    (mkEstado false [] (respostas_esperadas s)
       (relogio_local s + Z.of_nat (length (fila_recurso s))) None)
    (acks_da_fila r (relogio_local s) (fila_recurso s))
  else mkExec (Ok Prompt) s [].
Proof.
  intros Hids. unfold passo_comando. pym_simpl. rewrite sair_recurso_critico_eq by done.
  destruct (_ && _); simpl; by rewrite ?app_nil_r.
Qed.

Lemma passo_aguardar_liberacao_ocupado r s :
  recurso_ocupado s = true ->
  passo_aguardar_liberacao ID_PROCESSO PROCESSOS r s
  = mkExec (Ok (AguardandoLiberacao r)) s [].
Proof. intros Ho. unfold passo_aguardar_liberacao. proc_simpl. by rewrite Ho. Qed.

Lemma passo_aguardar_acks_eq r s p :
  respostas_esperadas s !! r = Some p ->
  passo_aguardar_acks r s =
  if bool_decide (p = ∅) then mkExec (Ok Prompt) (com_ocupado true s) []
  else mkExec (Ok (AguardandoAcks r)) s [].
Proof.
  intros Hp. unfold passo_aguardar_acks. pym_simpl. rewrite (verificar_acks_eq r s p Hp).
  by destruct (bool_decide (p = ∅)).
Qed.

Lemma enviar_ack_estado d r s :
  estado_final (enviar_ack ID_PROCESSO PROCESSOS d r s)
  = com_relogio (relogio_local s + 1) s.
Proof.
  destruct (decide (d ∈ PROCESSOS.*1)).
  - by rewrite enviar_ack_ok.
  - by rewrite enviar_ack_erro.
Qed.

(** The server thread never touches [recurso_ocupado] or
    [esperando_recurso], and only appends to [fila_recurso]. *)
Lemma processar_objeto_locais o s :
  let s' := estado_final (processar_objeto ID_PROCESSO PROCESSOS o s) in
  recurso_ocupado s' = recurso_ocupado s /\
  esperando_recurso s' = esperando_recurso s /\
  fila_recurso s `prefix_of` fila_recurso s'.
Proof.
  unfold processar_objeto. destruct (ler_mensagem o) as [m|e]; [|done].
  destruct (decide (tipo m = "requisicao")) as [Hr|Hr];
    [|destruct (decide (tipo m = "ack")) as [Ha|Ha]].
  - rewrite processar_requisicao_eq by done.
    cbv zeta. destruct (_ || _); simpl; [split; [done|split; [done|by eexists]]|].
    by rewrite enviar_ack_estado.
  - rewrite processar_ack_eq by done. simpl.
    by destruct (respostas_esperadas s !! recurso m).
  - by rewrite processar_outro_eq.
Qed.

End Equacoes.

(** ** Theorems on the handlers of [src/p1.py] *)

Section Teoremas.
Context (ID_PROCESSO : string) (PROCESSOS : list (string * (string * Z))).

(** C10: a request for the resource that the process is requesting (or
    holds) is always deferred: appended to [fila_recurso] with no reply,
    whatever its timestamp and sender.  The tie-break of line 160 never
    lets an earlier request through, because it compares the clock after
    [atualizar_relogio], which is above every received timestamp. *)
Theorem requisicao_mesmo_recurso_sempre_adiada (m : Mensagem) (s : Estado) :
  tipo m = "requisicao" ->
  esperando_recurso s = Some (recurso m) ->
  processar_mensagem ID_PROCESSO PROCESSOS m s =
  mkExec (Ok tt)
    (com_fila (fila_recurso s ++ [m]) (com_relogio (Relogio.atualizar_relogio (relogio_local s) (timestamp m)) s)) [].
Proof.
  intros Ht He. rewrite processar_requisicao_eq by done. simpl.
  rewrite bool_decide_eq_true_2 by done. by rewrite orb_true_r.
Qed.

(** C15: a request that arrives while the process holds any resource is
    deferred, also a request for another resource: the flag
    [recurso_ocupado] is global. *)
Theorem requisicao_adiada_se_ocupado (m : Mensagem) (s : Estado) :
  tipo m = "requisicao" ->
  recurso_ocupado s = true ->
  processar_mensagem ID_PROCESSO PROCESSOS m s =
  mkExec (Ok tt)
    (com_fila (fila_recurso s ++ [m]) (com_relogio (Relogio.atualizar_relogio (relogio_local s) (timestamp m)) s)) [].
Proof.
  intros Ht Ho. rewrite processar_requisicao_eq by done. simpl. by rewrite Ho.
Qed.

(** C12: otherwise the request is answered at once with one ack for the
    requested resource, stamped with the clock after the observe and the
    tick, and sent to the requester. *)
Theorem requisicao_respondida (m : Mensagem) (s : Estado) :
  tipo m = "requisicao" ->
  recurso_ocupado s = false ->
  esperando_recurso s <> Some (recurso m) ->
  id m ∈ PROCESSOS.*1 ->
  processar_mensagem ID_PROCESSO PROCESSOS m s =
  mkExec (Ok tt) (com_relogio (Relogio.atualizar_relogio (relogio_local s) (timestamp m) + 1) s)
    [(id m, msg_ack ID_PROCESSO (recurso m) (Relogio.atualizar_relogio (relogio_local s) (timestamp m) + 1))].
Proof.
  intros Ht Ho He Hid. rewrite processar_requisicao_eq by done. simpl.
  rewrite Ho, bool_decide_eq_false_2 by done. simpl.
  by rewrite enviar_ack_ok.
Qed.

(** C24: a request from an id that is not a key of [PROCESSOS] makes
    [enviar_ack] raise [KeyError] at [PROCESSOS[destino]] after the tick:
    nothing is sent and the exception ends the server thread. *)
Theorem requisicao_remetente_desconhecido (m : Mensagem) (s : Estado) :
  tipo m = "requisicao" ->
  recurso_ocupado s = false ->
  esperando_recurso s <> Some (recurso m) ->
  id m ∉ PROCESSOS.*1 ->
  processar_mensagem ID_PROCESSO PROCESSOS m s =
  mkExec (Exc (KeyError (id m))) (com_relogio (Relogio.atualizar_relogio (relogio_local s) (timestamp m) + 1) s) [].
Proof.
  intros Ht Ho He Hid. rewrite processar_requisicao_eq by done. simpl.
  rewrite Ho, bool_decide_eq_false_2 by done. simpl.
  by rewrite enviar_ack_erro.
Qed.

(** C16: an ack removes its sender from the pending set of its resource,
    and only that; a second delivery of the same ack changes no pending set
    (only the clock advances).  An ack for a resource that was never
    requested changes nothing but the clock.  No ack sends anything. *)
Theorem ack_idempotente (m : Mensagem) (s : Estado) :
  tipo m = "ack" ->
  let e1 := processar_mensagem ID_PROCESSO PROCESSOS m s in
  let e2 := processar_mensagem ID_PROCESSO PROCESSOS m (estado_final e1) in
  resultado e1 = Ok tt /\ saidas e1 = [] /\ resultado e2 = Ok tt /\ saidas e2 = [] /\
  respostas_esperadas (estado_final e1) =
    match respostas_esperadas s !! recurso m with
    | Some p => <[recurso m := p ∖ {[id m]}]> (respostas_esperadas s)
    | None => respostas_esperadas s
    end /\
  respostas_esperadas (estado_final e2) = respostas_esperadas (estado_final e1).
Proof.
  intros Ht. simpl. rewrite !processar_ack_eq by done. simpl.
  destruct (respostas_esperadas s !! recurso m) as [p|] eqn:E; simpl;
    [|by rewrite E].
  rewrite lookup_insert_eq. simpl. repeat split.
  rewrite insert_insert_eq. f_equal. set_solver.
Qed.

(** C26: a message of another kind (the ["nack"] of [src/p2.py]) only
    advances the clock. *)
Theorem outro_tipo_so_relogio (m : Mensagem) (s : Estado) :
  tipo m <> "requisicao" -> tipo m <> "ack" ->
  processar_mensagem ID_PROCESSO PROCESSOS m s =
  mkExec (Ok tt) (com_relogio (Relogio.atualizar_relogio (relogio_local s) (timestamp m)) s) [].
Proof. apply processar_outro_eq. Qed.

(** C13: releasing the held resource clears the flags and drains the queue
    in arrival order: one ack per deferred request, to its sender, the
    oldest first; the [k]-th ack (from 0) is stamped [c + k + 1], where
    [c] is the clock before the release, since [enviar_ack] ticks once
    per ack, and the clock ends at [c] plus the length of the queue.
    Every ack names the released resource, whatever resource the
    deferred request was for; the pending sets are untouched. *)
Theorem sair_drena_fila_fifo (r : string) (s : Estado) :
  recurso_ocupado s = true ->
  esperando_recurso s = Some r ->
  Forall (fun q => id q ∈ PROCESSOS.*1) (fila_recurso s) ->
  let e := sair_recurso_critico ID_PROCESSO PROCESSOS r s in
  resultado e = Ok tt /\
  recurso_ocupado (estado_final e) = false /\
  esperando_recurso (estado_final e) = None /\
  fila_recurso (estado_final e) = [] /\
  respostas_esperadas (estado_final e) = respostas_esperadas s /\
  relogio_local (estado_final e) = relogio_local s + Z.of_nat (length (fila_recurso s)) /\
  saidas e = imap (fun k q => (id q, {| tipo := "ack"; Mensagem.recurso := r;
                                       timestamp := relogio_local s + Z.of_nat k + 1;
                                       id := ID_PROCESSO |})) (fila_recurso s).
Proof.
  intros Ho He Hids. rewrite sair_recurso_critico_eq by done.
  rewrite Ho, bool_decide_eq_true_2 by done. simpl.
  split_and!; try done. apply acks_da_fila_imap.
Qed.

(** C25: releasing a resource that is not held does nothing: no state
    change, no message, and no error is reported to the caller (the spec
    says [Release] fails with [NotHeld]). *)
Theorem sair_sem_posse_nao_faz_nada (r : string) (s : Estado) :
  ~ (recurso_ocupado s = true /\ esperando_recurso s = Some r) ->
  sair_recurso_critico ID_PROCESSO PROCESSOS r s = mkExec (Ok tt) s [].
Proof.
  intros H. unfold sair_recurso_critico. proc_simpl.
  destruct (recurso_ocupado s); simpl; [|done].
  rewrite bool_decide_eq_false_2; [done|]. intros He. apply H. done.
Qed.

(** C14: a request ticks the clock once, marks the resource as requested,
    sets its pending set to every peer but the process itself, and sends
    one request stamped with the new clock to each of them, in the order
    of [PROCESSOS]. *)
Theorem entrar_multicast (r : string) (s : Estado) :
  recurso_ocupado s = false ->
  entrar_recurso_critico ID_PROCESSO PROCESSOS r s =
  mkExec (Ok EntradaRequisitada)
    (com_respostas (<[r := list_to_set (PROCESSOS.*1) ∖ {[ID_PROCESSO]}]>
                      (respostas_esperadas s))
       (com_relogio (relogio_local s + 1) (com_esperando (Some r) s)))
    ((fun d => (d, msg_requisicao ID_PROCESSO r (relogio_local s + 1)))
       <$> filter (fun d => d ≠ ID_PROCESSO) (PROCESSOS.*1)).
Proof.
  intros Ho. rewrite entrar_recurso_critico_eq. by rewrite Ho.
Qed.

End Teoremas.

(** ** The configuration of [src/p1.py] (lines 27-34) *)

Definition ID_P1 : string := "p1".
Definition PROCESSOS_P1 : list (string * (string * Z)) :=
  [("p1", ("localhost", 8001)); ("p2", ("localhost", 8002));
   ("p3", ("localhost", 8003))].

(** ** Witnesses on the configuration of [src/p1.py] *)

(** p1 after [solicitar r1] from the initial state: clock 1, pending
    {p2, p3}. *)
Definition p1_pedindo_r1 : Estado :=
  estado_final (entrar_recurso_critico ID_P1 PROCESSOS_P1 "r1" estado_inicial).

(** A request of p2 for r1 with timestamp 0: older than p1's own (1). *)
Definition req_p2_r1 : Mensagem :=
  {| tipo := "requisicao"; recurso := "r1"; timestamp := 0; id := "p2" |}.

Definition ack_p3_r1 : Mensagem :=
  {| tipo := "ack"; recurso := "r1"; timestamp := 4; id := "p3" |}.

(** p1 holding r1 with two deferred requests, of p2 for r1 and of p3 for r2. *)
Definition p1_detendo_r1 : Estado :=
  mkEstado true
    [req_p2_r1; {| tipo := "requisicao"; recurso := "r2"; timestamp := 2; id := "p3" |}]
    (<["r1" := ∅]> ∅) 5 (Some "r1").

Example requisicao_mesmo_recurso_sempre_adiada_exemplo :
  processar_mensagem ID_P1 PROCESSOS_P1 req_p2_r1 p1_pedindo_r1 =
  mkExec (Ok tt)
    (com_fila (fila_recurso p1_pedindo_r1 ++ [req_p2_r1])
       (com_relogio (Relogio.atualizar_relogio (relogio_local p1_pedindo_r1) 0)
          p1_pedindo_r1)) [].
Proof. apply requisicao_mesmo_recurso_sempre_adiada; reflexivity. Defined.

Example requisicao_adiada_se_ocupado_exemplo :
  let m := {| tipo := "requisicao"; recurso := "r2"; timestamp := 9; id := "p3" |} in
  processar_mensagem ID_P1 PROCESSOS_P1 m p1_detendo_r1 =
  mkExec (Ok tt)
    (com_fila (fila_recurso p1_detendo_r1 ++ [m])
       (com_relogio (Relogio.atualizar_relogio (relogio_local p1_detendo_r1) 9)
          p1_detendo_r1)) [].
Proof. intros m. apply requisicao_adiada_se_ocupado; reflexivity. Defined.

Example requisicao_respondida_exemplo :
  processar_mensagem ID_P1 PROCESSOS_P1 req_p2_r1 estado_inicial =
  mkExec (Ok tt) (com_relogio 2 estado_inicial) [("p2", msg_ack ID_P1 "r1" 2)].
Proof.
  apply (requisicao_respondida ID_P1 PROCESSOS_P1 req_p2_r1 estado_inicial);
    [reflexivity | reflexivity | discriminate | vm_compute; set_solver].
Defined.

Example requisicao_remetente_desconhecido_exemplo :
  let m := {| tipo := "requisicao"; recurso := "r1"; timestamp := 3;
              id := "processo1" |} in
  processar_mensagem ID_P1 PROCESSOS_P1 m estado_inicial =
  mkExec (Exc (KeyError "processo1")) (com_relogio 5 estado_inicial) [].
Proof.
  intros m. apply (requisicao_remetente_desconhecido ID_P1 PROCESSOS_P1 m);
    [reflexivity | reflexivity | discriminate | vm_compute; set_solver].
Defined.

Example ack_idempotente_exemplo :
  let e1 := processar_mensagem ID_P1 PROCESSOS_P1 ack_p3_r1 p1_pedindo_r1 in
  respostas_esperadas (estado_final
    (processar_mensagem ID_P1 PROCESSOS_P1 ack_p3_r1 (estado_final e1)))
  = respostas_esperadas (estado_final e1).
Proof.
  pose proof (ack_idempotente ID_P1 PROCESSOS_P1 ack_p3_r1 p1_pedindo_r1
    eq_refl) as (_ & _ & _ & _ & _ & H). exact H.
Defined.

Example outro_tipo_so_relogio_exemplo :
  let m := {| tipo := "nack"; recurso := "r1"; timestamp := 8; id := "p2" |} in
  processar_mensagem ID_P1 PROCESSOS_P1 m p1_pedindo_r1 =
  mkExec (Ok tt) (com_relogio 9 p1_pedindo_r1) [].
Proof. intros m. apply outro_tipo_so_relogio; discriminate. Defined.

(** [p1] holds [r1] at clock 5 with the requests of [p2] (for [r1]) and
    [p3] (for [r2]) deferred: the release acks [p2] at 6, then [p3] at 7,
    both for [r1]. *)
Example sair_drena_fila_fifo_exemplo :
  saidas (sair_recurso_critico ID_P1 PROCESSOS_P1 "r1" p1_detendo_r1)
  = [("p2", msg_ack ID_P1 "r1" 6); ("p3", msg_ack ID_P1 "r1" 7)].
Proof.
  pose proof (sair_drena_fila_fifo ID_P1 PROCESSOS_P1 "r1" p1_detendo_r1
    eq_refl eq_refl) as (_ & _ & _ & _ & _ & _ & H);
    [repeat constructor; vm_compute; set_solver|].
  rewrite H. reflexivity.
Defined.

Example sair_sem_posse_nao_faz_nada_exemplo :
  sair_recurso_critico ID_P1 PROCESSOS_P1 "r2" p1_detendo_r1
  = mkExec (Ok tt) p1_detendo_r1 [].
Proof.
  apply sair_sem_posse_nao_faz_nada. intros [_ H]. discriminate.
Defined.

Example entrar_multicast_exemplo :
  saidas (entrar_recurso_critico ID_P1 PROCESSOS_P1 "r1" estado_inicial)
  = [("p2", msg_requisicao ID_P1 "r1" 1); ("p3", msg_requisicao ID_P1 "r1" 1)].
Proof. rewrite entrar_multicast by reflexivity. reflexivity. Defined.

End Processo.
