(* ===== verification/Processo2.v ===== *)
(** * Processo2: the engine of [src/processo2.py]

    [src/processo2.py] is the base protocol with another configuration: ids
    "processo1".."processo3" on ports 8001..8003 (lines 7-14).  It has no
    debug output, no automatic test and no unused lock.  Its handlers are
    written out here from its own lines, over the globals [Estado] of
    [Processo] (its lines 17-21 are p1's lines 41-45).

    Two lines differ from [src/p1.py] other than in printing:
    - [atualizar_relogio] (line 26) has no [int(...)] around the received
      timestamp.  On the integers that the peers send, that is the same
      value;
    - [sair_recurso_critico] (lines 91-100) sets [recurso_ocupado = False]
      once, where p1 sets it twice.

    The theorems prove every handler equal, on every state, to p1's handler
    of [Processo] with the same configuration.  [Processo2Sistema] uses
    these equalities to prove that the runs of [src/processo2.py] are those
    of [src/p1.py]. *)

From S2P Require Import Prelude Relogio Mensagem Processo.
Import Mensagem Processo.

Module Processo2.

#[local] Open Scope Z_scope.

Section Motor.
Context (ID_PROCESSO : string) (PROCESSOS : list (string * (string * Z))).

(** Lines 24-26: [max(relogio_local, timestamp_recebido) + 1]. *)
Definition atualizar_relogio (timestamp_recebido : Z) : M unit :=
  py_modify (fun s => com_relogio (Z.max (relogio_local s) timestamp_recebido + 1) s).

(** Lines 29-36. *)
Definition enviar_mensagem (destino : string) (mensagem : Mensagem) : M unit :=
  if bool_decide (destino ∈ PROCESSOS.*1) then py_emit (destino, mensagem)
  else py_raise (KeyError destino).

(** Lines 39-51. *)
Definition multicast_requisicao (recurso : string) : M unit :=
  py_modify (fun s => com_relogio (relogio_local s + 1) s);;
  s ← py_get;
  let mensagem := {| tipo := "requisicao"; Mensagem.recurso := recurso;
                     timestamp := relogio_local s; id := ID_PROCESSO |} in
  py_modify (fun s => com_respostas
    (<[recurso := list_to_set (PROCESSOS.*1) ∖ {[ID_PROCESSO]}]>
       (respostas_esperadas s)) s);;
  para_cada (PROCESSOS.*1) (fun destino =>
    if bool_decide (destino ≠ ID_PROCESSO)
    then enviar_mensagem destino mensagem else py_ret tt).

(** Lines 54-63. *)
Definition enviar_ack (destino recurso : string) : M unit :=
  py_modify (fun s => com_relogio (relogio_local s + 1) s);;
  s ← py_get;
  enviar_mensagem destino
    {| tipo := "ack"; Mensagem.recurso := recurso;
       timestamp := relogio_local s; id := ID_PROCESSO |}.

(** Lines 66-84: the test of [recurso_ocupado], then
    [esperando_recurso = recurso] and the multicast. *)
Definition entrar_recurso_critico (recurso : string) : M Entrada :=
  s ← py_get;
  if recurso_ocupado s then py_ret EntradaOcupado
  else
    py_modify (com_esperando (Some recurso));;
    multicast_requisicao recurso;;
    py_ret EntradaRequisitada.

(** Lines 85-87, one iteration of [while respostas_esperadas[recurso]]. *)
Definition passo_aguardar_acks (recurso : string) : M Fase :=
  s ← py_get;
  match respostas_esperadas s !! recurso with
  | None => py_raise (KeyError recurso)
  | Some pendentes =>
      if bool_decide (pendentes = ∅)
      then py_modify (com_ocupado true);; py_ret Prompt
      else py_ret (AguardandoAcks recurso)
  end.

(** Lines 75-77, one iteration of [while recurso_ocupado], then the
    recursive call. *)
Definition passo_aguardar_liberacao (recurso : string) : M Fase :=
  s ← py_get;
  if recurso_ocupado s then py_ret (AguardandoLiberacao recurso)
  else e ← entrar_recurso_critico recurso; py_ret (fase_apos_entrada recurso e).

(** Lines 98-100. *)
Fixpoint drenar_fila (fuel : nat) (recurso : string) : M unit :=
  match fuel with
  | O => py_ret tt
  | S fuel' =>
      s ← py_get;
      match fila_recurso s with
      | [] => py_ret tt
      | requisicao :: resto =>
          py_modify (com_fila resto);;
          enviar_ack (id requisicao) recurso;;
          drenar_fila fuel' recurso
      end
  end.

(** Lines 91-100: one assignment [recurso_ocupado = False]. *)
Definition sair_recurso_critico (recurso : string) : M unit :=
  s ← py_get;
  if recurso_ocupado s && bool_decide (esperando_recurso s = Some recurso) then
    py_modify (com_ocupado false);;
    py_modify (com_esperando None);;
    s' ← py_get;
    drenar_fila (length (fila_recurso s')) recurso
  else py_ret tt.

(** Lines 110-123, after the field lookups. *)
Definition processar_mensagem (mensagem : Mensagem) : M unit :=
  atualizar_relogio (timestamp mensagem);;
  s ← py_get;
  if bool_decide (tipo mensagem = "requisicao") then
    if recurso_ocupado s
       || (bool_decide (esperando_recurso s = Some (recurso mensagem))
           && tupla_maior (relogio_local s, ID_PROCESSO)
                          (timestamp mensagem, id mensagem))
    then py_modify (fun s => com_fila (fila_recurso s ++ [mensagem]) s)
    else enviar_ack (id mensagem) (recurso mensagem)
  else if bool_decide (tipo mensagem = "ack") then
    match respostas_esperadas s !! recurso mensagem with
    | Some pendentes =>
        py_modify (com_respostas
          (<[recurso mensagem := pendentes ∖ {[id mensagem]}]>
             (respostas_esperadas s)))
    | None => py_ret tt
    end
  else py_ret tt.

(** Lines 103-108 and 133-136: the lookups of the four fields of the
    received object, then the handler. *)
Definition processar_objeto (o : Objeto) : M unit :=
  match ler_mensagem o with
  | Exc e => py_raise e
  | Ok mensagem => processar_mensagem mensagem
  end.

(** Lines 139-151: one command at the prompt. *)
Definition passo_comando (c : Comando) : M Fase :=
  match c with
  | Solicitar recurso =>
      e ← entrar_recurso_critico recurso; py_ret (fase_apos_entrada recurso e)
  | Liberar recurso => sair_recurso_critico recurso;; py_ret Prompt
  | Sair => py_ret Encerrado
  | Outro => py_ret Prompt
  end.

End Motor.

(** ** Equivalence with the handlers of [src/p1.py] *)

Section Equivalencia.
Context (ID_PROCESSO : string) (PROCESSOS : list (string * (string * Z))).

Lemma enviar_ack_igual d r s :
  enviar_ack ID_PROCESSO PROCESSOS d r s = Processo.enviar_ack ID_PROCESSO PROCESSOS d r s.
Proof. reflexivity. Qed.

Lemma entrar_recurso_critico_igual r s :
  entrar_recurso_critico ID_PROCESSO PROCESSOS r s
  = Processo.entrar_recurso_critico ID_PROCESSO PROCESSOS r s.
Proof. reflexivity. Qed.

Lemma drenar_fila_igual fuel r s :
  drenar_fila ID_PROCESSO PROCESSOS fuel r s
  = Processo.drenar_fila ID_PROCESSO PROCESSOS fuel r s.
Proof.
  revert s. induction fuel as [|fuel IH]; intros s; [done|].
  cbn [drenar_fila Processo.drenar_fila]. pym_simpl.
  destruct (fila_recurso s) as [|q resto]; [done|]. pym_simpl.
  rewrite enviar_ack_igual. destruct (Processo.enviar_ack _ _ _ _ _) as [[]]; simpl; [|done].
  by rewrite IH.
Qed.

Lemma sair_recurso_critico_igual r s :
  sair_recurso_critico ID_PROCESSO PROCESSOS r s
  = Processo.sair_recurso_critico ID_PROCESSO PROCESSOS r s.
Proof.
  destruct s as [oc fila resp c esp].
  unfold sair_recurso_critico, Processo.sair_recurso_critico. proc_simpl.
  destruct (_ && _); [|done]. proc_simpl. rewrite drenar_fila_igual.
  unfold com_esperando, com_ocupado; simpl. by destruct (Processo.drenar_fila _ _ _ _ _).
Qed.

Lemma processar_objeto_igual o s :
  processar_objeto ID_PROCESSO PROCESSOS o s
  = Processo.processar_objeto ID_PROCESSO PROCESSOS o s.
Proof. reflexivity. Qed.

Lemma passo_aguardar_acks_igual r s :
  passo_aguardar_acks r s = Processo.passo_aguardar_acks r s.
Proof.
  unfold passo_aguardar_acks, Processo.passo_aguardar_acks, verificar_acks. pym_simpl.
  destruct (respostas_esperadas s !! r); [|done]. by destruct (bool_decide _).
Qed.

Lemma passo_aguardar_liberacao_igual r s :
  passo_aguardar_liberacao ID_PROCESSO PROCESSOS r s
  = Processo.passo_aguardar_liberacao ID_PROCESSO PROCESSOS r s.
Proof. reflexivity. Qed.

Lemma passo_comando_igual c s :
  passo_comando ID_PROCESSO PROCESSOS c s = Processo.passo_comando ID_PROCESSO PROCESSOS c s.
Proof.
  destruct c as [r|r| |]; try reflexivity.
  unfold passo_comando, Processo.passo_comando. pym_simpl.
  by rewrite sair_recurso_critico_igual.
Qed.

(** C20: [src/processo2.py] runs the handlers of [src/p1.py].  With the
    same configuration, its server handler, its command step and the two
    polling loops of its main thread give, on every state, the same result,
    the same final globals and the same messages as p1's. *)
Theorem motor_igual :
  (forall o s, processar_objeto ID_PROCESSO PROCESSOS o s
               = Processo.processar_objeto ID_PROCESSO PROCESSOS o s) /\
  (forall c s, passo_comando ID_PROCESSO PROCESSOS c s
               = Processo.passo_comando ID_PROCESSO PROCESSOS c s) /\
  (forall r s, passo_aguardar_acks r s = Processo.passo_aguardar_acks r s) /\
  (forall r s, passo_aguardar_liberacao ID_PROCESSO PROCESSOS r s
               = Processo.passo_aguardar_liberacao ID_PROCESSO PROCESSOS r s).
Proof.
  split; [exact processar_objeto_igual|].
  split; [exact passo_comando_igual|].
  split; [exact passo_aguardar_acks_igual|exact passo_aguardar_liberacao_igual].
Qed.

End Equivalencia.

(** The configuration of lines 9-14, for the process "processo2". *)
Definition ID_PROCESSO2 : string := "processo2".

Definition PROCESSOS2 : list (string * (string * Z)) :=
  [("processo1", ("localhost", 8001)); ("processo2", ("localhost", 8002));
   ("processo3", ("localhost", 8003))].

End Processo2.
