(* ===== verification/P2.v ===== *)
(** * P2: the handlers of [src/p2.py]

    [src/p2.py] repeats the globals, the clock, [enviar_mensagem],
    [multicast_requisicao] and [enviar_ack] of [src/p1.py] (its lines 52-93
    are p1's lines 53-97).  They are written out here from p2's own lines
    and are the same functions as those of [Processo]
    ([p2_enviar_ack_igual] and its siblings), so the equations proved there
    apply through the tactic [p2_comum].  The file also holds the
    configuration of the peer "p2" (lines 29-34).  [src/p2.py]
    changes four things:
    - a deferred request is also answered with a ["nack"] ([enviar_nack],
      lines 96-105, called at line 189);
    - the answer ["1"] to the prompt of [entrar_recurso_critico] starts a
      thread [aguardar_recurso] (lines 108-113) and returns to the prompt;
    - [sair_recurso_critico] (lines 143-157) acks only the first deferred
      request and clears the queue;
    - a received ["nack"] prompts the operator from the server thread
      (lines 195-206) and, on ["1"], starts an [aguardar_recurso] thread.

    The operator's answer read by [input()] is a parameter [escolha] of the
    handlers that prompt.  A handler that starts a thread
    [aguardar_recurso(recurso)] returns [Some recurso]. *)

From S2P Require Import Prelude Relogio Mensagem Processo.
Import Mensagem Processo.

Module P2.

#[local] Open Scope Z_scope.

(** The outcome of [entrar_recurso_critico] of [src/p2.py]. *)
Inductive Entrada2 :=
| Desistiu                          (** the answer was not ["1"] *)
| AguardadorLancado (r : string)    (** [aguardar_recurso(r)] was started *)
| Requisitada                       (** the request was multicast *).

Section Motor.
Context (ID_PROCESSO : string) (PROCESSOS : list (string * (string * Z))).

(** Lines 52-54: [max(relogio_local, int(timestamp_recebido)) + 1]; the
    received timestamp is already an integer. *)
Definition atualizar_relogio (timestamp_recebido : Z) : M unit :=
  py_modify (fun s =>
    com_relogio (Relogio.atualizar_relogio (relogio_local s) timestamp_recebido) s).

(** Lines 57-66: [PROCESSOS[destino]] raises [KeyError] for an unknown
    peer, outside the [try]; the [except] only catches the socket errors,
    which the model does not have, so the message is sent. *)
Definition enviar_mensagem (destino : string) (mensagem : Mensagem) : M unit :=
  if bool_decide (destino ∈ PROCESSOS.*1) then py_emit (destino, mensagem)
  else py_raise (KeyError destino).

(** Lines 69-81. *)
Definition multicast_requisicao (recurso : string) : M unit :=
  py_modify (fun s => com_relogio (Relogio.incrementar (relogio_local s)) s);;
  s ← py_get;
  let mensagem := {| tipo := "requisicao"; Mensagem.recurso := recurso;
                     timestamp := relogio_local s; id := ID_PROCESSO |} in
  py_modify (fun s => com_respostas
    (<[recurso := list_to_set (PROCESSOS.*1) ∖ {[ID_PROCESSO]}]>
       (respostas_esperadas s)) s);;
  para_cada (PROCESSOS.*1) (fun destino =>
    if bool_decide (destino ≠ ID_PROCESSO)
    then enviar_mensagem destino mensagem else py_ret tt).

(** Lines 84-93. *)
Definition enviar_ack (destino recurso : string) : M unit :=
  py_modify (fun s => com_relogio (Relogio.incrementar (relogio_local s)) s);;
  s ← py_get;
  enviar_mensagem destino
    {| tipo := "ack"; Mensagem.recurso := recurso;
       timestamp := relogio_local s; id := ID_PROCESSO |}.

(** Lines 96-105. *)
Definition enviar_nack (destino recurso : string) : M unit :=
  py_modify (fun s => com_relogio (Relogio.incrementar (relogio_local s)) s);;
  s ← py_get;
  enviar_mensagem destino
    {| tipo := "nack"; Mensagem.recurso := recurso;
       timestamp := relogio_local s; id := ID_PROCESSO |}.

(** Lines 116-136, up to the wait for the acks (lines 137-139 are p1's
    loop, [Processo.passo_aguardar_acks]). *)
Definition entrar_recurso_critico (escolha recurso : string) : M Entrada2 :=
  s ← py_get;
  if recurso_ocupado s then
    if bool_decide (escolha = "1") then py_ret (AguardadorLancado recurso)
    else py_ret Desistiu
  else
    py_modify (com_esperando (Some recurso));;
    multicast_requisicao recurso;;
    py_ret Requisitada.

(** Lines 108-113, one iteration of the thread [aguardar_recurso]: while
    [recurso_ocupado] sleep, then [entrar_recurso_critico(recurso)]. *)
Definition passo_aguardar_recurso (escolha recurso : string) : M (option Entrada2) :=
  s ← py_get;
  if recurso_ocupado s then py_ret None
  else e ← entrar_recurso_critico escolha recurso; py_ret (Some e).

(** Lines 143-157: the first deferred request is acked, then the queue is
    cleared. *)
Definition sair_recurso_critico (recurso : string) : M unit :=
  s ← py_get;
  if recurso_ocupado s && bool_decide (esperando_recurso s = Some recurso) then
    py_modify (com_ocupado false);;
    py_modify (com_esperando None);;
    s' ← py_get;
    match fila_recurso s' with
    | [] => py_ret tt
    | requisicao :: resto =>
        py_modify (com_fila resto);;
        enviar_ack (id requisicao) recurso
    end;;
    py_modify (com_fila [])
  else py_ret tt.

(** Lines 167-206, after the field lookups.  [escolha] is what the
    operator types at the prompt of line 200. *)
Definition processar_mensagem (escolha : string) (mensagem : Mensagem)
    : M (option string) :=
  atualizar_relogio (timestamp mensagem);;
  s ← py_get;
  if bool_decide (tipo mensagem = "requisicao") then
    (if recurso_ocupado s
        || (bool_decide (esperando_recurso s = Some (recurso mensagem))
            && tupla_maior (relogio_local s, ID_PROCESSO)
                           (timestamp mensagem, id mensagem))
     then
       py_modify (fun s => com_fila (fila_recurso s ++ [mensagem]) s);;
       enviar_nack (id mensagem) (recurso mensagem)
     else enviar_ack (id mensagem) (recurso mensagem));;
    py_ret None
  else if bool_decide (tipo mensagem = "ack") then
    match respostas_esperadas s !! recurso mensagem with
    | Some pendentes =>
        py_modify (com_respostas
          (<[recurso mensagem := pendentes ∖ {[id mensagem]}]>
             (respostas_esperadas s)));;
        py_ret None
    | None => py_ret None
    end
  else if bool_decide (tipo mensagem = "nack") then
    if bool_decide (escolha = "1") then py_ret (Some (recurso mensagem))
    else py_ret None
  else py_ret None.

(** Lines 160-166: the lookups of the four fields (as in [src/p1.py]),
    then the handler. *)
Definition processar_objeto (escolha : string) (o : Objeto) : M (option string) :=
  match ler_mensagem o with
  | Exc e => py_raise e
  | Ok mensagem => processar_mensagem escolha mensagem
  end.

(** What the main thread does after [entrar_recurso_critico]: back to the
    prompt, possibly with a new [aguardar_recurso] thread, or the wait for
    the acks of lines 137-139. *)
Definition fase_apos_entrada2 (recurso : string) (e : Entrada2) : Fase * option string :=
  match e with
  | Desistiu => (Prompt, None)
  | AguardadorLancado r => (Prompt, Some r)
  | Requisitada => (AguardandoAcks recurso, None)
  end.

(** Lines 222-234: one command at the prompt.  [escolha] is the answer to
    the prompt of line 123, read only when the resource is busy. *)
Definition passo_comando (escolha : string) (c : Comando) : M (Fase * option string) :=
  match c with
  | Solicitar recurso =>
      e ← entrar_recurso_critico escolha recurso; py_ret (fase_apos_entrada2 recurso e)
  | Liberar recurso => sair_recurso_critico recurso;; py_ret (Prompt, None)
  | Sair => py_ret (Encerrado, None)
  | Outro => py_ret (Prompt, None)
  end.

End Motor.

(** Lines 52-93 of [src/p2.py] are lines 53-97 of [src/p1.py]: the shared
    handlers are the same functions, and the proofs about p2's handlers
    reuse the equations of [Processo] through [p2_comum]. *)
Lemma p2_atualizar_relogio_igual :
  atualizar_relogio = Processo.atualizar_relogio.
Proof. reflexivity. Qed.

Lemma p2_enviar_mensagem_igual PROCESSOS :
  enviar_mensagem PROCESSOS = Processo.enviar_mensagem PROCESSOS.
Proof. reflexivity. Qed.

Lemma p2_multicast_requisicao_igual ID_PROCESSO PROCESSOS :
  multicast_requisicao ID_PROCESSO PROCESSOS =
  Processo.multicast_requisicao ID_PROCESSO PROCESSOS.
Proof. reflexivity. Qed.

Lemma p2_enviar_ack_igual ID_PROCESSO PROCESSOS :
  enviar_ack ID_PROCESSO PROCESSOS = Processo.enviar_ack ID_PROCESSO PROCESSOS.
Proof. reflexivity. Qed.

Ltac p2_comum :=
  rewrite ?p2_atualizar_relogio_igual, ?p2_enviar_mensagem_igual,
    ?p2_multicast_requisicao_igual, ?p2_enviar_ack_igual in *.

(** ** Equations *)

Section Equacoes.
Context (ID_PROCESSO : string) (PROCESSOS : list (string * (string * Z))).

Definition msg_nack (recurso : string) (c : Z) : Mensagem :=
  {| tipo := "nack"; Mensagem.recurso := recurso; timestamp := c; id := ID_PROCESSO |}.

(** What the server does with the JSON of a message built by a peer. *)
Lemma processar_objeto2_para_objeto esc m s :
  processar_objeto ID_PROCESSO PROCESSOS esc (para_objeto m) s
  = processar_mensagem ID_PROCESSO PROCESSOS esc m s.
Proof. unfold processar_objeto. by destruct m. Qed.

Lemma enviar_nack_ok d r s :
  d ∈ PROCESSOS.*1 ->
  enviar_nack ID_PROCESSO PROCESSOS d r s
  = mkExec (Ok tt) (com_relogio (relogio_local s + 1) s)
      [(d, msg_nack r (relogio_local s + 1))].
Proof. intros H. unfold enviar_nack. pym_simpl. by rewrite enviar_mensagem_ok. Qed.

Lemma enviar_nack_estado d r s :
  estado_final (enviar_nack ID_PROCESSO PROCESSOS d r s) = com_relogio (relogio_local s + 1) s.
Proof.
  unfold enviar_nack. pym_simpl. destruct (decide (d ∈ PROCESSOS.*1)).
  - by rewrite enviar_mensagem_ok.
  - by rewrite enviar_mensagem_erro.
Qed.

(** The request branch of [src/p2.py], with the priority test evaluated
    as in [Processo.processar_requisicao_eq]. *)
Lemma processar_requisicao2_eq esc m s :
  tipo m = "requisicao" ->
  processar_mensagem ID_PROCESSO PROCESSOS esc m s =
  let s1 := com_relogio (Relogio.atualizar_relogio (relogio_local s) (timestamp m)) s in
  let e := if recurso_ocupado s || bool_decide (esperando_recurso s = Some (recurso m))
           then enviar_nack ID_PROCESSO PROCESSOS (id m) (recurso m)
                  (com_fila (fila_recurso s ++ [m]) s1)
           else enviar_ack ID_PROCESSO PROCESSOS (id m) (recurso m) s1 in
  match resultado e with
  | Ok _ => mkExec (Ok None) (estado_final e) (saidas e)
  | Exc x => mkExec (Exc x) (estado_final e) (saidas e)
  end.
Proof.
  intros Ht. unfold processar_mensagem, atualizar_relogio. pym_simpl.
  rewrite bool_decide_eq_true_2 by done. simpl.
  rewrite (prioridade_sempre_verdadeira ID_PROCESSO), andb_true_r.
  destruct (recurso_ocupado s), (bool_decide _); simpl;
    first [destruct (enviar_nack _ _ _ _ _) as [[?|?] ? ?]
          |destruct (enviar_ack _ _ _ _ _) as [[?|?] ? ?]];
    by rewrite ?app_nil_r.
Qed.

(** The release of [src/p2.py], when the senders of the queue are
    peers: the first of the acks of p1's drain ([take 1]), one tick, and
    an empty queue. *)
Lemma sair_recurso_critico2_eq r s :
  Forall (fun q => id q ∈ PROCESSOS.*1) (fila_recurso s) ->
  sair_recurso_critico ID_PROCESSO PROCESSOS r s =
  if recurso_ocupado s && bool_decide (esperando_recurso s = Some r)
  then mkExec (Ok tt)
    (mkEstado false [] (respostas_esperadas s)
       (relogio_local s + Z.of_nat (length (take 1 (fila_recurso s)))) None)
    (take 1 (acks_da_fila ID_PROCESSO r (relogio_local s) (fila_recurso s)))
  else mkExec (Ok tt) s [].
Proof.
  intros Hids. destruct s as [oc fila resp c esp]; simpl in *.
  unfold sair_recurso_critico. p2_comum. proc_simpl.
  destruct (oc && _); [|done]. proc_simpl.
  destruct fila as [|q resto]; proc_simpl; [by rewrite Z.add_0_r|].
  apply Forall_cons in Hids as [Hq _]. by rewrite enviar_ack_ok.
Qed.

(** [solicitar] in [src/p2.py]: a busy resource gives the prompt back,
    with an [aguardar_recurso] thread on the answer ["1"]; a free one is
    requested exactly as in [src/p1.py]. *)
Lemma passo_comando2_solicitar_eq esc r s :
  passo_comando ID_PROCESSO PROCESSOS esc (Solicitar r) s =
  if recurso_ocupado s
  then mkExec (Ok (Prompt, if bool_decide (esc = "1") then Some r else None)) s []
  else let e := Processo.passo_comando ID_PROCESSO PROCESSOS (Solicitar r) s in
       mkExec (Ok (AguardandoAcks r, None)) (estado_final e) (saidas e).
Proof.
  rewrite passo_comando_solicitar_eq.
  unfold passo_comando, entrar_recurso_critico. p2_comum. proc_simpl.
  destruct (recurso_ocupado s); [by case_bool_decide|].
  proc_simpl. rewrite multicast_requisicao_eq. simpl. by rewrite !app_nil_r.
Qed.

(** The kinds other than ["requisicao"]: the globals change as in
    [src/p1.py], nothing is sent, and a nack answered with ["1"] starts
    [aguardar_recurso]. *)
Lemma processar_nao_requisicao2_eq esc m s :
  tipo m ≠ "requisicao" ->
  processar_mensagem ID_PROCESSO PROCESSOS esc m s =
  mkExec (Ok (if bool_decide (tipo m = "nack" /\ esc = "1") then Some (recurso m) else None))
    (estado_final (Processo.processar_mensagem ID_PROCESSO PROCESSOS m s)) [].
Proof.
  intros Hr. unfold processar_mensagem, Processo.processar_mensagem. p2_comum.
  unfold Processo.atualizar_relogio. proc_simpl.
  rewrite !(bool_decide_eq_false_2 (tipo m = "requisicao")) by done. simpl.
  destruct (decide (tipo m = "ack")) as [Ha|Ha].
  - rewrite !bool_decide_eq_true_2 by done. simpl.
    rewrite bool_decide_eq_false_2 by (rewrite Ha; naive_solver).
    by destruct (respostas_esperadas s !! recurso m).
  - rewrite !bool_decide_eq_false_2 by done. simpl.
    destruct (decide (tipo m = "nack")) as [Hn|Hn].
    + rewrite bool_decide_eq_true_2 by done.
      destruct (decide (esc = "1")) as [He|He].
      * by rewrite !bool_decide_eq_true_2.
      * rewrite !bool_decide_eq_false_2 by naive_solver. done.
    + rewrite !bool_decide_eq_false_2 by naive_solver. done.
Qed.

End Equacoes.

(** ** Theorems on [src/p2.py] *)

Section Teoremas.
Context (ID_PROCESSO : string) (PROCESSOS : list (string * (string * Z))).

(** C17: the release of [src/p2.py] acks only the first deferred request.
    When the process holds [r] and its queue is [q :: resto], the release
    sends exactly one ack, to the sender of [q], and empties the queue.
    The senders of [resto] never get this process's ack, so they wait for
    ever. *)
Theorem sair_p2_so_primeiro (r : string) (s : Estado) (q : Mensagem) (resto : list Mensagem) :
  recurso_ocupado s = true -> esperando_recurso s = Some r ->
  fila_recurso s = q :: resto -> id q ∈ PROCESSOS.*1 ->
  sair_recurso_critico ID_PROCESSO PROCESSOS r s =
  mkExec (Ok tt)
    (mkEstado false [] (respostas_esperadas s) (relogio_local s + 1) None)
    [(id q, msg_ack ID_PROCESSO r (relogio_local s + 1))].
Proof.
  intros Ho He Hf Hq. destruct s as [oc fila resp c esp]; simpl in *; subst.
  unfold sair_recurso_critico. proc_simpl.
  rewrite bool_decide_eq_true_2 by done. proc_simpl.
  by rewrite enviar_ack_ok.
Qed.

(** C19: in [src/p2.py] a deferred request is also answered with a nack.
    When the process holds a resource, or requests the resource asked
    for, the request is queued and a ["nack"] stamped with the next clock
    goes back to its sender, whatever the timestamps. *)
Theorem requisicao_adiada_nack (esc : string) (m : Mensagem) (s : Estado) :
  tipo m = "requisicao" -> id m ∈ PROCESSOS.*1 ->
  recurso_ocupado s = true \/ esperando_recurso s = Some (recurso m) ->
  let c1 := Relogio.atualizar_relogio (relogio_local s) (timestamp m) in
  processar_mensagem ID_PROCESSO PROCESSOS esc m s =
  mkExec (Ok None)
    (mkEstado (recurso_ocupado s) (fila_recurso s ++ [m]) (respostas_esperadas s)
       (c1 + 1) (esperando_recurso s))
    [(id m, msg_nack ID_PROCESSO (recurso m) (c1 + 1))].
Proof.
  intros Ht Hi Hc c1. rewrite processar_requisicao2_eq by done. cbv zeta.
  replace (recurso_ocupado s || _) with true
    by (destruct Hc as [->| ->]; [done|by rewrite bool_decide_eq_true_2, orb_true_r]).
  by rewrite enviar_nack_ok.
Qed.

(** C18: a nack answered with ["1"] restarts the request.  A process that
    does not hold the resource and receives a nack for [recurso m] starts
    [aguardar_recurso].  The thread's first iteration finds
    [recurso_ocupado] false and calls [entrar_recurso_critico] again: the
    pending set of the resource is reset to every peer, so the acks
    already received are forgotten, and a new request goes to every
    peer. *)
Theorem nack_reinicia_requisicao (esc : string) (m : Mensagem) (s : Estado) :
  tipo m = "nack" -> recurso_ocupado s = false ->
  let e1 := processar_mensagem ID_PROCESSO PROCESSOS "1" m s in
  let e2 := passo_aguardar_recurso ID_PROCESSO PROCESSOS esc (recurso m) (estado_final e1) in
  let c1 := Relogio.atualizar_relogio (relogio_local s) (timestamp m) in
  resultado e1 = Ok (Some (recurso m)) /\ saidas e1 = [] /\
  resultado e2 = Ok (Some Requisitada) /\
  respostas_esperadas (estado_final e2) !! recurso m
    = Some (list_to_set (PROCESSOS.*1) ∖ {[ID_PROCESSO]}) /\
  saidas e2 = (fun d => (d, msg_requisicao ID_PROCESSO (recurso m) (c1 + 1)))
                <$> filter (fun d => d ≠ ID_PROCESSO) (PROCESSOS.*1).
Proof.
  intros Ht Ho e1 e2 c1. subst e1 e2 c1.
  destruct s as [oc fila resp c esp]; simpl in Ho; subst oc.
  unfold processar_mensagem, atualizar_relogio. pym_simpl.
  rewrite Ht, !bool_decide_eq_false_2 by done.
  rewrite (bool_decide_eq_true_2 ("nack" = "nack")), (bool_decide_eq_true_2 ("1" = "1"))
    by done. cbn.
  unfold passo_aguardar_recurso, entrar_recurso_critico. proc_simpl. rewrite multicast_requisicao_eq. cbn.
  rewrite lookup_insert, decide_True, !app_nil_r by done. done.
Qed.

End Teoremas.

(** ** The configuration of [src/p2.py] (lines 29-34)

    The file is the copy run by the peer "p2"; the dict of peers is the
    one of [src/p1.py]. *)

Definition ID_P2 : string := "p2".
Definition PROCESSOS_P2 : list (string * (string * Z)) :=
  [("p1", ("localhost", 8001)); ("p2", ("localhost", 8002));
   ("p3", ("localhost", 8003))].

(** ** Witnesses on the configuration of [src/p1.py] *)

(** Witness: p1 holds r1 with requests of p2 and p3 deferred; only p2 gets
    an ack. *)
Example sair_p2_so_primeiro_exemplo :
  saidas (sair_recurso_critico ID_P1 PROCESSOS_P1 "r1" p1_detendo_r1)
  = [("p2", msg_ack ID_P1 "r1" 6)].
Proof.
  rewrite (sair_p2_so_primeiro ID_P1 PROCESSOS_P1 "r1" p1_detendo_r1 req_p2_r1
             [{| tipo := "requisicao"; recurso := "r2"; timestamp := 2; id := "p3" |}]);
    [reflexivity|reflexivity|reflexivity|reflexivity|decidir].
Defined.

(** Witness: p1 requesting r1 receives p2's older request for r1, and
    answers it with a nack. *)
Example requisicao_adiada_nack_exemplo :
  saidas (processar_mensagem ID_P1 PROCESSOS_P1 "2" req_p2_r1 p1_pedindo_r1)
  = [("p2", msg_nack ID_P1 "r1" 3)].
Proof.
  rewrite (requisicao_adiada_nack ID_P1 PROCESSOS_P1 "2" req_p2_r1 p1_pedindo_r1);
    [reflexivity|reflexivity|decidir|right; reflexivity].
Defined.

(** Witness: p1 waiting for the acks of r1 receives a nack of p2. *)
Example nack_reinicia_requisicao_exemplo :
  let m := {| tipo := "nack"; recurso := "r1"; timestamp := 3; id := "p2" |} in
  respostas_esperadas (estado_final (passo_aguardar_recurso ID_P1 PROCESSOS_P1 "2" "r1"
    (estado_final (processar_mensagem ID_P1 PROCESSOS_P1 "1" m p1_pedindo_r1))))
    !! "r1" = Some {["p2"; "p3"]}.
Proof.
  intros m.
  destruct (nack_reinicia_requisicao ID_P1 PROCESSOS_P1 "2" m p1_pedindo_r1)
    as (_ & _ & _ & H & _); [reflexivity|reflexivity|].
  change "r1" with (recurso m). rewrite H. f_equal.
Defined.

End P2.
