(* ===== verification/P2Sistema.v ===== *)
(** * P2Sistema: processes of [src/p2.py] connected by a network

    A process of [src/p2.py] has more threads than one of [src/p1.py]:
    besides the main thread ([interface_usuario]) and the server thread,
    every answer ["1"] to a prompt starts a daemon thread
    [aguardar_recurso(recurso)] (lines 108-113), from the main thread (line
    127) or from the server thread after a nack (line 203).  Such a thread
    polls [recurso_ocupado], then calls [entrar_recurso_critico] and waits
    for the acks of lines 137-139 itself.  All the threads share the five
    globals, and [esperando_recurso] is one variable.

    [No2] is a process: its globals, the place of its main thread, the list
    of its [aguardar_recurso] threads (each at [AguardandoLiberacao r] or
    [AguardandoAcks r]) and whether its server is alive.  [Global2] adds the
    messages in flight and the lines the processes printed at line 140
    (["Acesso concedido ao r"]) and line 149 (["Recurso r liberado."]), the
    only output of the program that says who holds what.

    [passo2] has one rule per thing that can happen, and [executar2] is an
    executable scheduler proved to take only steps of [passo2].  The run
    [execucao_violacao] and the theorem [exclusao_mutua_violada_p2] show
    two processes granted the same resource. *)

From S2P Require Import Prelude Relogio Mensagem Processo P2.
Import Mensagem Processo.

Module P2Sistema.

#[local] Open Scope Z_scope.

(** The lines of the terminal that tell who holds a resource. *)
Inductive Impressao :=
| Concedido (i r : string)   (** line 140: ["Acesso concedido ao r!"] *)
| Liberado (i r : string)    (** line 149: ["Recurso r liberado."] *).

Record No2 := mkNo2 {
  estado2 : Estado;
  fase2 : Fase;
  aguardadores : list Fase;
  servidor_ativo2 : bool
}.

Record Global2 := mkGlobal2 {
  nos2 : string -> No2;
  rede2 : list Envio;
  impressos : list Impressao
}.

Definition no2_inicial : No2 := mkNo2 estado_inicial Prompt [] true.

Definition global2_inicial : Global2 := mkGlobal2 (fun _ => no2_inicial) [] [].

(** Replace the node [i], append the messages it sent and what it printed. *)
Definition atualizar2 (g : Global2) (i : string) (n : No2) (envios : list Envio)
    (linhas : list Impressao) : Global2 :=
  mkGlobal2 (fun k => if bool_decide (k = i) then n else nos2 g k)
    (rede2 g ++ envios) (impressos g ++ linhas).

(** The threads after [aguardar_recurso(r)] is started, if one is. *)
Definition lancar (ag : list Fase) (r : option string) : list Fase :=
  match r with
  | Some r => ag ++ [AguardandoLiberacao r]
  | None => ag
  end.

(** The main thread after a command: an exception ends the process. *)
Definition no2_apos_comando (n : No2) (e : Exec Estado Envio (Fase * option string)) : No2 :=
  match resultado e with
  | Ok (f, r) => mkNo2 (estado_final e) f (lancar (aguardadores n) r) (servidor_ativo2 n)
  | Exc _ => mkNo2 (estado_final e) Encerrado (aguardadores n) (servidor_ativo2 n)
  end.

(** Line 149 is printed when the test of line 146 holds. *)
Definition impressao_liberacao (i : string) (c : Comando) (s : Estado) : list Impressao :=
  match c with
  | Liberar r =>
      if recurso_ocupado s && bool_decide (esperando_recurso s = Some r)
      then [Liberado i r] else []
  | _ => []
  end.

(** One iteration of the wait for the acks of [r] (lines 137-140), in the
    main thread or in an [aguardar_recurso] thread: [Prompt] means the loop
    exited and line 140 was printed. *)
Definition impressao_acks (i r : string) (e : Exec Estado Envio Fase) : list Impressao :=
  match resultado e with
  | Ok Prompt => [Concedido i r]
  | _ => []
  end.

(** The main thread after one iteration of its wait for the acks. *)
Definition no2_apos_acks (n : No2) (e : Exec Estado Envio Fase) : No2 :=
  match resultado e with
  | Ok f => mkNo2 (estado_final e) f (aguardadores n) (servidor_ativo2 n)
  | Exc _ => mkNo2 (estado_final e) Encerrado (aguardadores n) (servidor_ativo2 n)
  end.

(** The [k]-th [aguardar_recurso] thread after one iteration: it goes on
    waiting, or ends (the loop exited, or an exception ended the thread). *)
Definition no2_apos_aguardador (n : No2) (k : nat) (e : Exec Estado Envio Fase) : No2 :=
  let ag := aguardadores n in
  match resultado e with
  | Ok (AguardandoLiberacao r) => mkNo2 (estado_final e) (fase2 n) (<[k := AguardandoLiberacao r]> ag) (servidor_ativo2 n)
  | Ok (AguardandoAcks r) => mkNo2 (estado_final e) (fase2 n) (<[k := AguardandoAcks r]> ag) (servidor_ativo2 n)
  | _ => mkNo2 (estado_final e) (fase2 n) (take k ag ++ drop (S k) ag) (servidor_ativo2 n)
  end.

(** The server thread after a message: it may start a thread; an exception
    ends the server thread. *)
Definition no2_apos_servidor (n : No2) (e : Exec Estado Envio (option string)) : No2 :=
  match resultado e with
  | Ok r => mkNo2 (estado_final e) (fase2 n) (lancar (aguardadores n) r) (servidor_ativo2 n)
  | Exc _ => mkNo2 (estado_final e) (fase2 n) (aguardadores n) false
  end.

(** The globals a node keeps after a handler, whichever way it ended. *)
Lemma estado2_no2_apos_comando n e : estado2 (no2_apos_comando n e) = estado_final e.
Proof. unfold no2_apos_comando. by destruct (resultado e) as [[]|]. Qed.

Lemma estado2_no2_apos_acks n e : estado2 (no2_apos_acks n e) = estado_final e.
Proof. unfold no2_apos_acks. by destruct (resultado e). Qed.

Lemma estado2_no2_apos_aguardador n k e : estado2 (no2_apos_aguardador n k e) = estado_final e.
Proof. unfold no2_apos_aguardador. by destruct (resultado e) as [[]|]. Qed.

Lemma estado2_no2_apos_servidor n e : estado2 (no2_apos_servidor n e) = estado_final e.
Proof. unfold no2_apos_servidor. by destruct (resultado e). Qed.

#[export] Hint Rewrite estado2_no2_apos_comando estado2_no2_apos_acks
  estado2_no2_apos_aguardador estado2_no2_apos_servidor : mutex_rw.

Section Passos.
Context (PROCESSOS : list (string * (string * Z))).

(** One iteration of an [aguardar_recurso] thread at the phase [f]: the
    poll of lines 110-113, then the wait of lines 137-139. *)
Definition passo_aguardador (i : string) (f : Fase) : M Fase :=
  match f with
  | AguardandoLiberacao r =>
      o ← P2.passo_aguardar_recurso i PROCESSOS "" r;
      py_ret (match o with
              | None => AguardandoLiberacao r
              | Some e => fst (P2.fase_apos_entrada2 r e)
              end)
  | AguardandoAcks r => passo_aguardar_acks r
  | f => py_ret f
  end.

(** The resource a thread at phase [f] waits for the acks of. *)
Definition aguarda_acks (f : Fase) : option string :=
  match f with AguardandoAcks r => Some r | _ => None end.

Inductive passo2 : Global2 -> Global2 -> Prop :=
| ev2_comando g i c escolha :
    i ∈ PROCESSOS.*1 ->
    fase2 (nos2 g i) = Prompt ->
    let s := estado2 (nos2 g i) in
    let e := P2.passo_comando i PROCESSOS escolha c s in
    passo2 g (atualizar2 g i (no2_apos_comando (nos2 g i) e) (saidas e)
                (impressao_liberacao i c s))
| ev2_acks g i r :
    i ∈ PROCESSOS.*1 ->
    fase2 (nos2 g i) = AguardandoAcks r ->
    let e := passo_aguardar_acks r (estado2 (nos2 g i)) in
    passo2 g (atualizar2 g i (no2_apos_acks (nos2 g i) e) (saidas e) (impressao_acks i r e))
| ev2_aguardador g i k f :
    i ∈ PROCESSOS.*1 ->
    fase2 (nos2 g i) ≠ Encerrado ->
    aguardadores (nos2 g i) !! k = Some f ->
    let e := passo_aguardador i f (estado2 (nos2 g i)) in
    passo2 g (atualizar2 g i (no2_apos_aguardador (nos2 g i) k e) (saidas e)
                (match aguarda_acks f with Some r => impressao_acks i r e | None => [] end))
| ev2_entrega g i m l1 l2 escolha :
    rede2 g = l1 ++ (i, m) :: l2 ->
    i ∈ PROCESSOS.*1 ->
    fase2 (nos2 g i) ≠ Encerrado ->
    servidor_ativo2 (nos2 g i) = true ->
    let e := P2.processar_objeto i PROCESSOS escolha (para_objeto m) (estado2 (nos2 g i)) in
    passo2 g (atualizar2 (mkGlobal2 (nos2 g) (l1 ++ l2) (impressos g)) i
                (no2_apos_servidor (nos2 g i) e) (saidas e) [])
| ev2_perda g x l1 l2 :
    rede2 g = l1 ++ x :: l2 ->
    passo2 g (mkGlobal2 (nos2 g) (l1 ++ l2) (impressos g)).

Definition alcancavel2 (g : Global2) : Prop := rtc passo2 global2_inicial g.

End Passos.

(** ** An executable scheduler *)

Inductive Evento2 :=
| Ev2Comando (i : string) (c : Comando) (escolha : string)
| Ev2Acks (i : string)                 (** an iteration of the main thread's wait *)
| Ev2Aguardador (i : string) (k : nat) (** an iteration of the [k]-th thread *)
| Ev2Entrega (n : nat) (escolha : string)
| Ev2Perda (n : nat).

Section Escalonador.
Context (PROCESSOS : list (string * (string * Z))).

Definition executar_evento2 (g : Global2) (ev : Evento2) : option Global2 :=
  match ev with
  | Ev2Comando i c escolha =>
      if bool_decide (i ∈ PROCESSOS.*1 /\ fase2 (nos2 g i) = Prompt) then
        let s := estado2 (nos2 g i) in
        let e := P2.passo_comando i PROCESSOS escolha c s in
        Some (atualizar2 g i (no2_apos_comando (nos2 g i) e) (saidas e)
                (impressao_liberacao i c s))
      else None
  | Ev2Acks i =>
      match fase2 (nos2 g i) with
      | AguardandoAcks r =>
          if bool_decide (i ∈ PROCESSOS.*1) then
            let e := passo_aguardar_acks r (estado2 (nos2 g i)) in
            Some (atualizar2 g i (no2_apos_acks (nos2 g i) e) (saidas e) (impressao_acks i r e))
          else None
      | _ => None
      end
  | Ev2Aguardador i k =>
      match aguardadores (nos2 g i) !! k with
      | Some f =>
          if bool_decide (i ∈ PROCESSOS.*1 /\ fase2 (nos2 g i) ≠ Encerrado) then
            let e := passo_aguardador PROCESSOS i f (estado2 (nos2 g i)) in
            Some (atualizar2 g i (no2_apos_aguardador (nos2 g i) k e) (saidas e)
                    (match aguarda_acks f with Some r => impressao_acks i r e | None => [] end))
          else None
      | None => None
      end
  | Ev2Entrega n escolha =>
      match rede2 g !! n with
      | Some (i, m) =>
          if bool_decide (i ∈ PROCESSOS.*1 /\ fase2 (nos2 g i) ≠ Encerrado
                          /\ servidor_ativo2 (nos2 g i) = true) then
            let e := P2.processar_objeto i PROCESSOS escolha (para_objeto m) (estado2 (nos2 g i)) in
            Some (atualizar2 (mkGlobal2 (nos2 g) (take n (rede2 g) ++ drop (S n) (rede2 g))
                                        (impressos g)) i
                    (no2_apos_servidor (nos2 g i) e) (saidas e) [])
          else None
      | None => None
      end
  | Ev2Perda n =>
      match rede2 g !! n with
      | Some _ => Some (mkGlobal2 (nos2 g) (take n (rede2 g) ++ drop (S n) (rede2 g)) (impressos g))
      | None => None
      end
  end.

Definition executar2 : Global2 -> list Evento2 -> option Global2 :=
  executar_lista executar_evento2.

Lemma executar_passo2 g ev g' :
  executar_evento2 g ev = Some g' -> passo2 PROCESSOS g g'.
Proof.
  destruct ev as [i c esc|i|i k|n esc|n]; simpl.
  - case_bool_decide as H; [|done]. intros [= <-]. apply ev2_comando; tauto.
  - destruct (fase2 (nos2 g i)) eqn:Hf; try done.
    case_bool_decide; [|done]. intros [= <-]. by apply ev2_acks.
  - destruct (aguardadores (nos2 g i) !! k) as [f|] eqn:Hk; [|done].
    case_bool_decide as H; [|done]. intros [= <-]. apply ev2_aguardador; tauto.
  - destruct (rede2 g !! n) as [[i m]|] eqn:Hn; [|done].
    case_bool_decide as H; [|done]. intros [= <-].
    apply ev2_entrega; [by rewrite take_drop_middle|tauto..].
  - destruct (rede2 g !! n) as [x|] eqn:Hn; [|done]. intros [= <-].
    eapply ev2_perda. by rewrite take_drop_middle.
Qed.

Lemma executar2_alcancavel evs g :
  executar2 global2_inicial evs = Some g -> alcancavel2 PROCESSOS g.
Proof. apply executar_lista_rtc, executar_passo2. Qed.

End Escalonador.

(** ** Two processes granted the same resource

    Three processes run [src/p2.py] with the configuration of
    [src/p1.py].  p1 takes r1 and asks for r2 while it holds r1, answering
    ["1"]: a thread [aguardar_recurso("r2")] starts.  p1 releases r1; the
    thread requests r2 and waits for the acks.  Meanwhile the main thread
    of p1 requests r3, which sets [esperando_recurso = "r3"] over the
    thread's ["r2"].  p2 now requests r2: p1 neither holds a resource nor
    waits for r2 any more, so it acks p2 at once.  Both p1's thread and p2
    get every ack for r2 and both print that r2 is granted. *)
Definition execucao_violacao : list Evento2 :=
  [Ev2Comando "p1" (Solicitar "r1") ""; Ev2Entrega 0 ""; Ev2Entrega 0 "";
   Ev2Entrega 0 ""; Ev2Entrega 0 ""; Ev2Acks "p1";
   Ev2Comando "p1" (Solicitar "r2") "1";
   Ev2Comando "p1" (Liberar "r1") "";
   Ev2Aguardador "p1" 0;
   Ev2Comando "p1" (Solicitar "r3") "";
   Ev2Entrega 0 ""; Ev2Entrega 0 "";
   Ev2Comando "p2" (Solicitar "r2") "";
   Ev2Entrega 4 ""; Ev2Entrega 4 "";
   Ev2Entrega 2 ""; Ev2Entrega 2 "";
   Ev2Aguardador "p1" 0;
   Ev2Entrega 2 ""; Ev2Entrega 2 "";
   Ev2Acks "p2"].

Definition g_violacao : Global2 :=
  default global2_inicial (executar2 P2.PROCESSOS_P2 global2_inicial execucao_violacao).

(** C4: [src/p2.py] does not ensure mutual exclusion.  A run of three
    processes of [src/p2.py] reaches a state where the terminal shows r2
    granted to p1 and then to p2, with no release of r2 in between.  p2
    holds r2; p1 has [recurso_ocupado] set but [esperando_recurso] is "r3",
    so p1 cannot even release r2: its [liberar r2] does nothing. *)
Theorem exclusao_mutua_violada_p2 :
  alcancavel2 P2.PROCESSOS_P2 g_violacao /\
  impressos g_violacao
    = [Concedido "p1" "r1"; Liberado "p1" "r1"; Concedido "p1" "r2"; Concedido "p2" "r2"] /\
  recurso_ocupado (estado2 (nos2 g_violacao P2.ID_P2)) = true /\
  esperando_recurso (estado2 (nos2 g_violacao P2.ID_P2)) = Some "r2" /\
  recurso_ocupado (estado2 (nos2 g_violacao "p1")) = true /\
  esperando_recurso (estado2 (nos2 g_violacao "p1")) = Some "r3" /\
  P2.sair_recurso_critico "p1" P2.PROCESSOS_P2 "r2" (estado2 (nos2 g_violacao "p1"))
    = mkExec (Ok tt) (estado2 (nos2 g_violacao "p1")) [].
Proof.
  split.
  - apply (executar2_alcancavel _ execucao_violacao). vm_compute. reflexivity.
  - split_and!; vm_compute; reflexivity.
Qed.

End P2Sistema.

