(* ===== verification/Sistema.v ===== *)
(** * Sistema: processes of [src/p1.py] connected by a network

    [Global] is the state of a whole run: one [No] per process id (its
    globals [Estado], the place [Fase] where its main thread is blocked, and
    whether its server thread is alive), and the messages in flight.  The
    network is a list used as a multiset: any message can be delivered next
    (TCP connections to different peers are not ordered), and any message
    can be lost ([enviar_mensagem] catches and prints a failed send).

    [passo] has one rule per thing that can happen:
    - a command at the prompt of [interface_usuario];
    - the operator's answer at the prompt of line 108;
    - one iteration of each polling loop of the main thread;
    - the delivery of a message to the server thread, as
      [processar_objeto] of the JSON the sender built;
    - the loss of a message.
    A handler runs atomically (see the root header).

    [executar_evento] and [executar] are an executable scheduler: one
    event, its guard checked as in the rule of [passo], or a whole
    schedule.  [executar_alcancavel] proves that a schedule it runs reaches
    a state of [alcancavel], so concrete runs are computed with [vm_compute].

    The theorems on runs are in [Seguranca] (mutual exclusion), [Impasse]
    (the two ways a run blocks for ever) and [Lamport] (the clocks). *)

From S2P Require Import Prelude Relogio Mensagem Processo.
Import Mensagem Processo.

Module Sistema.

#[local] Open Scope Z_scope.

Record No := mkNo {
  estado : Estado;
  fase : Fase;
  servidor_ativo : bool
}.

Record Global := mkGlobal {
  nos : string -> No;
  rede : list Envio
}.

Definition no_inicial : No := mkNo estado_inicial Prompt true.

Definition global_inicial : Global := mkGlobal (fun _ => no_inicial) [].

(** Replace the node [i] and append the messages it sent. *)
Definition atualizar (g : Global) (i : string) (n : No) (envios : list Envio) : Global :=
  mkGlobal (fun k => if bool_decide (k = i) then n else nos g k) (rede g ++ envios).

(** An exception in the main thread ends the process (the server thread is
    a daemon): its node stops in [Encerrado]. *)
Definition no_apos_main (n : No) (e : Exec Estado Envio Fase) : No :=
  match resultado e with
  | Ok f => mkNo (estado_final e) f (servidor_ativo n)
  | Exc _ => mkNo (estado_final e) Encerrado (servidor_ativo n)
  end.

(** An exception in the server thread ends that thread only. *)
Definition no_apos_servidor (n : No) (e : Exec Estado Envio unit) : No :=
  match resultado e with
  | Ok _ => mkNo (estado_final e) (fase n) (servidor_ativo n)
  | Exc _ => mkNo (estado_final e) (fase n) false
  end.

(** The globals a node keeps after a handler, whichever way it ended. *)
Lemma estado_no_apos_main n e : estado (no_apos_main n e) = estado_final e.
Proof. unfold no_apos_main. by destruct (resultado e). Qed.

Lemma estado_no_apos_servidor n e : estado (no_apos_servidor n e) = estado_final e.
Proof. unfold no_apos_servidor. by destruct (resultado e). Qed.

Lemma fase_no_apos_servidor n e : fase (no_apos_servidor n e) = fase n.
Proof. unfold no_apos_servidor. by destruct (resultado e). Qed.

#[export] Hint Rewrite estado_no_apos_main estado_no_apos_servidor
  fase_no_apos_servidor : mutex_rw.

Section Passos.
Context (PROCESSOS : list (string * (string * Z))).

Inductive passo : Global -> Global -> Prop :=
| ev_comando g i c :
    i ∈ PROCESSOS.*1 ->
    fase (nos g i) = Prompt ->
    let e := passo_comando i PROCESSOS c (estado (nos g i)) in
    passo g (atualizar g i (no_apos_main (nos g i) e) (saidas e))
| ev_resposta g i r escolha :
    i ∈ PROCESSOS.*1 ->
    fase (nos g i) = EscolhaOcupado r ->
    passo g (atualizar g i
      (mkNo (estado (nos g i)) (passo_escolha r escolha) (servidor_ativo (nos g i))) [])
| ev_liberacao g i r :
    i ∈ PROCESSOS.*1 ->
    fase (nos g i) = AguardandoLiberacao r ->
    let e := passo_aguardar_liberacao i PROCESSOS r (estado (nos g i)) in
    passo g (atualizar g i (no_apos_main (nos g i) e) (saidas e))
| ev_acks g i r :
    i ∈ PROCESSOS.*1 ->
    fase (nos g i) = AguardandoAcks r ->
    let e := passo_aguardar_acks r (estado (nos g i)) in
    passo g (atualizar g i (no_apos_main (nos g i) e) (saidas e))
| ev_entrega g i m l1 l2 :
    rede g = l1 ++ (i, m) :: l2 ->
    i ∈ PROCESSOS.*1 ->
    fase (nos g i) ≠ Encerrado ->
    servidor_ativo (nos g i) = true ->
    let e := processar_objeto i PROCESSOS (para_objeto m) (estado (nos g i)) in
    passo g (atualizar (mkGlobal (nos g) (l1 ++ l2)) i
               (no_apos_servidor (nos g i) e) (saidas e))
| ev_perda g x l1 l2 :
    rede g = l1 ++ x :: l2 ->
    passo g (mkGlobal (nos g) (l1 ++ l2)).

Definition alcancavel (g : Global) : Prop := rtc passo global_inicial g.

End Passos.

(** ** An executable scheduler

    [executar_evento] runs one event and checks the guard of its rule of
    [passo]; [executar] runs a schedule.  Concrete runs are computed with
    [vm_compute], and [executar_alcancavel] makes them reachable. *)

(** One event of a run. *)
Inductive Evento :=
| EvComando (i : string) (c : Comando)
| EvResposta (i escolha : string)
| EvIteracao (i : string)          (** one iteration of the loop [i] waits in *)
| EvEntrega (n : nat)              (** delivery of the [n]-th message in flight *)
| EvPerda (n : nat)                (** loss of the [n]-th message in flight *).

Section Escalonador.
Context (PROCESSOS : list (string * (string * Z))).

Definition executar_evento (g : Global) (ev : Evento) : option Global :=
  match ev with
  | EvComando i c =>
      if bool_decide (i ∈ PROCESSOS.*1 /\ fase (nos g i) = Prompt) then
        let e := passo_comando i PROCESSOS c (estado (nos g i)) in
        Some (atualizar g i (no_apos_main (nos g i) e) (saidas e))
      else None
  | EvResposta i escolha =>
      match fase (nos g i) with
      | EscolhaOcupado r =>
          if bool_decide (i ∈ PROCESSOS.*1) then
            Some (atualizar g i (mkNo (estado (nos g i)) (passo_escolha r escolha)
                                      (servidor_ativo (nos g i))) [])
          else None
      | _ => None
      end
  | EvIteracao i =>
      if bool_decide (i ∈ PROCESSOS.*1) then
        match fase (nos g i) with
        | AguardandoLiberacao r =>
            let e := passo_aguardar_liberacao i PROCESSOS r (estado (nos g i)) in
            Some (atualizar g i (no_apos_main (nos g i) e) (saidas e))
        | AguardandoAcks r =>
            let e := passo_aguardar_acks r (estado (nos g i)) in
            Some (atualizar g i (no_apos_main (nos g i) e) (saidas e))
        | _ => None
        end
      else None
  | EvEntrega n =>
      match rede g !! n with
      | Some (i, m) =>
          if bool_decide (i ∈ PROCESSOS.*1 /\ fase (nos g i) ≠ Encerrado
                          /\ servidor_ativo (nos g i) = true) then
            let e := processar_objeto i PROCESSOS (para_objeto m) (estado (nos g i)) in
            Some (atualizar (mkGlobal (nos g) (take n (rede g) ++ drop (S n) (rede g))) i
                    (no_apos_servidor (nos g i) e) (saidas e))
          else None
      | None => None
      end
  | EvPerda n =>
      match rede g !! n with
      | Some _ => Some (mkGlobal (nos g) (take n (rede g) ++ drop (S n) (rede g)))
      | None => None
      end
  end.

Definition executar : Global -> list Evento -> option Global :=
  executar_lista executar_evento.

Lemma rede_meio g n x :
  rede g !! n = Some x -> rede g = take n (rede g) ++ x :: drop (S n) (rede g).
Proof. intros H. by rewrite take_drop_middle. Qed.

(** The scheduler takes only steps of [passo]. *)
Lemma executar_passo g ev g' :
  executar_evento g ev = Some g' -> passo PROCESSOS g g'.
Proof.
  destruct ev as [i c|i esc|i|n|n]; simpl.
  - case_bool_decide as H; [|done]. intros [= <-]. apply ev_comando; tauto.
  - destruct (fase (nos g i)) eqn:Hf; try done.
    case_bool_decide; [|done]. intros [= <-]. by apply ev_resposta.
  - case_bool_decide as Hi; [|done].
    destruct (fase (nos g i)) eqn:Hf; try done; intros [= <-];
      [by apply ev_liberacao|by apply ev_acks].
  - destruct (rede g !! n) as [[i m]|] eqn:Hn; [|done].
    case_bool_decide as H; [|done]. intros [= <-].
    apply ev_entrega; [by apply rede_meio|tauto..].
  - destruct (rede g !! n) as [x|] eqn:Hn; [|done]. intros [= <-].
    eapply ev_perda. by apply rede_meio.
Qed.

Lemma executar_rtc g evs g' :
  executar g evs = Some g' -> rtc (passo PROCESSOS) g g'.
Proof. apply executar_lista_rtc, executar_passo. Qed.

Lemma executar_alcancavel evs g :
  executar global_inicial evs = Some g -> alcancavel PROCESSOS g.
Proof. apply executar_rtc. Qed.

End Escalonador.


End Sistema.
