(* ===== verification/BemFormado.v ===== *)
(** * BemFormado: the well-formedness of the globals of one process

    Whatever messages arrive and whatever the operator types, the globals
    of a process of [src/p1.py] (lines 41-45) keep three properties:
    - every pending set [respostas_esperadas[r]] only names peers of
      [PROCESSOS] other than the process itself, as
      [multicast_requisicao] builds it at line 81 (acks only remove);
    - [relogio_local] is never negative;
    - [fila_recurso] holds only requests (line 162 appends a message whose
      [tipo] is ["requisicao"]).
    [bem_formado] is decidable.  The theorem [bem_formado_invariante] shows
    that the initial globals satisfy it and every handler keeps it: the
    server handler on any received object, errors included, and each step
    of the main thread.  The handlers of [src/p2.py] keep it too, and
    [bem_formado_execucoes] lifts it to every process of every reachable
    state of a run of [src/p1.py] or of [src/p2.py].

    The file also shows that the drain loop [drenar_fila] terminates with
    the fuel it is given.  With at least as much fuel as the queue has
    entries, the result does not depend on the fuel, so the [Fixpoint]
    computes the Python [while fila_recurso] loop exactly. *)

From S2P Require Import Prelude Relogio Mensagem Processo P2 P2Sistema Sistema.
Import Mensagem Processo.

Module BemFormado.

#[local] Open Scope Z_scope.

Section BemFormado.
Context (ID_PROCESSO : string) (PROCESSOS : list (string * (string * Z))).

(** The peers a pending set may name. *)
Definition pares : gset string := list_to_set (PROCESSOS.*1) ∖ {[ID_PROCESSO]}.

Definition bem_formado (s : Estado) : Prop :=
  map_Forall (fun _ p => p ⊆ pares) (respostas_esperadas s) /\
  0 <= relogio_local s /\
  Forall (fun q => tipo q = "requisicao") (fila_recurso s).

#[export] Instance bem_formado_dec s : Decision (bem_formado s).
Proof. unfold bem_formado. apply _. Defined.

(** ** The drain loop *)

(** Whatever the fuel and whatever the ids in the queue, the drain loop only
    pops entries off the front of the queue and ticks the clock.  When an
    ack raises [KeyError], it stops there. *)
Lemma drenar_fila_geral fuel r s :
  let s' := estado_final (drenar_fila ID_PROCESSO PROCESSOS fuel r s) in
  respostas_esperadas s' = respostas_esperadas s /\
  relogio_local s <= relogio_local s' /\
  fila_recurso s' `suffix_of` fila_recurso s.
Proof.
  revert s. induction fuel as [|fuel IH]; intros s; simpl; [split_and!; done || lia|].
  proc_simpl. destruct (fila_recurso s) as [|q resto] eqn:Hf; simpl; rewrite ?Hf;
    [split_and!; done || lia|].
  destruct (decide (id q ∈ PROCESSOS.*1)).
  - rewrite enviar_ack_ok by done. simpl.
    destruct (IH (com_relogio (relogio_local s + 1) (com_fila resto s)))
      as (H1 & H2 & H3); simpl in *.
    destruct (drenar_fila _ _ _ _ _) as [[] s2 o2]; simpl in *;
      (split_and!; [done|lia|]); (etrans; [exact H3|]); by apply suffix_cons_r.
  - rewrite enviar_ack_erro by done. simpl.
    split_and!; [done|lia|]. by apply suffix_cons_r.
Qed.

Lemma drenar_fila_fila_vazia fuel r s :
  fila_recurso s = [] -> drenar_fila ID_PROCESSO PROCESSOS fuel r s = mkExec (Ok tt) s [].
Proof. intros Hf. destruct fuel; simpl; pym_simpl; [done|]. by rewrite Hf. Qed.

(** The fuel [length fila_recurso] that [sair_recurso_critico] gives is
    enough: any fuel at least as large gives the same run. *)
Lemma drenar_fila_estavel f1 f2 r s :
  (length (fila_recurso s) <= f1)%nat -> (length (fila_recurso s) <= f2)%nat ->
  drenar_fila ID_PROCESSO PROCESSOS f1 r s = drenar_fila ID_PROCESSO PROCESSOS f2 r s.
Proof.
  revert f2 s. induction f1 as [|f1 IH]; intros f2 s H1 H2.
  - rewrite !drenar_fila_fila_vazia; [done| |]; apply nil_length_inv; lia.
  - destruct f2 as [|f2].
    { rewrite !drenar_fila_fila_vazia; [done| |]; apply nil_length_inv; lia. }
    cbn [drenar_fila]. proc_simpl.
    destruct (fila_recurso s) as [|q resto] eqn:Hf; [done|]. simpl in H1, H2.
    destruct (decide (id q ∈ PROCESSOS.*1)).
    + rewrite enviar_ack_ok by done. simpl. rewrite (IH f2); simpl; [done|lia|lia].
    + by rewrite enviar_ack_erro.
Qed.

(** With that fuel the loop leaves by its own test: when no ack raised,
    the queue is empty. *)
Lemma drenar_fila_esvazia fuel r s :
  (length (fila_recurso s) <= fuel)%nat ->
  resultado (drenar_fila ID_PROCESSO PROCESSOS fuel r s) = Ok tt ->
  fila_recurso (estado_final (drenar_fila ID_PROCESSO PROCESSOS fuel r s)) = [].
Proof.
  revert s. induction fuel as [|fuel IH]; intros s Hl Hok.
  - simpl. apply nil_length_inv. lia.
  - cbn [drenar_fila] in *. proc_simpl.
    destruct (fila_recurso s) as [|q resto] eqn:Hf; [done|]. simpl in Hl.
    destruct (decide (id q ∈ PROCESSOS.*1)).
    + rewrite enviar_ack_ok in * by done. simpl in *.
      specialize (IH (com_relogio (relogio_local s + 1) (com_fila resto s))).
      simpl in IH. destruct (drenar_fila _ _ _ _ _) as [res s2 o2]; simpl in *.
      apply IH; [lia|done].
    + by rewrite enviar_ack_erro in Hok.
Qed.

(** ** Preservation of [bem_formado] *)

Lemma bem_formado_campos s s' :
  respostas_esperadas s' = respostas_esperadas s ->
  relogio_local s <= relogio_local s' ->
  fila_recurso s' `suffix_of` fila_recurso s ->
  bem_formado s -> bem_formado s'.
Proof.
  intros Hr Hc Hf (H1 & H2 & H3). unfold bem_formado. rewrite Hr.
  split_and!; [done|lia|]. by eapply Forall_suffix_of.
Qed.

Lemma bem_formado_relogio c s :
  relogio_local s <= c -> bem_formado s -> bem_formado (com_relogio c s).
Proof. intros Hc. apply bem_formado_campos; simpl; [done|done|done]. Qed.

Lemma bem_formado_drenar fuel r s :
  bem_formado s -> bem_formado (estado_final (drenar_fila ID_PROCESSO PROCESSOS fuel r s)).
Proof. destruct (drenar_fila_geral fuel r s) as (? & ? & ?). by apply bem_formado_campos. Qed.

Lemma bem_formado_enviar_ack d r s :
  bem_formado s -> bem_formado (estado_final (enviar_ack ID_PROCESSO PROCESSOS d r s)).
Proof. rewrite enviar_ack_estado. apply bem_formado_relogio. lia. Qed.

(** The multicast of [entrar_recurso_critico] sets the pending set of the
    resource to exactly the peers. *)
Lemma bem_formado_entrar r s :
  bem_formado s ->
  bem_formado (estado_final (entrar_recurso_critico ID_PROCESSO PROCESSOS r s)).
Proof.
  intros (H1 & H2 & H3). rewrite entrar_recurso_critico_eq.
  destruct (recurso_ocupado s); [done|]. unfold bem_formado. proc_simpl.
  split_and!; [|lia|done]. by apply map_Forall_insert_2.
Qed.

Lemma bem_formado_processar_mensagem m s :
  bem_formado s ->
  bem_formado (estado_final (processar_mensagem ID_PROCESSO PROCESSOS m s)).
Proof.
  intros Hbf. pose proof (Relogio.atualizar_relogio_gt_ts (relogio_local s) (timestamp m)).
  pose proof (Relogio.atualizar_relogio_gt_local (relogio_local s) (timestamp m)).
  destruct (decide (tipo m = "requisicao")) as [Hr|Hr];
    [|destruct (decide (tipo m = "ack")) as [Ha|Ha]].
  - rewrite processar_requisicao_eq by done. cbv zeta.
    destruct Hbf as (H1 & H2 & H3).
    destruct (_ || _).
    + unfold bem_formado. proc_simpl. split_and!; [done|lia|]. apply Forall_app. by split; [|constructor].
    + apply bem_formado_enviar_ack. unfold bem_formado. proc_simpl. split_and!; [done|lia|done].
  - rewrite processar_ack_eq by done. unfold bem_formado. proc_simpl.
    destruct Hbf as (H1 & H2 & H3).
    destruct (respostas_esperadas s !! recurso m) as [p|] eqn:Hp; proc_simpl;
      split_and!; try done; try lia.
    apply map_Forall_insert_2; [|done].
    etrans; [|exact (map_Forall_lookup_1 _ _ _ _ H1 Hp)]. set_solver.
  - rewrite processar_outro_eq by done. apply bem_formado_relogio; [lia|done].
Qed.

Lemma bem_formado_sair r s :
  bem_formado s ->
  bem_formado (estado_final (sair_recurso_critico ID_PROCESSO PROCESSOS r s)).
Proof.
  intros Hbf. unfold sair_recurso_critico. proc_simpl.
  destruct (_ && _); [|done]. proc_simpl.
  match goal with |- context [drenar_fila _ _ ?f r ?s1] =>
    pose proof (bem_formado_drenar f r s1 Hbf) end.
  by destruct (drenar_fila _ _ _ _ _).
Qed.

Lemma bem_formado_processar_objeto o s :
  bem_formado s ->
  bem_formado (estado_final (processar_objeto ID_PROCESSO PROCESSOS o s)).
Proof.
  unfold processar_objeto. destruct (ler_mensagem o); [|done].
  apply bem_formado_processar_mensagem.
Qed.

Lemma bem_formado_passo_comando c s :
  bem_formado s -> bem_formado (estado_final (passo_comando ID_PROCESSO PROCESSOS c s)).
Proof.
  intros Hbf. destruct c as [r|r| |]; unfold passo_comando; try done;
    unfold mbind, mret, py_mbind, py_mret.
  - rewrite (py_bind_ret_estado _ (fase_apos_entrada r)). by apply bem_formado_entrar.
  - rewrite (py_bind_ret_estado _ (fun _ => Prompt)). by apply bem_formado_sair.
Qed.

Lemma bem_formado_passo_aguardar_liberacao r s :
  bem_formado s ->
  bem_formado (estado_final (passo_aguardar_liberacao ID_PROCESSO PROCESSOS r s)).
Proof.
  intros Hbf. destruct (recurso_ocupado s) eqn:Ho.
  { by rewrite passo_aguardar_liberacao_ocupado. }
  unfold passo_aguardar_liberacao. pym_simpl. rewrite Ho.
  pose proof (bem_formado_entrar r s Hbf).
  by destruct (entrar_recurso_critico _ _ r s) as [[] ? ?].
Qed.

Lemma bem_formado_passo_aguardar_acks r s :
  bem_formado s -> bem_formado (estado_final (passo_aguardar_acks r s)).
Proof.
  intros Hbf. destruct (respostas_esperadas s !! r) as [p|] eqn:Hp.
  - rewrite (passo_aguardar_acks_eq r s p Hp). by destruct (bool_decide _).
  - unfold passo_aguardar_acks, verificar_acks. proc_simpl. by rewrite Hp.
Qed.

(** ** The handlers of [src/p2.py] *)

Lemma bem_formado_entrar2 esc r s :
  bem_formado s ->
  bem_formado (estado_final (P2.entrar_recurso_critico ID_PROCESSO PROCESSOS esc r s)).
Proof.
  intros (H1 & H2 & H3). unfold P2.entrar_recurso_critico. proc_simpl.
  destruct (recurso_ocupado s); [by destruct (bool_decide _)|]. proc_simpl.
  rewrite multicast_requisicao_eq. unfold bem_formado. proc_simpl.
  split_and!; [|lia|done]. by apply map_Forall_insert_2.
Qed.

(** The release of [src/p2.py] leaves an empty queue. *)
Lemma bem_formado_sair2 r s :
  bem_formado s ->
  bem_formado (estado_final (P2.sair_recurso_critico ID_PROCESSO PROCESSOS r s)).
Proof.
  intros (H1 & H2 & H3). unfold P2.sair_recurso_critico. P2.p2_comum. proc_simpl.
  destruct (_ && _); [|done]. proc_simpl.
  destruct (fila_recurso s) as [|q resto]; proc_simpl.
  - unfold bem_formado. proc_simpl. split_and!; [done|lia|constructor].
  - pose proof (enviar_ack_estado ID_PROCESSO PROCESSOS (id q) r
      (com_fila resto (com_esperando None (com_ocupado false s)))) as He.
    destruct (enviar_ack _ _ _ _ _) as [[] s2 o2]; simpl in He; subst s2;
      unfold bem_formado; proc_simpl; split_and!; try done; try lia;
      by apply Forall_inv_tail in H3.
Qed.

Lemma bem_formado_processar_objeto2 esc o s :
  bem_formado s ->
  bem_formado (estado_final (P2.processar_objeto ID_PROCESSO PROCESSOS esc o s)).
Proof.
  intros Hbf. unfold P2.processar_objeto. destruct (ler_mensagem o) as [m|e]; [|done].
  pose proof (Relogio.atualizar_relogio_gt_local (relogio_local s) (timestamp m)).
  destruct (decide (tipo m = "requisicao")) as [Hr|Hr].
  - rewrite P2.processar_requisicao2_eq by done. cbv zeta.
    destruct Hbf as (H1 & H2 & H3).
    match goal with |- context [resultado ?e] => assert (He : bem_formado (estado_final e)) end.
    { destruct (_ || _).
      - rewrite P2.enviar_nack_estado. unfold bem_formado. proc_simpl.
        split_and!; [done|lia|]. apply Forall_app. by split; [|constructor].
      - apply bem_formado_enviar_ack. unfold bem_formado. proc_simpl. split_and!; [done|lia|done]. }
    by destruct (resultado _).
  - unfold P2.processar_mensagem. P2.p2_comum. unfold atualizar_relogio. proc_simpl.
    rewrite bool_decide_eq_false_2 by done.
    destruct Hbf as (H1 & H2 & H3).
    destruct (bool_decide (tipo m = "ack")).
    + destruct (respostas_esperadas s !! recurso m) as [p|] eqn:Hp; unfold bem_formado; proc_simpl;
        split_and!; try done; try lia.
      apply map_Forall_insert_2; [|done].
      etrans; [|exact (map_Forall_lookup_1 _ _ _ _ H1 Hp)]. set_solver.
    + destruct (bool_decide _); [destruct (bool_decide _)|]; unfold bem_formado; proc_simpl;
        split_and!; try done; lia.
Qed.

Lemma bem_formado_passo_comando2 esc c s :
  bem_formado s ->
  bem_formado (estado_final (P2.passo_comando ID_PROCESSO PROCESSOS esc c s)).
Proof.
  intros Hbf. destruct c as [r|r| |]; unfold P2.passo_comando; try done;
    unfold mbind, mret, py_mbind, py_mret.
  - rewrite (py_bind_ret_estado _ (P2.fase_apos_entrada2 r)). by apply bem_formado_entrar2.
  - rewrite (py_bind_ret_estado _ (fun _ => (Prompt, None))). by apply bem_formado_sair2.
Qed.

Lemma bem_formado_passo_aguardador f s :
  bem_formado s ->
  bem_formado (estado_final (P2Sistema.passo_aguardador PROCESSOS ID_PROCESSO f s)).
Proof.
  intros Hbf. destruct f; unfold P2Sistema.passo_aguardador; try done.
  - unfold mbind, py_mbind.
    rewrite (py_bind_ret_estado _ (fun o => match o with
      | None => AguardandoLiberacao r | Some e => fst (P2.fase_apos_entrada2 r e) end)).
    unfold P2.passo_aguardar_recurso. pym_simpl. destruct (recurso_ocupado s); [done|].
    pose proof (bem_formado_entrar2 "" r s Hbf).
    by destruct (P2.entrar_recurso_critico _ _ _ _ _) as [[] ? ?].
  - by apply bem_formado_passo_aguardar_acks.
Qed.

(** ** The theorems *)

(** C32: [bem_formado] is a type invariant of the globals of a process.
    It holds of the initial globals (lines 41-45), and each handler keeps
    it: the server handler on any received object (including an object
    with missing fields or an unknown sender), a command at the prompt,
    one iteration of the wait for the release and one iteration of the
    wait for the acks.  So every pending set only names other peers, the
    clock is never negative, and the queue holds only requests. *)
Theorem bem_formado_invariante :
  bem_formado estado_inicial /\
  (forall o s, bem_formado s ->
     bem_formado (estado_final (processar_objeto ID_PROCESSO PROCESSOS o s))) /\
  (forall c s, bem_formado s ->
     bem_formado (estado_final (passo_comando ID_PROCESSO PROCESSOS c s))) /\
  (forall r s, bem_formado s ->
     bem_formado (estado_final (passo_aguardar_liberacao ID_PROCESSO PROCESSOS r s))) /\
  (forall r s, bem_formado s -> bem_formado (estado_final (passo_aguardar_acks r s))).
Proof.
  split_and!.
  - split_and!; [apply map_Forall_empty|simpl; lia|constructor].
  - exact bem_formado_processar_objeto.
  - exact bem_formado_passo_comando.
  - exact bem_formado_passo_aguardar_liberacao.
  - exact bem_formado_passo_aguardar_acks.
Qed.

(** C34: the drain loop of lines 141-143 terminates with the fuel it is
    given.  With any fuel at least the length of the queue, the run is the
    run with exactly that fuel (the one [sair_recurso_critico] gives), and
    when no ack raised [KeyError] the loop has left through its own test
    [while fila_recurso]: the queue is empty, not cut short by the fuel.
    Whichever way it ends, the loop keeps the globals well formed. *)
Theorem drenar_fila_termina fuel r s :
  (length (fila_recurso s) <= fuel)%nat ->
  drenar_fila ID_PROCESSO PROCESSOS fuel r s
  = drenar_fila ID_PROCESSO PROCESSOS (length (fila_recurso s)) r s /\
  (resultado (drenar_fila ID_PROCESSO PROCESSOS fuel r s) = Ok tt ->
   fila_recurso (estado_final (drenar_fila ID_PROCESSO PROCESSOS fuel r s)) = []) /\
  (bem_formado s -> bem_formado (estado_final (drenar_fila ID_PROCESSO PROCESSOS fuel r s))).
Proof.
  intros Hl. split_and!.
  - apply drenar_fila_estavel; lia.
  - by apply drenar_fila_esvazia.
  - apply bem_formado_drenar.
Qed.

End BemFormado.

(** ** Every process of a run *)

Section Execucoes.
Context (PROCESSOS : list (string * (string * Z))).

(** The globals of every process of a run of [src/p1.py] are well formed,
    each for its own id. *)
Definition bem_formado_global (g : Sistema.Global) : Prop :=
  forall k, bem_formado k PROCESSOS (Sistema.estado (Sistema.nos g k)).

Definition bem_formado_global2 (g : P2Sistema.Global2) : Prop :=
  forall k, bem_formado k PROCESSOS (P2Sistema.estado2 (P2Sistema.nos2 g k)).

Lemma bem_formado_global_atualizar g i n envs :
  bem_formado_global g -> bem_formado i PROCESSOS (Sistema.estado n) ->
  bem_formado_global (Sistema.atualizar g i n envs).
Proof. intros Hg Hn k. unfold Sistema.atualizar. simpl. case_bool_decide; subst; auto. Qed.

Lemma bem_formado_global_passo g g' :
  Sistema.passo PROCESSOS g g' -> bem_formado_global g -> bem_formado_global g'.
Proof.
  intros Hp Hg. destruct Hp as [g i c ? ? e|g i r esc ? ?|g i r ? ? e|g i r ? ? e
                               |g i m l1 l2 ? ? ? ? e|g x l1 l2 ?].
  - apply bem_formado_global_atualizar; [done|].
    rewrite Sistema.estado_no_apos_main. by apply bem_formado_passo_comando.
  - apply bem_formado_global_atualizar; [done|apply Hg].
  - apply bem_formado_global_atualizar; [done|].
    rewrite Sistema.estado_no_apos_main. by apply bem_formado_passo_aguardar_liberacao.
  - apply bem_formado_global_atualizar; [done|].
    rewrite Sistema.estado_no_apos_main. by apply bem_formado_passo_aguardar_acks.
  - apply (bem_formado_global_atualizar (Sistema.mkGlobal (Sistema.nos g) (l1 ++ l2)));
      [exact Hg|]. rewrite Sistema.estado_no_apos_servidor. by apply bem_formado_processar_objeto.
  - exact Hg.
Qed.

Lemma bem_formado_global2_atualizar g i n envs linhas :
  bem_formado_global2 g -> bem_formado i PROCESSOS (P2Sistema.estado2 n) ->
  bem_formado_global2 (P2Sistema.atualizar2 g i n envs linhas).
Proof. intros Hg Hn k. unfold P2Sistema.atualizar2. simpl. case_bool_decide; subst; auto. Qed.

Lemma bem_formado_global2_passo g g' :
  P2Sistema.passo2 PROCESSOS g g' -> bem_formado_global2 g -> bem_formado_global2 g'.
Proof.
  intros Hp Hg. destruct Hp as [g i c esc ? ? s e|g i r ? ? e|g i k f ? ? ? e
                               |g i m l1 l2 esc ? ? ? ? e|g x l1 l2 ?].
  - apply bem_formado_global2_atualizar; [done|].
    rewrite P2Sistema.estado2_no2_apos_comando. by apply bem_formado_passo_comando2.
  - apply bem_formado_global2_atualizar; [done|].
    rewrite P2Sistema.estado2_no2_apos_acks. by apply bem_formado_passo_aguardar_acks.
  - apply bem_formado_global2_atualizar; [done|].
    rewrite P2Sistema.estado2_no2_apos_aguardador. by apply bem_formado_passo_aguardador.
  - apply (bem_formado_global2_atualizar
             (P2Sistema.mkGlobal2 (P2Sistema.nos2 g) (l1 ++ l2) (P2Sistema.impressos g)));
      [exact Hg|].
    rewrite P2Sistema.estado2_no2_apos_servidor. by apply bem_formado_processar_objeto2.
  - exact Hg.
Qed.

Lemma bem_formado_estado_inicial k : bem_formado k PROCESSOS estado_inicial.
Proof. split_and!; [apply map_Forall_empty|simpl; lia|constructor]. Qed.

(** C33: in every reachable state of a run of [src/p1.py], and of a run of
    [src/p2.py] with its extra threads, the globals of every process are
    well formed for its own id: its pending sets name only the other
    peers, its clock is not negative and its queue holds only requests. *)
Theorem bem_formado_execucoes :
  (forall g, Sistema.alcancavel PROCESSOS g -> bem_formado_global g) /\
  (forall g, P2Sistema.alcancavel2 PROCESSOS g -> bem_formado_global2 g).
Proof.
  split; intros g Ha.
  - assert (H0 : bem_formado_global Sistema.global_inicial)
      by (intros k; apply bem_formado_estado_inicial).
    revert H0. induction Ha as [|x y z Hp _ IH]; [done|].
    intros Hx. by apply IH, (bem_formado_global_passo x).
  - assert (H0 : bem_formado_global2 P2Sistema.global2_inicial)
      by (intros k; apply bem_formado_estado_inicial).
    revert H0. induction Ha as [|x y z Hp _ IH]; [done|].
    intros Hx. by apply IH, (bem_formado_global2_passo x).
Qed.

End Execucoes.

(** ** Witnesses on the configuration of [src/p1.py] *)

Example bem_formado_invariante_exemplo :
  bem_formado ID_P1 PROCESSOS_P1 p1_detendo_r1 /\
  bem_formado ID_P1 PROCESSOS_P1
    (estado_final (processar_objeto ID_P1 PROCESSOS_P1 (para_objeto req_p2_r1) p1_detendo_r1)).
Proof.
  assert (H : bem_formado ID_P1 PROCESSOS_P1 p1_detendo_r1) by decidir.
  split; [exact H|].
  exact (proj1 (proj2 (bem_formado_invariante ID_P1 PROCESSOS_P1)) _ _ H).
Defined.

(** An unknown sender in the queue: the loop raises [KeyError] at the
    first entry, with fuel to spare. *)
Example drenar_fila_termina_exemplo :
  let s := com_fila [{| tipo := "requisicao"; recurso := "r1"; timestamp := 3;
                        id := "processo1" |}; req_p2_r1] p1_detendo_r1 in
  drenar_fila ID_P1 PROCESSOS_P1 10 "r1" s = drenar_fila ID_P1 PROCESSOS_P1 2 "r1" s /\
  resultado (drenar_fila ID_P1 PROCESSOS_P1 10 "r1" s) = Exc (KeyError "processo1").
Proof.
  intros s. split.
  - refine (proj1 (drenar_fila_termina ID_P1 PROCESSOS_P1 10 "r1" s _)). simpl. lia.
  - vm_compute. reflexivity.
Defined.

(** Witness: after the run of [P2Sistema.execucao_violacao], where p1 and
    p2 both print that r2 is granted, the globals of p1 are still well
    formed. *)
Example bem_formado_execucoes_exemplo :
  bem_formado "p1" PROCESSOS_P1 (P2Sistema.estado2 (P2Sistema.nos2 P2Sistema.g_violacao "p1")).
Proof.
  apply (proj2 (bem_formado_execucoes PROCESSOS_P1)).
  apply (P2Sistema.executar2_alcancavel _ P2Sistema.execucao_violacao). vm_compute. reflexivity.
Defined.

End BemFormado.
