(* ===== verification/Interface.v ===== *)
(** * Interface: the command line of [interface_usuario]

    [interface_usuario] (lines 197-209 of [src/p1.py], lines 222-234 of
    [src/p2.py], lines 139-151 of [src/processo2.py]) reads a line with
    [input("> ").strip()] and dispatches on it:
    - [comando.startswith("solicitar")] then [_, recurso = comando.split()];
    - [comando.startswith("liberar")] then the same unpacking;
    - [comando == "sair"];
    - anything else is ignored.
    The unpacking raises [ValueError] unless [split()] gives exactly two
    words, and the exception ends the main thread.

    [strip], [dividir] ([str.split()] without arguments) and [interpretar]
    are written out on [string].  [eh_espaco] is Python's [str.isspace] on
    one byte: space, [\t \n \x0b \x0c \r] and [\x1c]..[\x1f].  A line is a
    Rocq [string], a sequence of bytes.  Non-ASCII white space (such as
    U+00A0) is outside the model.

    [passo_linha] is one turn of the loop: parse, then run the command with
    [Processo.passo_comando]; a line that raises leaves the globals as they
    are and ends the main thread, as [Sair] does.  [Sistema.passo] lets any
    [Comando] happen at the prompt, so the theorems proved for [passo]
    cover every input line. *)

From S2P Require Import Prelude Relogio Mensagem Processo Sistema.
Import Processo Sistema.
From Stdlib Require Import Ascii.

Module Interface.

(** ** String functions of Python *)

(** [str.isspace] on one byte. *)
Definition eh_espaco (c : Ascii.ascii) : bool :=
  match c with
  | "009" | "010" | "011" | "012" | "013" | "028" | "029" | "030" | "031" | " " => true
  | _ => false
  end%char.

Fixpoint lstrip (s : string) : string :=
  match s with
  | EmptyString => EmptyString
  | String c s' => if eh_espaco c then lstrip s' else s
  end.

Fixpoint rstrip (s : string) : string :=
  match s with
  | EmptyString => EmptyString
  | String c s' =>
      let r := rstrip s' in
      if eh_espaco c && String.eqb r EmptyString then EmptyString else String c r
  end.

(** [str.strip()] *)
Definition strip (s : string) : string := rstrip (lstrip s).

(** [str.split()] with no argument: the maximal runs of non-space bytes, in
    order.  [atual] is the word read so far. *)
Fixpoint dividir_aux (s atual : string) : list string :=
  match s with
  | EmptyString => if String.eqb atual EmptyString then [] else [atual]
  | String c s' =>
      if eh_espaco c
      then (if String.eqb atual EmptyString then [] else [atual]) ++ dividir_aux s' EmptyString
      else dividir_aux s' (atual +:+ String c EmptyString)
  end.

Definition dividir (s : string) : list string := dividir_aux s EmptyString.

(** Lines 200-209 without the calls: the command a line denotes, or the
    [ValueError] of the unpacking [_, recurso = comando.split()]. *)
Definition interpretar (linha : string) : Resultado Comando :=
  let comando := strip linha in
  if String.prefix "solicitar" comando then
    match dividir comando with
    | [_; recurso] => Ok (Solicitar recurso)
    | _ => Exc ValueError
    end
  else if String.prefix "liberar" comando then
    match dividir comando with
    | [_; recurso] => Ok (Liberar recurso)
    | _ => Exc ValueError
    end
  else if String.eqb comando "sair" then Ok Sair
  else Ok Outro.

(** One turn of the loop of [interface_usuario]. *)
Definition passo_linha (ID_PROCESSO : string) (PROCESSOS : list (string * (string * Z)))
    (linha : string) : M Fase :=
  match interpretar linha with
  | Exc e => py_raise e
  | Ok c => passo_comando ID_PROCESSO PROCESSOS c
  end.

(** The line that the help text of lines 15-18 tells the operator to type. *)
Definition imprimir (c : Comando) : string :=
  match c with
  | Solicitar r => "solicitar " +:+ r
  | Liberar r => "liberar " +:+ r
  | Sair => "sair"
  | Outro => ""
  end.

(** Strings made only of white space, and strings without any. *)
Fixpoint so_espacos (s : string) : bool :=
  match s with
  | EmptyString => true
  | String c s' => eh_espaco c && so_espacos s'
  end.

Fixpoint sem_espacos (s : string) : bool :=
  match s with
  | EmptyString => true
  | String c s' => negb (eh_espaco c) && sem_espacos s'
  end.

(** A word: a non-empty string without white space. *)
Definition palavra (w : string) : bool :=
  negb (String.eqb w EmptyString) && sem_espacos w.

(** ** Lemmas on the string functions *)

Lemma append_cons c s1 s2 : String c s1 +:+ s2 = String c (s1 +:+ s2).
Proof. reflexivity. Qed.

Lemma append_nil_l s : EmptyString +:+ s = s.
Proof. reflexivity. Qed.

Lemma append_nil_r s : s +:+ EmptyString = s.
Proof. induction s as [|c s IH]; [done|]. rewrite append_cons, IH. done. Qed.

Lemma append_assoc s1 s2 s3 : s1 +:+ (s2 +:+ s3) = (s1 +:+ s2) +:+ s3.
Proof. induction s1 as [|c s1 IH]; [done|]. rewrite !append_cons, IH. done. Qed.

#[local] Hint Rewrite append_cons append_nil_l append_nil_r : mutex_rw.

Lemma eqb_vazia s : String.eqb s EmptyString = true <-> s = EmptyString.
Proof. apply String.eqb_eq. Qed.

Lemma sem_espacos_app s1 s2 :
  sem_espacos (s1 +:+ s2) = sem_espacos s1 && sem_espacos s2.
Proof.
  induction s1 as [|c s1 IH]; [done|]. rewrite append_cons. simpl. rewrite IH.
  by rewrite andb_assoc.
Qed.

Lemma lstrip_espacos ws s : so_espacos ws = true -> lstrip (ws +:+ s) = lstrip s.
Proof.
  induction ws as [|c ws IH]; [done|]. simpl. intros [-> H]%andb_true_iff.
  by apply IH.
Qed.

Lemma lstrip_palavra w s : palavra w = true -> lstrip (w +:+ s) = w +:+ s.
Proof.
  destruct w as [|c w]; [done|]. unfold palavra. simpl.
  intros [Hc _]%andb_true_iff. apply negb_true_iff in Hc. by rewrite Hc.
Qed.

Lemma rstrip_espacos ws : so_espacos ws = true -> rstrip ws = EmptyString.
Proof.
  induction ws as [|c ws IH]; [done|]. simpl. intros [-> H]%andb_true_iff.
  by rewrite IH.
Qed.

Lemma rstrip_app_espacos s ws :
  so_espacos ws = true -> rstrip (s +:+ ws) = rstrip s.
Proof.
  intros Hws. induction s as [|c s IH]; [by apply rstrip_espacos|].
  rewrite append_cons. simpl. by rewrite IH.
Qed.

Lemma rstrip_sem_espacos w : sem_espacos w = true -> rstrip w = w.
Proof.
  induction w as [|c w IH]; [done|]. simpl. intros [Hc Hw]%andb_true_iff.
  apply negb_true_iff in Hc. by rewrite Hc, IH.
Qed.

Lemma rstrip_app s1 s2 :
  rstrip s2 <> EmptyString -> rstrip (s1 +:+ s2) = s1 +:+ rstrip s2.
Proof.
  intros H. induction s1 as [|c s1 IH]; [done|]. rewrite append_cons. simpl. rewrite IH.
  destruct (String.eqb (s1 +:+ rstrip s2) EmptyString) eqn:E; [|by rewrite andb_false_r].
  apply eqb_vazia in E. destruct s1; [done|discriminate].
Qed.

Lemma dividir_aux_palavra w s atual :
  sem_espacos w = true -> dividir_aux (w +:+ s) atual = dividir_aux s (atual +:+ w).
Proof.
  revert atual. induction w as [|c w IH]; intros atual; simpl.
  - by rewrite append_nil_r.
  - intros [Hc Hw]%andb_true_iff. apply negb_true_iff in Hc. rewrite Hc, IH by done.
    by rewrite <- append_assoc.
Qed.

Lemma dividir_aux_espacos sep s atual :
  so_espacos sep = true -> sep <> EmptyString ->
  dividir_aux (sep +:+ s) atual
  = (if String.eqb atual EmptyString then [] else [atual]) ++ dividir_aux s EmptyString.
Proof.
  revert atual. induction sep as [|c sep IH]; intros atual; [done|]. simpl.
  intros [-> Hsep]%andb_true_iff _. f_equal.
  destruct sep as [|c' sep']; [done|]. rewrite IH by done. done.
Qed.

(** A [prefix] test on a word followed by white space only reads the
    word. *)
Lemma prefix_palavra p w x :
  sem_espacos p = true -> (x = EmptyString \/ exists c x', x = String c x' /\ eh_espaco c = true) ->
  String.prefix p (w +:+ x) = String.prefix p w.
Proof.
  revert w. induction p as [|a p IH]; intros w Hp Hx; [by destruct w as [|? ?]; [destruct x|]|].
  simpl in Hp. apply andb_true_iff in Hp as [Ha Hp]. apply negb_true_iff in Ha.
  destruct w as [|b w].
  - destruct Hx as [->|(c & x' & -> & Hc)]; [done|]. simpl.
    destruct (ascii_dec a c); [subst; congruence|done].
  - rewrite append_cons. simpl. destruct (ascii_dec a b); [|done]. by apply IH.
Qed.

(** ** The parser on lines of one and two words *)

Lemma palavra_nao_vazia w : palavra w = true -> w <> EmptyString.
Proof. by destruct w. Qed.

Lemma palavra_sem_espacos w : palavra w = true -> sem_espacos w = true.
Proof. unfold palavra. by intros [_ ?]%andb_true_iff. Qed.

#[local] Hint Resolve palavra_nao_vazia palavra_sem_espacos : mutex.

Lemma strip_uma ws1 w ws2 :
  so_espacos ws1 = true -> so_espacos ws2 = true -> palavra w = true ->
  strip (ws1 +:+ w +:+ ws2) = w.
Proof.
  intros H1 H2 Hw. unfold strip.
  rewrite lstrip_espacos, lstrip_palavra, rstrip_app_espacos by done.
  apply rstrip_sem_espacos. auto with mutex.
Qed.

Lemma strip_duas ws1 w sep r ws2 :
  so_espacos ws1 = true -> so_espacos ws2 = true -> palavra w = true -> palavra r = true ->
  strip (ws1 +:+ w +:+ sep +:+ r +:+ ws2) = w +:+ sep +:+ r.
Proof.
  intros H1 H2 Hw Hr. unfold strip.
  rewrite lstrip_espacos, lstrip_palavra by done.
  rewrite !append_assoc, rstrip_app_espacos, rstrip_app by
    (rewrite ?rstrip_sem_espacos; auto with mutex).
  by rewrite rstrip_sem_espacos by auto with mutex.
Qed.

Lemma dividir_uma w : palavra w = true -> dividir w = [w].
Proof.
  intros Hw. unfold dividir. rewrite <- (append_nil_r w) at 1.
  rewrite dividir_aux_palavra by auto with mutex. rewrite append_nil_l. simpl.
  destruct (String.eqb w EmptyString) eqn:E; [|done].
  apply eqb_vazia in E. by apply palavra_nao_vazia in Hw.
Qed.

Lemma dividir_duas w sep r :
  palavra w = true -> palavra r = true -> so_espacos sep = true -> sep <> EmptyString ->
  dividir (w +:+ sep +:+ r) = [w; r].
Proof.
  intros Hw Hr Hs Hne. unfold dividir.
  rewrite dividir_aux_palavra, dividir_aux_espacos by auto with mutex.
  rewrite append_nil_l. destruct (String.eqb w EmptyString) eqn:E.
  - apply eqb_vazia in E. by apply palavra_nao_vazia in Hw.
  - by rewrite <- (dividir_uma r Hr).
Qed.

Lemma so_espacos_sem_espacos s :
  so_espacos s = true -> s <> EmptyString -> sem_espacos s = false.
Proof. destruct s as [|c s]; [done|]. simpl. by intros [-> _]%andb_true_iff. Qed.

(** The parse of a line of two words separated by white space. *)
Lemma interpretar_duas_palavras ws1 w sep r ws2 :
  so_espacos ws1 = true -> so_espacos ws2 = true -> so_espacos sep = true ->
  sep <> EmptyString -> palavra w = true -> palavra r = true ->
  interpretar (ws1 +:+ w +:+ sep +:+ r +:+ ws2) =
  if String.prefix "solicitar" w then Ok (Solicitar r)
  else if String.prefix "liberar" w then Ok (Liberar r)
  else Ok Outro.
Proof.
  intros H1 H2 Hs Hne Hw Hr. unfold interpretar.
  rewrite strip_duas, dividir_duas by done.
  assert (Hx : sep +:+ r = EmptyString \/
               exists c x', sep +:+ r = String c x' /\ eh_espaco c = true).
  { right. destruct sep as [|c sep]; [done|]. simpl in Hs.
    apply andb_true_iff in Hs as [Hc _]. by exists c, (sep +:+ r). }
  rewrite !(prefix_palavra _ w (sep +:+ r)) by done.
  destruct (String.prefix "solicitar" w), (String.prefix "liberar" w); try done.
  destruct (String.eqb (w +:+ sep +:+ r) "sair") eqn:E; [|done].
  apply String.eqb_eq in E. exfalso.
  assert (Hsem : sem_espacos (w +:+ sep +:+ r) = true) by (rewrite E; done).
  rewrite !sem_espacos_app, (so_espacos_sem_espacos sep) in Hsem by done.
  by rewrite andb_false_l, andb_false_r in Hsem.
Qed.

(** The parse of a line of one word. *)
Lemma interpretar_uma_palavra ws1 w ws2 :
  so_espacos ws1 = true -> so_espacos ws2 = true -> palavra w = true ->
  interpretar (ws1 +:+ w +:+ ws2) =
  if String.prefix "solicitar" w || String.prefix "liberar" w then Exc ValueError
  else if String.eqb w "sair" then Ok Sair
  else Ok Outro.
Proof.
  intros H1 H2 Hw. unfold interpretar. rewrite strip_uma, dividir_uma by done.
  by destruct (String.prefix "solicitar" w), (String.prefix "liberar" w).
Qed.

(** ** Theorems *)

(** The commands the help text describes: a resource name is one word. *)
Definition imprimivel (c : Comando) : bool :=
  match c with
  | Solicitar r | Liberar r => palavra r
  | Sair => true
  | Outro => false
  end.

(** C21: printing and parsing a command are inverse.  A line made of a
    command in the format of the help text (["solicitar <nome>"],
    ["liberar <nome>"] or ["sair"], the name one word), with any white
    space around it, parses back to that command. *)
Theorem interpretar_imprimir (c : Comando) (ws1 ws2 : string) :
  so_espacos ws1 = true -> so_espacos ws2 = true -> imprimivel c = true ->
  interpretar (ws1 +:+ imprimir c +:+ ws2) = Ok c.
Proof.
  intros H1 H2 Hc. destruct c as [r|r| |]; simpl in Hc; try discriminate.
  - change (imprimir (Solicitar r)) with ("solicitar" +:+ " " +:+ r).
    by rewrite <- !append_assoc, interpretar_duas_palavras.
  - change (imprimir (Liberar r)) with ("liberar" +:+ " " +:+ r).
    by rewrite <- !append_assoc, interpretar_duas_palavras.
  - by rewrite interpretar_uma_palavra.
Qed.

(** C22: [startswith] does not check where the first word ends.  Any
    first word that begins with ["solicitar"], such as ["solicitarX"],
    followed by a resource name, is read as a request for that
    resource. *)
Theorem interpretar_prefixo_solicitar (w r : string) :
  String.prefix "solicitar" w = true -> palavra w = true -> palavra r = true ->
  interpretar (w +:+ " " +:+ r) = Ok (Solicitar r).
Proof.
  intros Hp Hw Hr.
  pose proof (interpretar_duas_palavras EmptyString w " " r EmptyString) as H.
  rewrite append_nil_l, append_nil_r, Hp in H. by apply H.
Qed.

(** C23: a request or release command without a resource ends the
    process.  A line whose only word begins with ["solicitar"] or
    ["liberar"] makes the unpacking [_, recurso = comando.split()] raise
    [ValueError]: nothing is sent, the globals are unchanged, and the
    exception leaves [interface_usuario]. *)
Theorem passo_linha_sem_recurso (ID_PROCESSO : string)
    (PROCESSOS : list (string * (string * Z))) (ws1 w ws2 : string) (s : Estado) :
  so_espacos ws1 = true -> so_espacos ws2 = true -> palavra w = true ->
  String.prefix "solicitar" w || String.prefix "liberar" w = true ->
  passo_linha ID_PROCESSO PROCESSOS (ws1 +:+ w +:+ ws2) s = mkExec (Exc ValueError) s [].
Proof.
  intros H1 H2 Hw Hp. unfold passo_linha. rewrite interpretar_uma_palavra by done.
  by rewrite Hp.
Qed.

(** ** Witnesses *)

Example interpretar_imprimir_exemplo :
  interpretar ("  " +:+ imprimir (Liberar "r1") +:+ String "009"%char EmptyString)
  = Ok (Liberar "r1").
Proof. apply interpretar_imprimir; reflexivity. Defined.

Example interpretar_prefixo_solicitar_exemplo :
  interpretar "solicitarX r1" = Ok (Solicitar "r1").
Proof. apply (interpretar_prefixo_solicitar "solicitarX" "r1"); reflexivity. Defined.

Example passo_linha_sem_recurso_exemplo :
  passo_linha ID_P1 PROCESSOS_P1 " solicitar" estado_inicial
  = mkExec (Exc ValueError) estado_inicial [].
Proof.
  apply (passo_linha_sem_recurso ID_P1 PROCESSOS_P1 " " "solicitar" EmptyString);
    reflexivity.
Defined.

End Interface.
