(* ===== verification/Seguranca.v ===== *)
(** * Seguranca: mutual exclusion for the processes of [src/p1.py]

    The invariant [Inv] of a [Sistema.Global] counts, for each ordered pair
    of processes (requester [i], peer [j]), the permission tokens of the
    pair: [i]'s request on its way to [j], that request deferred in
    [fila_recurso] of [j], or [j]'s ack on its way back to [i].  There is at
    most one, and only while [i] waits for the acks with [j] still pending.
    Two processes that both wait for, or hold, the same resource have not
    both let the other through.  That is [inv_exclusao], and mutual
    exclusion follows.

    [inv_passo] proves that every rule of [passo] keeps [Inv], one lemma per
    handler of the code: a command at the prompt ([inv_solicitar],
    [inv_liberar]), the end of the wait for acks ([inv_conceder]), the
    delivery of a request that is deferred or answered, the delivery of an
    ack, and the loss of a message. *)

From S2P Require Import Prelude Relogio Mensagem Processo Sistema.
Import Mensagem Processo Sistema.

Module Seguranca.

#[local] Open Scope Z_scope.

Section Invariante.
Context (PROCESSOS : list (string * (string * Z))).
Context (Hnodup : NoDup PROCESSOS.*1).

Abbreviation ids := (PROCESSOS.*1).

Definition est (g : Global) (i : string) : Estado := estado (nos g i).

(** A request from [i] to [j] in flight. *)
Definition eh_req (i j : string) (e : Envio) : bool :=
  bool_decide (e.1 = j /\ tipo e.2 = "requisicao" /\ id e.2 = i).
(** An ack from [j] to [i] in flight. *)
Definition eh_ack (j i : string) (e : Envio) : bool :=
  bool_decide (e.1 = i /\ tipo e.2 = "ack" /\ id e.2 = j).
(** A deferred request of [i]. *)
Definition eh_de (i : string) (q : Mensagem) : bool := bool_decide (id q = i).

(** The permission tokens of the pair (requester [i], peer [j]): [i]'s
    request on its way to [j], deferred at [j], or [j]'s ack on its way
    back.  The invariant keeps at most one. *)
Definition tokens (g : Global) (i j : string) : nat :=
  contar (eh_req i j) (rede g) + contar (eh_de i) (fila_recurso (est g j))
  + contar (eh_ack j i) (rede g).

(** [j] has let [i] through for [r]: [i] holds [j]'s ack for [r], or the
    ack is on its way. *)
Definition permissao (g : Global) (j i r : string) : Prop :=
  (exists p, respostas_esperadas (est g i) !! r = Some p /\ j ∉ p) \/
  (exists e, e ∈ rede g /\ eh_ack j i e = true /\ recurso e.2 = r).

Record Inv (g : Global) : Prop := {
  inv_rede e : e ∈ rede g ->
    e.1 ∈ ids /\ id e.2 ∈ ids /\ e.1 ≠ id e.2 /\
    (tipo e.2 = "requisicao" \/ tipo e.2 = "ack");
  inv_fila j q : q ∈ fila_recurso (est g j) -> id q ∈ ids /\ id q ≠ j;
  inv_tokens_le i j : (tokens g i j <= 1)%nat;
  inv_tokens i j : tokens g i j ≠ 0%nat ->
    exists r p, fase (nos g i) = AguardandoAcks r /\
      respostas_esperadas (est g i) !! r = Some p /\ j ∈ p;
  inv_aguardando i r : fase (nos g i) = AguardandoAcks r ->
    esperando_recurso (est g i) = Some r /\ recurso_ocupado (est g i) = false;
  inv_esperando i r : esperando_recurso (est g i) = Some r ->
    is_Some (respostas_esperadas (est g i) !! r);
  inv_ocupado i : recurso_ocupado (est g i) = true ->
    exists r, esperando_recurso (est g i) = Some r /\
      respostas_esperadas (est g i) !! r = Some ∅;
  inv_prompt i : fase (nos g i) = Prompt -> recurso_ocupado (est g i) = false ->
    esperando_recurso (est g i) = None;
  inv_escolha i r :
    fase (nos g i) = EscolhaOcupado r \/ fase (nos g i) = AguardandoLiberacao r ->
    recurso_ocupado (est g i) = true;
  inv_exclusao i j r : i ∈ ids -> j ∈ ids -> i ≠ j ->
    esperando_recurso (est g i) = Some r -> esperando_recurso (est g j) = Some r ->
    ~ (permissao g j i r /\ permissao g i j r)
}.

(** ** Counting lemmas *)

Lemma tokens_zero_fora (g : Global) i j :
  Inv g -> (forall r, fase (nos g i) ≠ AguardandoAcks r) -> tokens g i j = 0%nat.
Proof.
  intros HI Hf. destruct (decide (tokens g i j = 0%nat)) as [|Hne]; [done|].
  destruct (inv_tokens _ HI i j Hne) as (r & p & Hr & _). by destruct (Hf r).
Qed.

Lemma contar_zero_elem {A} (p : A -> bool) l x :
  contar p l = 0%nat -> x ∈ l -> p x = false.
Proof. intros H Hx. by apply (proj1 (contar_zero p l)). Qed.

Lemma contar_requisicoes (l : list string) i r c a b :
  NoDup l ->
  contar (eh_req a b)
    ((fun d => (d, msg_requisicao i r c)) <$> filter (fun d => d ≠ i) l)
  = if bool_decide (a = i /\ b ∈ l /\ b ≠ i) then 1%nat else 0%nat.
Proof.
  induction l as [|d l IH]; intros Hnd.
  - simpl. case_bool_decide as H; [|done]. set_solver.
  - apply NoDup_cons in Hnd as [Hd Hnd]. rewrite filter_cons.
    destruct (decide (d ≠ i)) as [Hdi|Hdi]; [rewrite fmap_cons; cbn [contar]|];
      rewrite IH by done; unfold eh_req; cbn [fst snd tipo id msg_requisicao];
      repeat case_bool_decide; set_solver.
Qed.

Lemma contar_acks_req_multicast (l : list string) i r c a b :
  contar (eh_ack a b)
    ((fun d => (d, msg_requisicao i r c)) <$> filter (fun d => d ≠ i) l) = 0%nat.
Proof.
  apply contar_zero. intros e (d & -> & _)%list_elem_of_fmap.
  unfold eh_ack. simpl. by rewrite bool_decide_eq_false_2 by naive_solver.
Qed.

Lemma contar_acks_da_fila i r c f a b :
  contar (eh_ack a b) (acks_da_fila i r c f)
  = if bool_decide (a = i) then contar (eh_de b) f else 0%nat.
Proof.
  revert c. induction f as [|q f IH]; intros c; simpl; [by case_bool_decide|].
  rewrite IH. unfold eh_ack, eh_de. simpl.
  repeat case_bool_decide; naive_solver.
Qed.

Lemma contar_req_acks_da_fila i r c f a b :
  contar (eh_req a b) (acks_da_fila i r c f) = 0%nat.
Proof.
  revert c. induction f as [|q f IH]; intros c; simpl; [done|].
  rewrite IH. unfold eh_req. simpl.
  by rewrite bool_decide_eq_false_2 by naive_solver.
Qed.

(** ** Preservation, step by step *)

Lemma est_atualizar g i n envs k :
  est (atualizar g i n envs) k = if bool_decide (k = i) then estado n else est g k.
Proof. unfold est, atualizar. simpl. by case_bool_decide. Qed.

Lemma fase_atualizar g i n envs k :
  fase (nos (atualizar g i n envs) k) = if bool_decide (k = i) then fase n else fase (nos g k).
Proof. unfold atualizar. simpl. by case_bool_decide. Qed.

(** After [atualizar g i n envs], a field of [Inv] read at a process
    other than [i] is the one of [g]: [no_atualizado HI campo] discharges
    that case and leaves the goal at [i]. *)
Ltac no_atualizado HI campo :=
  rewrite ?fase_atualizar, ?est_atualizar; case_bool_decide; subst; [|apply (campo _ HI)].

(** A step that changes only where the main thread of [i] waits. *)
Lemma inv_mudar_fase g i f' b :
  Inv g ->
  (forall r, fase (nos g i) ≠ AguardandoAcks r) ->
  (forall r, f' ≠ AguardandoAcks r) ->
  (f' = Prompt -> fase (nos g i) = Prompt \/ recurso_ocupado (est g i) = true) ->
  (forall r, f' = EscolhaOcupado r \/ f' = AguardandoLiberacao r ->
     recurso_ocupado (est g i) = true) ->
  Inv (atualizar g i (mkNo (est g i) f' b) []).
Proof.
  intros HI Hold Hnew Hprompt Hesc.
  assert (Hest : forall k, est (atualizar g i (mkNo (est g i) f' b) []) k = est g k).
  { intros k. rewrite est_atualizar. case_bool_decide; by subst. }
  assert (Hrede : rede (atualizar g i (mkNo (est g i) f' b) []) = rede g).
  { simpl. apply app_nil_r. }
  assert (Htok : forall a c, tokens (atualizar g i (mkNo (est g i) f' b) []) a c
                             = tokens g a c).
  { intros a c. unfold tokens. by rewrite Hrede, Hest. }
  assert (Hperm : forall a c r, permissao (atualizar g i (mkNo (est g i) f' b) []) a c r
                                <-> permissao g a c r).
  { intros a c r. unfold permissao. by rewrite Hrede, Hest. }
  constructor; intros *; rewrite ?Hrede, ?Hest, ?Htok, ?Hperm, ?fase_atualizar.
  - apply (inv_rede _ HI).
  - apply (inv_fila _ HI).
  - apply (inv_tokens_le _ HI).
  - intros Hne. destruct (inv_tokens _ HI _ _ Hne) as (r & p & Hf & Hp).
    exists r, p. case_bool_decide; [subst; by destruct (Hold r)|done].
  - case_bool_decide; [subst; simpl; intros ->; by destruct (Hnew r)|].
    apply (inv_aguardando _ HI).
  - apply (inv_esperando _ HI).
  - apply (inv_ocupado _ HI).
  - case_bool_decide; [subst; simpl|apply (inv_prompt _ HI)].
    intros Hf Ho. destruct (Hprompt Hf) as [Hf'|Ho']; [|congruence].
    by apply (inv_prompt _ HI).
  - case_bool_decide; [subst; simpl; apply Hesc|apply (inv_escolha _ HI)].
  - apply (inv_exclusao _ HI).
Qed.

Lemma rede_app_nil g i n e :
  e ∈ rede (atualizar g i n []) <-> e ∈ rede g.
Proof. simpl. by rewrite app_nil_r. Qed.

Lemma tokens_atualizar g i n envs a b :
  tokens (atualizar g i n envs) a b =
  (contar (eh_req a b) (rede g) + contar (eh_req a b) envs
   + contar (eh_de a) (fila_recurso (if bool_decide (b = i) then estado n else est g b))
   + contar (eh_ack b a) (rede g) + contar (eh_ack b a) envs)%nat.
Proof. unfold tokens. rewrite est_atualizar. simpl. rewrite !contar_app. lia. Qed.

Lemma permissao_atualizar g i n envs j k r :
  permissao (atualizar g i n envs) j k r <->
  (exists p, respostas_esperadas (if bool_decide (k = i) then estado n else est g k) !! r
             = Some p /\ j ∉ p) \/
  (exists e, (e ∈ rede g \/ e ∈ envs) /\ eh_ack j k e = true /\ recurso e.2 = r).
Proof.
  unfold permissao. rewrite est_atualizar. simpl.
  setoid_rewrite elem_of_app. done.
Qed.

(** Losing a message keeps the invariant: tokens and permissions only
    decrease. *)
Lemma inv_perda g l1 x l2 :
  Inv g -> rede g = l1 ++ x :: l2 -> Inv (mkGlobal (nos g) (l1 ++ l2)).
Proof.
  intros HI Hr.
  assert (Hin : forall e, e ∈ l1 ++ l2 -> e ∈ rede g).
  { intros e. rewrite Hr, !elem_of_app, elem_of_cons. tauto. }
  assert (Htok : forall a b, (tokens (mkGlobal (nos g) (l1 ++ l2)) a b <= tokens g a b)%nat).
  { intros a b. unfold tokens, est. simpl. rewrite Hr, !contar_middle.
    unfold est. lia. }
  assert (Hperm : forall a b r, permissao (mkGlobal (nos g) (l1 ++ l2)) a b r ->
                                permissao g a b r).
  { intros a b r [H|(e & He & H)]; [by left|right; eauto]. }
  constructor; unfold est; simpl.
  - intros e He. apply (inv_rede _ HI), Hin, He.
  - apply (inv_fila _ HI).
  - intros a b. specialize (Htok a b). pose proof (inv_tokens_le _ HI a b). lia.
  - intros a b Hne. apply (inv_tokens _ HI). specialize (Htok a b). lia.
  - apply (inv_aguardando _ HI).
  - apply (inv_esperando _ HI).
  - apply (inv_ocupado _ HI).
  - apply (inv_prompt _ HI).
  - apply (inv_escolha _ HI).
  - intros a b r Hai Hbi Hab Ha Hb [H1 H2].
    apply (inv_exclusao _ HI a b r Hai Hbi Hab Ha Hb). split; by apply Hperm.
Qed.

(** The fields of [Inv] that only read [recurso_ocupado],
    [esperando_recurso], [respostas_esperadas] and the phases carry over
    to a node update that keeps those. *)
Lemma inv_campos_locais g i n envs :
  Inv g ->
  recurso_ocupado (estado n) = recurso_ocupado (est g i) ->
  esperando_recurso (estado n) = esperando_recurso (est g i) ->
  respostas_esperadas (estado n) = respostas_esperadas (est g i) ->
  fase n = fase (nos g i) ->
  let g' := atualizar g i n envs in
  (forall k r, fase (nos g' k) = AguardandoAcks r ->
     esperando_recurso (est g' k) = Some r /\ recurso_ocupado (est g' k) = false) /\
  (forall k r, esperando_recurso (est g' k) = Some r ->
     is_Some (respostas_esperadas (est g' k) !! r)) /\
  (forall k, recurso_ocupado (est g' k) = true -> exists r,
     esperando_recurso (est g' k) = Some r /\ respostas_esperadas (est g' k) !! r = Some ∅) /\
  (forall k, fase (nos g' k) = Prompt -> recurso_ocupado (est g' k) = false ->
     esperando_recurso (est g' k) = None) /\
  (forall k r, fase (nos g' k) = EscolhaOcupado r \/ fase (nos g' k) = AguardandoLiberacao r ->
     recurso_ocupado (est g' k) = true).
Proof.
  intros HI Ho Hesp Hresp Hf g'. subst g'.
  refine (conj _ (conj _ (conj _ (conj _ _)))); intros *;
    rewrite ?fase_atualizar, ?est_atualizar;
    case_bool_decide; subst; rewrite ?Ho, ?Hesp, ?Hresp, ?Hf.
  all: first [apply (inv_aguardando _ HI) | apply (inv_esperando _ HI)
             | apply (inv_ocupado _ HI) | apply (inv_prompt _ HI)
             | apply (inv_escolha _ HI)].
Qed.

(** A node update that keeps the pending sets gives no permission but
    the acks it sends. *)
Lemma permissao_atualizar_local g i n envs j k r :
  respostas_esperadas (estado n) = respostas_esperadas (est g i) ->
  permissao (atualizar g i n envs) j k r ->
  permissao g j k r \/ exists e, e ∈ envs /\ eh_ack j k e = true /\ recurso e.2 = r.
Proof.
  intros Hresp [(p & Hp & Hnp)|(e & [He|He] & Hea & Her)]%permissao_atualizar.
  - left. left. exists p. split; [|done]. revert Hp. case_bool_decide; subst; congruence.
  - left. right. eauto.
  - right. eauto.
Qed.

(** A step that keeps [i]'s phase and pending sets keeps every
    waiting witness of a token, old or new. *)
Lemma inv_tokens_local g0 i n a b :
  Inv g0 -> fase n = fase (nos g0 i) ->
  respostas_esperadas (estado n) = respostas_esperadas (est g0 i) ->
  (tokens g0 a b ≠ 0%nat \/ exists r p, fase (nos g0 a) = AguardandoAcks r /\
     respostas_esperadas (est g0 a) !! r = Some p /\ b ∈ p) ->
  exists r p, (if bool_decide (a = i) then fase n else fase (nos g0 a)) = AguardandoAcks r /\
    respostas_esperadas (if bool_decide (a = i) then estado n else est g0 a) !! r = Some p /\
    b ∈ p.
Proof.
  intros HI Hf Hr Htok.
  assert (exists r p, fase (nos g0 a) = AguardandoAcks r /\
            respostas_esperadas (est g0 a) !! r = Some p /\ b ∈ p) as (r & p & Hfa & Hp & Hb)
    by (destruct Htok; [by apply (inv_tokens _ HI)|done]).
  exists r, p. case_bool_decide; subst; [rewrite Hf, Hr|]; done.
Qed.

(** A sender's only new permission is the ack it sends. *)
Lemma permissao_ack_enviado g i n m c j k r :
  respostas_esperadas (estado n) = respostas_esperadas (est g i) ->
  permissao (atualizar g i n [(id m, msg_ack i (recurso m) c)]) j k r ->
  permissao g j k r \/ (j = i /\ k = id m /\ r = recurso m).
Proof.
  intros Hresp [Hp|(e & ->%list_elem_of_singleton & Hea & Her)]%permissao_atualizar_local;
    [by left|right|done].
  unfold eh_ack in Hea. apply bool_decide_eq_true in Hea. simpl in *. naive_solver.
Qed.

Lemma fila_atualizar_local g i n b :
  fila_recurso (estado n) = fila_recurso (est g i) ->
  fila_recurso (if bool_decide (b = i) then estado n else est g b) = fila_recurso (est g b).
Proof. intros Hf. by case_bool_decide; subst. Qed.

Lemma esperando_atualizar_local g i n envs k :
  esperando_recurso (estado n) = esperando_recurso (est g i) ->
  esperando_recurso (est (atualizar g i n envs) k) = esperando_recurso (est g k).
Proof. intros H. rewrite est_atualizar. case_bool_decide; by subst. Qed.

(** What the invariant says about a message taken from the network: its
    token is the only one of its pair, and the requester waits for it. *)
Lemma entrega_info g i m l1 l2 :
  Inv g -> rede g = l1 ++ (i, m) :: l2 ->
  let g0 := mkGlobal (nos g) (l1 ++ l2) in
  Inv g0 /\ i ∈ ids /\ id m ∈ ids /\ i ≠ id m /\
  (tipo m = "requisicao" \/ tipo m = "ack") /\
  (tipo m = "requisicao" -> tokens g0 (id m) i = 0%nat /\
     exists r p, fase (nos g0 (id m)) = AguardandoAcks r /\
       respostas_esperadas (est g0 (id m)) !! r = Some p /\ i ∈ p) /\
  (tipo m = "ack" -> tokens g0 i (id m) = 0%nat /\
     exists r p, fase (nos g0 i) = AguardandoAcks r /\
       respostas_esperadas (est g0 i) !! r = Some p /\ id m ∈ p).
Proof.
  intros HI Hr g0.
  destruct (inv_rede _ HI (i, m)) as (Hi & Hm & Hne & Ht);
    [rewrite Hr; set_solver|simpl in *].
  assert (Hcount : forall a b, tokens g a b =
    ((if eh_req a b (i, m) then 1 else 0) + (if eh_ack b a (i, m) then 1 else 0)
     + tokens g0 a b)%nat).
  { intros a b. unfold tokens, g0, est. cbn [rede nos]. rewrite Hr, !contar_middle.
    destruct (eh_req a b (i, m)), (eh_ack b a (i, m)); lia. }
  refine (conj (inv_perda _ _ _ _ HI Hr) (conj Hi (conj Hm (conj Hne (conj Ht (conj _ _))))));
    intros Htm.
  - pose proof (Hcount (id m) i) as Hc. pose proof (inv_tokens_le _ HI (id m) i).
    unfold eh_req in Hc. rewrite bool_decide_eq_true_2 in Hc by done.
    split; [lia|]. apply (inv_tokens _ HI). lia.
  - pose proof (Hcount i (id m)) as Hc. pose proof (inv_tokens_le _ HI i (id m)).
    unfold eh_ack in Hc. rewrite (bool_decide_eq_true_2 (_ = _ /\ _)) in Hc by done.
    split; [lia|]. apply (inv_tokens _ HI). lia.
Qed.

(** Delivery of a request that is deferred: the token moves from the
    network into the queue of [i]. *)
Lemma inv_entrega_adiada g0 i m n c :
  Inv g0 -> id m ∈ ids -> id m ≠ i ->
  tokens g0 (id m) i = 0%nat ->
  (exists r p, fase (nos g0 (id m)) = AguardandoAcks r /\
     respostas_esperadas (est g0 (id m)) !! r = Some p /\ i ∈ p) ->
  estado n = com_fila (fila_recurso (est g0 i) ++ [m]) (com_relogio c (est g0 i)) ->
  fase n = fase (nos g0 i) ->
  Inv (atualizar g0 i n []).
Proof.
  intros HI Hm Hmi Htok0 Hsender Hn Hf.
  destruct (inv_campos_locais g0 i n [] HI) as (H1 & H2 & H3 & H4 & H5);
    rewrite ?Hn; try done.
  assert (Hfila : forall a b, contar (eh_de a)
    (fila_recurso (if bool_decide (b = i) then estado n else est g0 b))
    = (contar (eh_de a) (fila_recurso (est g0 b))
       + if bool_decide (b = i /\ a = id m) then 1 else 0)%nat).
  { intros a b. rewrite Hn. case_bool_decide as Hb; simpl.
    - subst. rewrite contar_app. simpl. unfold eh_de.
      repeat case_bool_decide; naive_solver lia.
    - rewrite bool_decide_eq_false_2 by naive_solver. lia. }
  constructor; try done.
  - intros e. rewrite rede_app_nil. apply (inv_rede _ HI).
  - intros j q. rewrite est_atualizar, Hn. case_bool_decide; subst; simpl;
      [|apply (inv_fila _ HI)].
    rewrite elem_of_app, list_elem_of_singleton.
    intros [Hq| ->]; [by apply (inv_fila _ HI)|done].
  - intros a b. rewrite tokens_atualizar, Hfila. simpl.
    pose proof (inv_tokens_le _ HI a b). unfold tokens in *.
    case_bool_decide as Hab; [destruct Hab; subst; lia|lia].
  - intros a b. rewrite tokens_atualizar, Hfila, fase_atualizar, est_atualizar.
    simpl. intros Hne.
    apply inv_tokens_local; [done|done|by rewrite Hn|].
    destruct (bool_decide (b = i /\ a = id m)) eqn:Hab; [right|left].
    + by apply bool_decide_eq_true in Hab as [-> ->].
    + rewrite Nat.add_0_r in Hne. unfold tokens. lia.
  - intros a b r Hai Hbi Hab Ha Hb [Hp1 Hp2].
    rewrite !esperando_atualizar_local in Ha, Hb by (rewrite Hn; done).
    apply permissao_atualizar_local in Hp1 as [Hp1|(e & He & _)];
      [|by apply elem_of_nil in He|rewrite Hn; done].
    apply permissao_atualizar_local in Hp2 as [Hp2|(e & He & _)];
      [|by apply elem_of_nil in He|rewrite Hn; done].
    by apply (inv_exclusao _ HI a b r).
Qed.

(** Delivery of a request that is answered at once: the token moves from
    the request to [i]'s ack.  The ack gives no permission that matters,
    because [i] is not waiting for the requested resource. *)
Lemma inv_entrega_respondida g0 i m n c :
  Inv g0 -> i ∈ ids -> id m ∈ ids -> id m ≠ i ->
  tokens g0 (id m) i = 0%nat ->
  (exists r p, fase (nos g0 (id m)) = AguardandoAcks r /\
     respostas_esperadas (est g0 (id m)) !! r = Some p /\ i ∈ p) ->
  esperando_recurso (est g0 i) ≠ Some (recurso m) ->
  estado n = com_relogio c (est g0 i) ->
  fase n = fase (nos g0 i) ->
  Inv (atualizar g0 i n [(id m, msg_ack i (recurso m) c)]).
Proof.
  intros HI Hi Hm Hmi Htok0 Hsender Hesp Hn Hf.
  destruct (inv_campos_locais g0 i n [(id m, msg_ack i (recurso m) c)] HI)
    as (H1 & H2 & H3 & H4 & H5); rewrite ?Hn; try done.
  assert (Hnovo : forall a b, contar (eh_ack b a) [(id m, msg_ack i (recurso m) c)]
                              = if bool_decide (a = id m /\ b = i) then 1%nat else 0%nat).
  { intros a b. simpl. unfold eh_ack. simpl.
    repeat case_bool_decide; naive_solver. }
  assert (Hreq : forall a b, contar (eh_req a b) [(id m, msg_ack i (recurso m) c)] = 0%nat).
  { intros a b. simpl. unfold eh_req. simpl.
    rewrite bool_decide_eq_false_2 by naive_solver. done. }
  pose proof (fun b => fila_atualizar_local g0 i n b ltac:(by rewrite Hn)) as Hfila.
  constructor; try done.
  - intros e. simpl. rewrite elem_of_app, list_elem_of_singleton.
    intros [He| ->]; [by apply (inv_rede _ HI)|simpl; naive_solver].
  - intros j q. rewrite est_atualizar, Hn. case_bool_decide; subst; simpl;
      apply (inv_fila _ HI).
  - intros a b. rewrite tokens_atualizar, Hnovo, Hreq, Hfila.
    pose proof (inv_tokens_le _ HI a b). unfold tokens in *.
    case_bool_decide as Hab; [destruct Hab; subst; lia|lia].
  - intros a b. rewrite tokens_atualizar, Hnovo, Hreq, Hfila, fase_atualizar,
      est_atualizar. intros Hne.
    apply inv_tokens_local; [done|done|by rewrite Hn|].
    destruct (bool_decide (a = id m /\ b = i)) eqn:Hab; [right|left].
    + by apply bool_decide_eq_true in Hab as [-> ->].
    + rewrite Nat.add_0_r in Hne. unfold tokens in *. lia.
  - intros a b r Hai Hbi Hab Ha Hb [Hp1 Hp2].
    rewrite !esperando_atualizar_local in Ha, Hb by (rewrite Hn; done).
    apply permissao_ack_enviado in Hp1 as [Hp1|(-> & -> & ->)]; [|naive_solver|by rewrite Hn].
    apply permissao_ack_enviado in Hp2 as [Hp2|(-> & -> & ->)]; [|naive_solver|by rewrite Hn].
    by apply (inv_exclusao _ HI a b r).
Qed.

(** The pending sets after an ack of [k] for [rm] (lines 178-179). *)
Definition descartar (resp : gmap string (gset string)) (rm k : string)
  : gmap string (gset string) :=
  match resp !! rm with
  | Some p => <[rm := p ∖ {[k]}]> resp
  | None => resp
  end.

Lemma descartar_lookup resp rm k r :
  descartar resp rm k !! r =
  (fun p => if bool_decide (r = rm) then p ∖ {[k]} else p) <$> resp !! r.
Proof.
  unfold descartar. destruct (resp !! rm) as [p|] eqn:E.
  - destruct (decide (r = rm)) as [->|Hne].
    + rewrite lookup_insert_eq, E. simpl. by rewrite bool_decide_eq_true_2.
    + rewrite lookup_insert_ne by done. destruct (resp !! r); simpl; [|done].
      by rewrite bool_decide_eq_false_2.
  - destruct (resp !! r) eqn:E'; simpl; [|done].
    case_bool_decide; subst; [congruence|done].
Qed.

(** The pending sets after the delivery of an ack to [i]: the sender
    leaves the set of [recurso m]. *)
Lemma respostas_descartar g g0 i n c m k r :
  nos g0 = nos g ->
  estado n = com_respostas (descartar (respostas_esperadas (est g i)) (recurso m) (id m))
               (com_relogio c (est g i)) ->
  respostas_esperadas (est (atualizar g0 i n []) k) !! r =
    if bool_decide (k = i)
    then (fun p => if bool_decide (r = recurso m) then p ∖ {[id m]} else p)
           <$> respostas_esperadas (est g k) !! r
    else respostas_esperadas (est g k) !! r.
Proof.
  intros Hnos Hn. rewrite est_atualizar. unfold est at 1. rewrite Hnos.
  case_bool_decide; subst; [|done]. rewrite Hn. simpl. apply descartar_lookup.
Qed.

(** A permission after the delivery of an ack was one before: the ack
    in flight, or a sender already removed. *)
Lemma permissao_entrega_ack g i m l1 l2 n c x y r :
  rede g = l1 ++ (i, m) :: l2 -> tipo m = "ack" ->
  estado n = com_respostas (descartar (respostas_esperadas (est g i)) (recurso m) (id m))
               (com_relogio c (est g i)) ->
  permissao (atualizar (mkGlobal (nos g) (l1 ++ l2)) i n []) x y r -> permissao g x y r.
Proof.
  intros Hr Ht Hn [(p & Hp & Hxp)|(e & He & Hea & Her)]%permissao_atualizar.
  - rewrite <- est_atualizar with (envs := []) in Hp.
    rewrite (respostas_descartar g _ i n c m) in Hp by done.
    case_bool_decide as Hy; [subst y|by left; eauto].
    destruct (respostas_esperadas (est g i) !! r) as [p'|] eqn:Ep; [|done].
    simpl in Hp. injection Hp as <-.
    case_bool_decide as Hrm; [subst r|left; eauto].
    destruct (decide (x = id m)) as [->|Hxm].
    + right. exists (i, m). split; [rewrite Hr; set_solver|].
      unfold eh_ack. by rewrite bool_decide_eq_true_2.
    + left. exists p'. split; [done|]. set_solver.
  - right. exists e. split; [|done]. simpl in He. rewrite Hr. set_solver.
Qed.

(** Delivery of an ack: the token of the pair leaves the network and the
    sender leaves the pending set. *)
Lemma inv_entrega_ack g i m l1 l2 n c :
  Inv g -> rede g = l1 ++ (i, m) :: l2 -> tipo m = "ack" ->
  estado n = com_respostas (descartar (respostas_esperadas (est g i)) (recurso m) (id m))
               (com_relogio c (est g i)) ->
  fase n = fase (nos g i) ->
  Inv (atualizar (mkGlobal (nos g) (l1 ++ l2)) i n []).
Proof.
  intros HI Hr Ht Hn Hf.
  destruct (entrega_info _ _ _ _ _ HI Hr) as (HI0 & Hi & Hm & Him & _ & _ & Hack).
  destruct (Hack Ht) as (Htok0 & r0 & p0 & Hf0 & Hp0 & Hmp0). clear Hack.
  set (g0 := mkGlobal (nos g) (l1 ++ l2)) in *.
  assert (Hest0 : forall k, est g0 k = est g k) by done.
  pose proof (fun b => fila_atualizar_local g0 i n b ltac:(by rewrite Hn)) as Hfila.
  assert (Htok : forall a b, tokens (atualizar g0 i n []) a b = tokens g0 a b).
  { intros a b. rewrite tokens_atualizar, Hfila. cbn [contar]. unfold tokens. lia. }
  pose proof (fun k r => respostas_descartar g g0 i n c m k r eq_refl Hn) as Hresp.
  assert (Hloc : forall k, recurso_ocupado (est (atualizar g0 i n []) k)
                           = recurso_ocupado (est g k) /\
                         esperando_recurso (est (atualizar g0 i n []) k)
                           = esperando_recurso (est g k)).
  { intros k. rewrite est_atualizar. case_bool_decide; subst; rewrite ?Hn; done. }
  assert (Hfase : forall k, fase (nos (atualizar g0 i n []) k) = fase (nos g k)).
  { intros k. rewrite fase_atualizar. case_bool_decide; subst; rewrite ?Hf; done. }
  constructor.
  - intros e. rewrite rede_app_nil. apply (inv_rede _ HI0).
  - intros j q. rewrite est_atualizar, Hn. case_bool_decide; subst; apply (inv_fila _ HI).
  - intros a b. rewrite Htok. apply (inv_tokens_le _ HI0).
  - intros a b Hne. rewrite Htok in Hne.
    destruct (inv_tokens _ HI0 _ _ Hne) as (r & p & Hfa & Hp & Hbp).
    exists r, (if bool_decide (a = i /\ r = recurso m) then p ∖ {[id m]} else p).
    rewrite Hresp, Hfase. split; [done|]. rewrite Hest0 in Hp. rewrite Hp. simpl.
    destruct (decide (a = i)) as [->|Hai].
    + rewrite (bool_decide_eq_true_2 (i = i)) by done.
      destruct (decide (r = recurso m)) as [->|Hr'].
      * rewrite !bool_decide_eq_true_2 by done. split; [done|].
        apply elem_of_difference. split; [done|]. intros ->%elem_of_singleton.
        lia.
      * rewrite !bool_decide_eq_false_2 by naive_solver. done.
    + rewrite !bool_decide_eq_false_2 by naive_solver. done.
  - intros a r. rewrite Hfase, !(proj1 (Hloc a)), !(proj2 (Hloc a)).
    apply (inv_aguardando _ HI).
  - intros a r. rewrite (proj2 (Hloc a)), Hresp. intros Ha.
    destruct (inv_esperando _ HI a r Ha) as [p Hp]. rewrite Hp.
    case_bool_decide; eexists; done.
  - intros a. rewrite (proj1 (Hloc a)), (proj2 (Hloc a)). intros Ho.
    destruct (inv_ocupado _ HI a Ho) as (r & Ha & Hp). exists r. split; [done|].
    rewrite Hresp, Hp. case_bool_decide; [subst|done].
    pose proof (inv_aguardando _ HI i r0 Hf0) as [_ Hno]. congruence.
  - intros a. rewrite Hfase, (proj1 (Hloc a)), (proj2 (Hloc a)).
    apply (inv_prompt _ HI).
  - intros a r. rewrite Hfase, (proj1 (Hloc a)). apply (inv_escolha _ HI).
  - intros a b r Hai Hbi Hab. rewrite !(proj2 (Hloc _)). intros Ha Hb [Hp1 Hp2].
    apply (inv_exclusao _ HI a b r Hai Hbi Hab Ha Hb).
    split; by eapply permissao_entrega_ack.
Qed.

(** The requests of the multicast of [solicitar] (lines 82-86 of
    [src/p1.py]) go to the peers of [i] and carry [i]'s request. *)
Lemma multicast_elem i r c e :
  e ∈ (fun d => (d, msg_requisicao i r c)) <$> filter (fun d => d ≠ i) ids ->
  e.1 ∈ ids /\ e.1 ≠ i /\ e.2 = msg_requisicao i r c.
Proof. intros (d & -> & Hd)%list_elem_of_fmap. apply list_elem_of_filter in Hd. naive_solver. Qed.

(** At the prompt a process holds no token. *)
Lemma tokens_prompt g i b : Inv g -> fase (nos g i) = Prompt -> tokens g i b = 0%nat.
Proof. intros HI Hf. apply tokens_zero_fora; [done|]. intros r'. by rewrite Hf. Qed.

(** The multicast carries no ack: a permission for a process other than
    the requester was there before. *)
Lemma permissao_multicast_outro g i n r c x y r' :
  y ≠ i ->
  permissao (atualizar g i n ((fun d => (d, msg_requisicao i r c)) <$> filter (fun d => d ≠ i) ids))
    x y r' -> permissao g x y r'.
Proof.
  intros Hy [(p & Hp & Hxp)|(e & [He|He] & Hea & Her)]%permissao_atualizar.
  - rewrite bool_decide_eq_false_2 in Hp by done. left. eauto.
  - right. eauto.
  - destruct (multicast_elem _ _ _ _ He) as (_ & _ & Hm). unfold eh_ack in Hea.
    apply bool_decide_eq_true in Hea. rewrite Hm in Hea. naive_solver.
Qed.

(** Right after the multicast nobody has let the requester through. *)
Lemma permissao_multicast_nova g i n r c j :
  Inv g -> fase (nos g i) = Prompt ->
  estado n = com_respostas (<[r := list_to_set ids ∖ {[i]}]> (respostas_esperadas (est g i)))
               (com_relogio c (com_esperando (Some r) (est g i))) ->
  j ∈ ids -> j ≠ i ->
  ~ permissao (atualizar g i n ((fun d => (d, msg_requisicao i r c)) <$> filter (fun d => d ≠ i) ids))
      j i r.
Proof.
  intros HI Hf Hn Hj Hji [(p & Hp & Hjp)|(e & He & Hea & _)]%permissao_atualizar.
  - rewrite bool_decide_eq_true_2 in Hp by done. rewrite Hn in Hp. simpl in Hp.
    rewrite lookup_insert_eq in Hp. injection Hp as <-. set_solver.
  - destruct He as [He|He].
    + pose proof (tokens_prompt g i j HI Hf) as Hz. unfold tokens in Hz.
      assert (contar (eh_ack j i) (rede g) = 0%nat) as Hz' by lia.
      by rewrite (contar_zero_elem _ _ _ Hz' He) in Hea.
    + destruct (multicast_elem _ _ _ _ He) as (_ & _ & Hm). unfold eh_ack in Hea.
      apply bool_decide_eq_true in Hea. rewrite Hm in Hea. naive_solver.
Qed.

(** [solicitar r] at the prompt when nothing is held: the requests of
    the multicast are the new tokens of [i], one per peer. *)
Lemma inv_solicitar g i r n c :
  Inv g -> i ∈ ids -> fase (nos g i) = Prompt -> recurso_ocupado (est g i) = false ->
  estado n = com_respostas (<[r := list_to_set ids ∖ {[i]}]> (respostas_esperadas (est g i)))
               (com_relogio c (com_esperando (Some r) (est g i))) ->
  fase n = AguardandoAcks r ->
  Inv (atualizar g i n ((fun d => (d, msg_requisicao i r c)) <$> filter (fun d => d ≠ i) ids)).
Proof.
  intros HI Hi Hf Ho Hn Hfn.
  set (envs := (fun d => (d, msg_requisicao i r c)) <$> filter (fun d => d ≠ i) ids).
  assert (Hesp0 : esperando_recurso (est g i) = None) by (by apply (inv_prompt _ HI)).
  pose proof (fun b => tokens_prompt g i b HI Hf) as Htok0.
  pose proof (multicast_elem i r c) as Henvs.
  pose proof (fun b => fila_atualizar_local g i n b ltac:(by rewrite Hn)) as Hfila.
  assert (Htok : forall a b, tokens (atualizar g i n envs) a b =
    (tokens g a b + if bool_decide (a = i /\ b ∈ ids /\ b ≠ i) then 1 else 0)%nat).
  { intros a b. rewrite tokens_atualizar, Hfila. subst envs.
    rewrite contar_requisicoes, contar_acks_req_multicast by done. unfold tokens. lia. }
  constructor.
  - intros e. simpl. rewrite elem_of_app. intros [He|He]; [by apply (inv_rede _ HI)|].
    destruct (Henvs e He) as (Hd & Hdi & ->). simpl. naive_solver.
  - intros j q. rewrite est_atualizar, Hn. case_bool_decide; subst; apply (inv_fila _ HI).
  - intros a b. rewrite Htok. pose proof (inv_tokens_le _ HI a b).
    case_bool_decide as Hab; [destruct Hab as [-> _]; rewrite Htok0|]; lia.
  - intros a b. rewrite Htok, fase_atualizar, est_atualizar. intros Hne.
    destruct (decide (a = i)) as [->|Hai].
    + rewrite Htok0 in Hne. rewrite !bool_decide_eq_true_2 by done.
      case_bool_decide as Hb; [|lia]. exists r, (list_to_set ids ∖ {[i]}).
      rewrite Hfn, Hn. simpl. rewrite lookup_insert_eq. set_solver.
    + rewrite !bool_decide_eq_false_2 in * by naive_solver.
      apply (inv_tokens _ HI). lia.
  - intros a r'. no_atualizado HI inv_aguardando.
    rewrite Hfn, Hn. simpl. intros [= <-]. done.
  - intros a r'. no_atualizado HI inv_esperando.
    rewrite Hn. simpl. intros [= <-]. rewrite lookup_insert_eq. by eexists.
  - intros a. no_atualizado HI inv_ocupado. rewrite Hn; simpl; congruence.
  - intros a. no_atualizado HI inv_prompt. rewrite Hfn; done.
  - intros a r'. no_atualizado HI inv_escolha. rewrite Hfn; naive_solver.
  - (* the new request: nobody has let [i] through yet *)
    pose proof (permissao_multicast_nova g i n r c) as Hnone.
    intros a b r' Hai Hbi Hab. rewrite !est_atualizar.
    destruct (decide (a = i)) as [->|Hai'], (decide (b = i)) as [->|Hbi']; try done;
      [rewrite (bool_decide_eq_true_2 (i = i)), (bool_decide_eq_false_2 (b = i)) by done
      |rewrite (bool_decide_eq_true_2 (i = i)), (bool_decide_eq_false_2 (a = i)) by done
      |rewrite (bool_decide_eq_false_2 (a = i)), (bool_decide_eq_false_2 (b = i)) by done];
      rewrite ?Hn; simpl.
    + intros [= ->] _ [Hp _]. by apply (Hnone b).
    + intros _ [= ->] [_ Hp]. by apply (Hnone a).
    + intros Ha Hb [Hp1 Hp2]. apply (inv_exclusao _ HI a b r'); try done.
      split; by eapply permissao_multicast_outro.
Qed.

(** The acks of a release come from the releaser: between two other
    processes no permission is new. *)
Lemma permissao_acks_da_fila g i n r c fila x y r' :
  x ≠ i -> y ≠ i ->
  permissao (atualizar g i n (acks_da_fila i r c fila)) x y r' -> permissao g x y r'.
Proof.
  intros Hx Hy [(p & Hp & Hxp)|(e & [He|He] & Hea & Her)]%permissao_atualizar.
  - rewrite bool_decide_eq_false_2 in Hp by done. left. eauto.
  - right. eauto.
  - apply acks_da_fila_elem in He as (q & c' & _ & ->). unfold eh_ack in Hea.
    apply bool_decide_eq_true in Hea. simpl in Hea. naive_solver.
Qed.

(** [liberar r] while holding [r]: the deferred requests become acks,
    token for token, and [i] stops competing. *)
Lemma inv_liberar g i r n c :
  Inv g -> i ∈ ids -> fase (nos g i) = Prompt ->
  estado n = mkEstado false [] (respostas_esperadas (est g i)) c None ->
  fase n = Prompt ->
  Inv (atualizar g i n (acks_da_fila i r (relogio_local (est g i)) (fila_recurso (est g i)))).
Proof.
  intros HI Hi Hf Hn Hfn.
  set (envs := acks_da_fila i r (relogio_local (est g i)) (fila_recurso (est g i))).
  pose proof (fun b => tokens_prompt g i b HI Hf) as Htok0.
  assert (Hacks : forall e, e ∈ envs -> exists q c', q ∈ fila_recurso (est g i) /\
                                         e = (id q, msg_ack i r c'))
    by (intros e He; by apply acks_da_fila_elem in He).
  assert (Htok : forall a b, tokens (atualizar g i n envs) a b = tokens g a b).
  { intros a b. rewrite tokens_atualizar. subst envs.
    rewrite contar_acks_da_fila, contar_req_acks_da_fila. unfold tokens.
    rewrite Hn. case_bool_decide; subst; simpl; lia. }
  constructor.
  - intros e. simpl. rewrite elem_of_app. intros [He|He]; [by apply (inv_rede _ HI)|].
    destruct (Hacks e He) as (q & c' & Hq & ->). simpl.
    destruct (inv_fila _ HI i q Hq). naive_solver.
  - intros j q. rewrite est_atualizar, Hn. case_bool_decide; subst;
      [simpl; by intros ?%elem_of_nil|apply (inv_fila _ HI)].
  - intros a b. rewrite Htok. apply (inv_tokens_le _ HI).
  - intros a b. rewrite Htok, fase_atualizar, est_atualizar. intros Hne.
    destruct (decide (a = i)) as [->|Hai]; [by rewrite Htok0 in Hne|].
    rewrite !bool_decide_eq_false_2 by done. by apply (inv_tokens _ HI).
  - intros a r'. no_atualizado HI inv_aguardando. by rewrite Hfn.
  - intros a r'. no_atualizado HI inv_esperando. by rewrite Hn.
  - intros a. no_atualizado HI inv_ocupado. by rewrite Hn.
  - intros a. no_atualizado HI inv_prompt. by rewrite Hn.
  - intros a r'. no_atualizado HI inv_escolha. rewrite Hfn; naive_solver.
  - intros a b r' Hai Hbi Hab. rewrite !est_atualizar.
    destruct (decide (a = i)) as [->|Hai'];
      [rewrite (bool_decide_eq_true_2 (i = i)), Hn by done; done|].
    destruct (decide (b = i)) as [->|Hbi'];
      [rewrite (bool_decide_eq_true_2 (i = i)), Hn by done; done|].
    rewrite !bool_decide_eq_false_2 by done. intros Ha Hb [Hp1 Hp2].
    apply (inv_exclusao _ HI a b r'); try done. split; by eapply permissao_acks_da_fila.
Qed.

(** The wait loop of line 123 exits when the pending set is empty:
    [recurso_ocupado] is set and no token of [i] is left. *)
Lemma inv_conceder g i r n :
  Inv g -> fase (nos g i) = AguardandoAcks r ->
  respostas_esperadas (est g i) !! r = Some ∅ ->
  estado n = com_ocupado true (est g i) ->
  fase n = Prompt ->
  Inv (atualizar g i n []).
Proof.
  intros HI Hf Hp Hn Hfn.
  destruct (inv_aguardando _ HI i r Hf) as [Hesp Ho].
  assert (Htok0 : forall b, tokens g i b = 0%nat).
  { intros b. destruct (decide (tokens g i b = 0%nat)) as [|Hne]; [done|].
    destruct (inv_tokens _ HI i b Hne) as (r' & p & Hf' & Hp' & Hb).
    rewrite Hf in Hf'. injection Hf' as <-. rewrite Hp in Hp'.
    injection Hp' as <-. set_solver. }
  assert (Htok : forall a b, tokens (atualizar g i n []) a b = tokens g a b).
  { intros a b. rewrite tokens_atualizar. unfold tokens. rewrite Hn.
    case_bool_decide; subst; simpl; lia. }
  assert (Hperm : forall x y r', permissao (atualizar g i n []) x y r' <-> permissao g x y r').
  { intros x y r'. rewrite permissao_atualizar. unfold permissao.
    rewrite Hn. case_bool_decide; subst; simpl; set_solver. }
  assert (Hesp' : forall k, esperando_recurso (est (atualizar g i n []) k)
                            = esperando_recurso (est g k)).
  { intros k. rewrite est_atualizar, Hn. by case_bool_decide; subst. }
  assert (Hresp' : forall k, respostas_esperadas (est (atualizar g i n []) k)
                             = respostas_esperadas (est g k)).
  { intros k. rewrite est_atualizar, Hn. by case_bool_decide; subst. }
  constructor.
  - intros e. rewrite rede_app_nil. apply (inv_rede _ HI).
  - intros j q. rewrite est_atualizar, Hn. case_bool_decide; subst; apply (inv_fila _ HI).
  - intros a b. rewrite Htok. apply (inv_tokens_le _ HI).
  - intros a b. rewrite Htok, fase_atualizar, Hresp'. intros Hne.
    destruct (decide (a = i)) as [->|Hai]; [by rewrite Htok0 in Hne|].
    rewrite !bool_decide_eq_false_2 by done. by apply (inv_tokens _ HI).
  - intros a r'. no_atualizado HI inv_aguardando. by rewrite Hfn.
  - intros a r'. rewrite Hesp', Hresp'. apply (inv_esperando _ HI).
  - intros a. rewrite Hesp', Hresp', est_atualizar. case_bool_decide; subst;
      [intros _; by exists r|apply (inv_ocupado _ HI)].
  - intros a. no_atualizado HI inv_prompt. by rewrite Hn.
  - intros a r'. no_atualizado HI inv_escolha. rewrite Hfn; naive_solver.
  - intros a b r' Hai Hbi Hab. rewrite !Hesp', !Hperm. by apply (inv_exclusao _ HI).
Qed.

Lemma inv_mesmo_no g i n :
  Inv g -> estado n = est g i -> fase n = fase (nos g i) -> Inv (atualizar g i n []).
Proof.
  intros HI Hn Hf.
  assert (Hest : forall k, est (atualizar g i n []) k = est g k).
  { intros k. rewrite est_atualizar. case_bool_decide; by subst. }
  assert (Hfase : forall k, fase (nos (atualizar g i n [])  k) = fase (nos g k)).
  { intros k. rewrite fase_atualizar. case_bool_decide; by subst. }
  assert (Htok : forall a b, tokens (atualizar g i n []) a b = tokens g a b).
  { intros a b. unfold tokens. rewrite Hest. simpl. by rewrite app_nil_r. }
  assert (Hperm : forall a b r, permissao (atualizar g i n []) a b r <-> permissao g a b r).
  { intros a b r. unfold permissao. rewrite Hest. simpl. by rewrite app_nil_r. }
  constructor; intros *; rewrite ?Hest, ?Hfase, ?Htok, ?Hperm, ?rede_app_nil.
  all: first [apply (inv_rede _ HI) | apply (inv_fila _ HI) | apply (inv_tokens_le _ HI)
             | apply (inv_tokens _ HI) | apply (inv_aguardando _ HI)
             | apply (inv_esperando _ HI) | apply (inv_ocupado _ HI)
             | apply (inv_prompt _ HI) | apply (inv_escolha _ HI)
             | apply (inv_exclusao _ HI)].
Qed.

Lemma inv_inicial : Inv global_inicial.
Proof.
  assert (Htok : forall a b, tokens global_inicial a b = 0%nat) by done.
  constructor; intros *; rewrite ?Htok; simpl; try done; try lia.
  all: first [by intros ?%elem_of_nil | naive_solver
             | intros _ _ _ _ _ [[(p & Hp & _)|(e & He & _)] _];
               [done|by apply elem_of_nil in He]].
Qed.

Lemma fila_nos_ids g i : Inv g -> Forall (fun q => id q ∈ ids) (fila_recurso (est g i)).
Proof. intros HI. apply Forall_forall. intros q Hq. by destruct (inv_fila _ HI i q Hq). Qed.

(** Every step keeps the invariant. *)
(** The delivery of a request (deferred or answered) or of an ack. *)
Lemma inv_entrega g i m l1 l2 :
  Inv g -> rede g = l1 ++ (i, m) :: l2 -> i ∈ ids ->
  let e := processar_objeto i PROCESSOS (para_objeto m) (estado (nos g i)) in
  Inv (atualizar (mkGlobal (nos g) (l1 ++ l2)) i (no_apos_servidor (nos g i) e) (saidas e)).
Proof.
  intros HI Hr Hi e. subst e. rewrite processar_objeto_para_objeto.
  destruct (entrega_info _ _ _ _ _ HI Hr)
    as (HI0 & _ & Hm & Him & [Ht|Ht] & Hreq & Hack).
  - destruct (Hreq Ht) as (Htok0 & Hsender). clear Hreq Hack.
    rewrite processar_requisicao_eq by done.
    destruct (recurso_ocupado _ || _) eqn:Hc; simpl.
    + eapply inv_entrega_adiada; try done.
    + apply orb_false_iff in Hc as [Ho Hesp].
      apply bool_decide_eq_false in Hesp.
      rewrite enviar_ack_ok by done. simpl.
      eapply inv_entrega_respondida; try done.
  - rewrite processar_ack_eq by done. simpl.
    eapply inv_entrega_ack; try done. simpl.
    unfold descartar. by destruct (respostas_esperadas _ !! recurso m).
Qed.

Lemma inv_passo g g' : Inv g -> passo PROCESSOS g g' -> Inv g'.
Proof.
  intros HI Hstep. destruct Hstep as
    [g i c Hi Hf e|g i r esc Hi Hf|g i r Hi Hf e|g i r Hi Hf e|g i m l1 l2 Hr Hi Hf Hs e
    |g x l1 l2 Hr]; try subst e.
  - destruct c as [r|r| |];
      [rewrite passo_comando_solicitar_eq
      |rewrite passo_comando_liberar_eq by (by apply fila_nos_ids) | |].
    + destruct (recurso_ocupado (estado (nos g i))) eqn:Ho; simpl.
      * apply inv_mudar_fase; try done; try (intros ?; rewrite Hf; done); naive_solver.
      * eapply inv_solicitar; try done.
    + destruct (_ && _) eqn:Hh; simpl.
      * by eapply inv_liberar.
      * apply inv_mesmo_no; done.
    + apply inv_mudar_fase; try done; [intros ?; rewrite Hf; done|naive_solver].
    + apply inv_mesmo_no; done.
  - apply inv_mudar_fase; try done.
    + intros ?; by rewrite Hf.
    + unfold passo_escolha. by case_bool_decide.
    + intros _. right. apply (inv_escolha _ HI i r). by left.
    + intros _ _. apply (inv_escolha _ HI i r). by left.
  - rewrite passo_aguardar_liberacao_ocupado
      by (apply (inv_escolha _ HI i r); by right).
    apply inv_mesmo_no; done.
  - destruct (inv_aguardando _ HI i r Hf) as [Hesp _].
    destruct (inv_esperando _ HI i r Hesp) as [p Hp].
    unfold est in Hp. rewrite (passo_aguardar_acks_eq r _ p Hp).
    case_bool_decide as Hp0; simpl.
    + subst p. by eapply inv_conceder.
    + apply inv_mesmo_no; done.
  - by eapply inv_entrega.
  - by eapply inv_perda.
Qed.

Lemma inv_rtc g g' : rtc (passo PROCESSOS) g g' -> Inv g -> Inv g'.
Proof. induction 1 as [|g1 g2 g3 Hs _ IH]; [done|]. intros HI. apply IH, (inv_passo g1); done. Qed.

Lemma inv_alcancavel g : alcancavel PROCESSOS g -> Inv g.
Proof. intros Hr. apply (inv_rtc global_inicial); [done|apply inv_inicial]. Qed.

(** The local process holds [r]: [recurso_ocupado] is set and
    [esperando_recurso] names [r]. *)
Definition detem (g : Global) (i r : string) : Prop :=
  recurso_ocupado (est g i) = true /\ esperando_recurso (est g i) = Some r.

(** Under the invariant, two distinct processes never hold the same
    resource. *)
Lemma inv_detem_exclusivo g i j r :
  Inv g -> i ∈ ids -> j ∈ ids -> i ≠ j -> ~ (detem g i r /\ detem g j r).
Proof.
  intros HI Hi Hj Hij [[Hoi Hei] [Hoj Hej]].
  destruct (inv_ocupado _ HI i Hoi) as (ri & Hri & Hpi).
  destruct (inv_ocupado _ HI j Hoj) as (rj & Hrj & Hpj).
  rewrite Hei in Hri. injection Hri as <-. rewrite Hej in Hrj. injection Hrj as <-.
  apply (inv_exclusao _ HI i j r Hi Hj Hij Hei Hej).
  split; left; eexists; split; [exact Hpi| |exact Hpj|]; set_solver.
Qed.

(** C1: mutual exclusion.  In every state reachable from the initial one,
    no two distinct processes of [PROCESSOS] hold the same resource. *)
Theorem exclusao_mutua g i j r :
  alcancavel PROCESSOS g -> i ∈ ids -> j ∈ ids -> i ≠ j ->
  ~ (detem g i r /\ detem g j r).
Proof. intros Hr. apply inv_detem_exclusivo, inv_alcancavel, Hr. Qed.

End Invariante.

(** A run of three processes of [src/p1.py] in which [p1] acquires [r1]:
    the request, the two acks, and the end of the wait. *)
Definition execucao_detem : list Evento :=
  [EvComando "p1" (Solicitar "r1"); EvEntrega 0; EvEntrega 0; EvEntrega 0; EvEntrega 0;
   EvIteracao "p1"].
Definition g_detem : Global :=
  default global_inicial (executar PROCESSOS_P1 global_inicial execucao_detem).
(** Witness: after that run [p1] holds [r1], and [p2] does not. *)
Example exclusao_mutua_exemplo :
  detem g_detem "p1" "r1" /\ ~ (detem g_detem "p1" "r1" /\ detem g_detem "p2" "r1").
Proof.
  split; [split; vm_compute; reflexivity|].
  apply (exclusao_mutua PROCESSOS_P1); [decidir| |decidir|decidir|discriminate].
  apply (executar_alcancavel _ execucao_detem). vm_compute. reflexivity.
Defined.

End Seguranca.
