(* ===== verification/Progresso.v ===== *)
(** * Progresso: a request that nothing blocks is granted

    [Impasse] shows the two ways a run of [src/p1.py] blocks for ever.
    This file shows the converse: when nothing blocks a request, there is a
    run that grants it.  Let [i] wait for the acks of [r] (lines 123-125),
    with its server alive.  Let every peer [j] still pending have either
    [i]'s request on its way to it, while [j] neither holds a resource nor
    waits for [r] (so line 158 acks at once), or its ack on its way back.
    Then delivering, peer by peer, the request and then the ack, and one
    more iteration of [i]'s wait, reaches a state where [i] holds [r].

    The run is built as liveness proofs over a network build theirs: one
    lemma per delivery ([entrega_requisicao], [entrega_ack]) states the
    step and what it changes, and [acks_chegam] chains them by induction
    on the list of pending peers. *)

From S2P Require Import Prelude Relogio Mensagem Processo Sistema.
Import Mensagem Processo Sistema.

Module Progresso.

#[local] Open Scope Z_scope.

Section Progresso.
Context (PROCESSOS : list (string * (string * Z))).

Abbreviation ids := (PROCESSOS.*1).

(** The server thread of [j] can take a message. *)
Definition servidor_pronto (g : Global) (j : string) : Prop :=
  j ∈ ids /\ fase (nos g j) ≠ Encerrado /\ servidor_ativo (nos g j) = true.

(** [j] acks a request for [r] at once (line 158 does not defer it). *)
Definition responde (s : Estado) (r : string) : Prop :=
  recurso_ocupado s = false /\ esperando_recurso s ≠ Some r.

(** Nothing blocks the ack of [j] to [i] for [r]: [i]'s request is on its
    way to [j], which will answer it, or [j]'s ack is on its way back. *)
Definition caminho_livre (g : Global) (i r j : string) : Prop :=
  (exists m, (j, m) ∈ rede g /\ tipo m = "requisicao" /\ id m = i /\ recurso m = r /\
     servidor_pronto g j /\ responde (estado (nos g j)) r) \/
  (exists a, (i, a) ∈ rede g /\ tipo a = "ack" /\ id a = j /\ recurso a = r).

(** ** One delivery at a time *)

Lemma rede_entrega_outros (l1 l2 envs : list Envio) x e :
  e ∈ l1 ++ x :: l2 -> e ≠ x -> e ∈ (l1 ++ l2) ++ envs.
Proof. rewrite !elem_of_app, elem_of_cons. naive_solver. Qed.

(** [j] receives [i]'s request and acks it: only its clock moves. *)
Lemma entrega_requisicao g j m :
  (j, m) ∈ rede g -> servidor_pronto g j -> tipo m = "requisicao" -> id m ∈ ids ->
  responde (estado (nos g j)) (recurso m) ->
  exists g' c, passo PROCESSOS g g' /\
    (forall k, k ≠ j -> nos g' k = nos g k) /\
    nos g' j = mkNo (com_relogio c (estado (nos g j))) (fase (nos g j))
                 (servidor_ativo (nos g j)) /\
    (forall e, e ∈ rede g -> e ≠ (j, m) -> e ∈ rede g') /\
    (id m, msg_ack j (recurso m) c) ∈ rede g'.
Proof.
  intros Hm (Hj & Hf & Hs) Ht Hi [Ho He].
  apply list_elem_of_split in Hm as (l1 & l2 & Hr).
  set (s := estado (nos g j)).
  set (c1 := Relogio.atualizar_relogio (relogio_local s) (timestamp m)).
  assert (Hpm : processar_objeto j PROCESSOS (para_objeto m) s
    = mkExec (Ok tt) (com_relogio (c1 + 1) (com_relogio c1 s)) [(id m, msg_ack j (recurso m) (c1 + 1))]).
  { rewrite processar_objeto_para_objeto, processar_requisicao_eq by done. cbv zeta.
    subst s. rewrite Ho, bool_decide_eq_false_2 by done. simpl.
    by rewrite enviar_ack_ok. }
  eexists _, (c1 + 1). split; [apply (ev_entrega _ g j m l1 l2); done|].
  fold s. rewrite Hpm. unfold atualizar, no_apos_servidor. simpl. split_and!.
  - intros k Hk. by rewrite bool_decide_eq_false_2.
  - rewrite bool_decide_eq_true_2 by done. done.
  - intros e He' Hne. rewrite Hr in He'. by eapply rede_entrega_outros.
  - rewrite elem_of_app. right. by left.
Qed.

(** [i] receives the ack of [id a] for [recurso a]: the sender leaves the
    pending set, and only that and the clock change. *)
Lemma entrega_ack g i a q :
  (i, a) ∈ rede g -> servidor_pronto g i -> tipo a = "ack" ->
  respostas_esperadas (estado (nos g i)) !! recurso a = Some q ->
  exists g' c, passo PROCESSOS g g' /\
    (forall k, k ≠ i -> nos g' k = nos g k) /\
    nos g' i = mkNo (com_respostas
                       (<[recurso a := q ∖ {[id a]}]> (respostas_esperadas (estado (nos g i))))
                       (com_relogio c (estado (nos g i))))
                 (fase (nos g i)) (servidor_ativo (nos g i)) /\
    (forall e, e ∈ rede g -> e ≠ (i, a) -> e ∈ rede g').
Proof.
  intros Ha (Hi & Hf & Hs) Ht Hq.
  apply list_elem_of_split in Ha as (l1 & l2 & Hr).
  set (s := estado (nos g i)).
  set (c1 := Relogio.atualizar_relogio (relogio_local s) (timestamp a)).
  eexists _, c1. split; [apply (ev_entrega _ g i a l1 l2); done|].
  rewrite processar_objeto_para_objeto, processar_ack_eq by done. cbv zeta.
  subst s. rewrite Hq. unfold atualizar, no_apos_servidor. simpl. split_and!.
  - intros k Hk. by rewrite bool_decide_eq_false_2.
  - rewrite bool_decide_eq_true_2 by done. done.
  - intros e He' Hne. rewrite Hr in He'. rewrite app_nil_r.
    rewrite elem_of_app. rewrite elem_of_app, elem_of_cons in He'. naive_solver.
Qed.

(** A delivery that leaves the node [j'] alone, and removes a message that
    is neither addressed to [j'] nor [j']'s ack to [i], keeps the way of
    [j']'s ack free. *)
Lemma caminho_livre_mantido g g' i r j' (rem : Envio) :
  nos g' j' = nos g j' ->
  (forall e, e ∈ rede g -> e ≠ rem -> e ∈ rede g') ->
  rem.1 ≠ j' -> (rem.1 = i -> id rem.2 ≠ j') ->
  caminho_livre g i r j' -> caminho_livre g' i r j'.
Proof.
  intros Hn Hrede H1 H2 [(m & Hm & Ht & Hi & Hr & Hs & Hresp)|(a & Ha & Ht & Hj & Hr)].
  - left. exists m. unfold servidor_pronto in *. rewrite Hn.
    destruct Hs as (? & ? & ?). split_and!; try done. apply Hrede; [done|]. intros Heq. rewrite <-Heq in H1. by apply H1.
  - right. exists a. split_and!; try done. apply Hrede; [done|]. intros Heq.
    rewrite <-Heq in H2. by apply H2.
Qed.

(** On a free path the ack of [j] for [r] gets on its way to [i]: it is
    in flight, or [j] answers the request in flight first.  Only [j]
    moves, so the other free paths stay free. *)
Lemma ack_a_caminho g i r j (l : list string) :
  servidor_pronto g i -> j ≠ i -> j ∉ l -> caminho_livre g i r j ->
  (forall j', j' ∈ l -> j' ≠ i /\ caminho_livre g i r j') ->
  exists g1 a, rtc (passo PROCESSOS) g g1 /\ nos g1 i = nos g i /\
    (i, a) ∈ rede g1 /\ tipo a = "ack" /\ id a = j /\ recurso a = r /\
    forall j', j' ∈ l -> caminho_livre g1 i r j'.
Proof.
  intros Hsi Hji Hjl Hcam Hl.
  destruct Hcam as [(m & Hm & Ht & Hi & Hr & Hsj & Hresp)|(a & Ha & Ht & Hj & Hr)].
  - destruct (entrega_requisicao g j m Hm Hsj Ht) as (g1 & c & Hp & Hk & Hnj & Hrede & Hack);
      [rewrite Hi; apply Hsi|by rewrite Hr|].
    exists g1, (msg_ack j (recurso m) c). split_and!; try done.
    + by apply rtc_once.
    + by apply Hk.
    + by rewrite <-Hi.
    + intros j' Hj'. destruct (Hl j' Hj') as [Hj'i Hc'].
      assert (j' ≠ j) by (intros ->; contradiction).
      apply (caminho_livre_mantido g g1 i r j' (j, m)); simpl; auto; congruence.
  - exists g, a. split_and!; try done; try apply rtc_refl.
    intros j' Hj'. exact (proj2 (Hl j' Hj')).
Qed.

(** ** The acks of every pending peer arrive *)

Lemma acks_chegam i r (l : list string) :
  NoDup l -> forall g q,
  servidor_pronto g i -> fase (nos g i) = AguardandoAcks r ->
  respostas_esperadas (estado (nos g i)) !! r = Some q -> q ⊆ list_to_set l ->
  (forall j, j ∈ l -> j ≠ i /\ caminho_livre g i r j) ->
  exists g', rtc (passo PROCESSOS) g g' /\ servidor_pronto g' i /\
    fase (nos g' i) = AguardandoAcks r /\
    esperando_recurso (estado (nos g' i)) = esperando_recurso (estado (nos g i)) /\
    respostas_esperadas (estado (nos g' i)) !! r = Some ∅.
Proof.
  induction l as [|j l IH]; intros Hnd g q Hsi Hfi Hq Hql Hl.
  { exists g. split_and!; [apply rtc_refl|done|done|done|]. rewrite Hq. f_equal. set_solver. }
  apply NoDup_cons in Hnd as [Hjl Hnd].
  destruct (Hl j (list_elem_of_here _ _)) as [Hji Hcam].
  (* first the ack of [j] gets on its way *)
  destruct (ack_a_caminho g i r j l) as (g1 & a & Hg1 & Hn1 & Ha & Ht & Hj & Hr & Hl1);
    [done..|intros j' Hj'; apply Hl; by right|].
  (* then it is delivered *)
  destruct (entrega_ack g1 i a q Ha) as (g2 & c & Hp & Hk & Hni & Hrede);
    [unfold servidor_pronto in *; by rewrite Hn1|done|by rewrite Hn1, Hr|].
  destruct (IH Hnd g2 (q ∖ {[j]})) as (g' & Hg' & Hs' & Hf' & He' & Hq');
    [unfold servidor_pronto in *; by rewrite Hni, Hn1
    |by rewrite Hni, Hn1
    |rewrite Hni; simpl; by rewrite Hr, Hj, lookup_insert_eq
    |set_solver
    |intros j' Hj'; split; [apply Hl; by right|]|].
  - destruct (Hl j' (list_elem_of_further _ _ _ Hj')) as [Hj'i _].
    apply (caminho_livre_mantido g1 g2 i r j' (i, a)).
    + by apply Hk.
    + exact Hrede.
    + simpl. by apply not_eq_sym.
    + simpl. rewrite Hj. intros _ ->. contradiction.
    + by apply Hl1.
  - exists g'. split_and!; try done.
    + etrans; [exact Hg1|]. eapply rtc_l; [exact Hp|exact Hg'].
    + rewrite He', Hni, Hn1. done.
Qed.

(** C3: a request that nothing blocks is granted.  Let [i] wait for the
    acks of [r] with its server alive, and let every peer still pending
    have [i]'s request on its way to it while it neither holds a resource
    nor waits for [r], or its ack on its way back.  Then some run of
    [src/p1.py] leads to a state where [i] holds [r]: its wait has ended,
    [recurso_ocupado] is set and [esperando_recurso] is [r]. *)
Theorem pedido_isolado_concedido g i r q :
  servidor_pronto g i -> fase (nos g i) = AguardandoAcks r ->
  esperando_recurso (estado (nos g i)) = Some r ->
  respostas_esperadas (estado (nos g i)) !! r = Some q ->
  (forall j, j ∈ q -> j ≠ i /\ caminho_livre g i r j) ->
  exists g', rtc (passo PROCESSOS) g g' /\ fase (nos g' i) = Prompt /\
    recurso_ocupado (estado (nos g' i)) = true /\
    esperando_recurso (estado (nos g' i)) = Some r.
Proof.
  intros Hsi Hfi Hei Hq Hj.
  destruct (acks_chegam i r (elements q) (NoDup_elements q) g q Hsi Hfi Hq)
    as (g1 & Hg1 & Hs1 & Hf1 & He1 & Hq1);
    [intros j; rewrite elem_of_list_to_set, elem_of_elements; done
    |intros j Hj'; apply Hj; by apply elem_of_elements|].
  destruct Hs1 as (Hi1 & _ & _).
  set (e := passo_aguardar_acks r (estado (nos g1 i))).
  exists (atualizar g1 i (no_apos_main (nos g1 i) e) (saidas e)).
  split.
  - eapply rtc_r; [exact Hg1|]. by apply ev_acks.
  - subst e. rewrite (passo_aguardar_acks_eq r _ ∅ Hq1), bool_decide_eq_true_2 by done.
    unfold atualizar, no_apos_main, com_ocupado. simpl.
    rewrite bool_decide_eq_true_2 by done. simpl. split_and!; [done|done|congruence].
Qed.

End Progresso.

(** Witness: p1 has just asked for r1 in the configuration of
    [src/p1.py]; its two requests are on their way and p2 and p3 are idle. *)
Definition g_pedido : Global :=
  default global_inicial (executar PROCESSOS_P1 global_inicial [EvComando "p1" (Solicitar "r1")]).

Example pedido_isolado_concedido_exemplo :
  exists g', rtc (passo PROCESSOS_P1) g_pedido g' /\ fase (nos g' "p1") = Prompt /\
    recurso_ocupado (estado (nos g' "p1")) = true /\
    esperando_recurso (estado (nos g' "p1")) = Some "r1".
Proof.
  assert (Hr : rede g_pedido = [("p2", msg_requisicao "p1" "r1" 1); ("p3", msg_requisicao "p1" "r1" 1)])
    by (vm_compute; reflexivity).
  apply (pedido_isolado_concedido PROCESSOS_P1 g_pedido "p1" "r1" {["p2"; "p3"]}).
  - split; [decidir|split; [decidir|vm_compute; reflexivity]].
  - vm_compute. reflexivity.
  - vm_compute. reflexivity.
  - vm_compute. reflexivity.
  - intros j Hj. rewrite elem_of_union, !elem_of_singleton in Hj.
    destruct Hj as [->| ->]; (split; [discriminate|left]);
      exists (msg_requisicao "p1" "r1" 1); (split; [rewrite Hr; decidir|]);
      (split_and!; try reflexivity; decidir).
Defined.


End Progresso.
