(* ===== verification/SimulacaoP2.v ===== *)
(** * SimulacaoP2: the runs of [src/p2.py] without [aguardar_recurso]

    [P2Sistema.exclusao_mutua_violada_p2] shows two processes of
    [src/p2.py] granted the same resource, through a thread
    [aguardar_recurso].  This file proves that the thread is the only
    cause: in a run where no process has such a thread, the processes of
    [src/p2.py] keep mutual exclusion.

    The proof is a simulation.  Each such run of [src/p2.py] is matched by
    a run of [src/p1.py] ([Sistema.passo]) whose processes have the same
    flags, queues (up to timestamps), pending sets, requested resources,
    phases and servers, and whose network holds the same messages (up to
    timestamps) once the nacks of [src/p2.py] are left out.  Clocks and
    timestamps may differ, because the two programs tick differently, but
    no decision of either program depends on them
    ([Processo.prioridade_sempre_verdadeira]).  The steps that differ are
    matched as follows:
    - the answer "no" to the busy prompt of [src/p2.py] (line 123) is the
      command and then the answer of [src/p1.py] (line 108);
    - the nack sent with a deferral, and its delivery, are no step of
      [src/p1.py];
    - the release of [src/p2.py] acks the first deferred request only: it
      is p1's release, which acks all of them, followed by the loss of the
      other acks.
    Mutual exclusion then follows from [Seguranca.inv_detem_exclusivo] on
    the run of [src/p1.py]. *)

From S2P Require Import Prelude Relogio Mensagem Processo P2 P2Sistema Sistema Seguranca.
Import Mensagem Processo Sistema P2Sistema.

Module SimulacaoP2.

#[local] Open Scope Z_scope.

(** ** Erasing clocks and timestamps *)

Definition apagar_m (m : Mensagem) : Mensagem :=
  {| tipo := tipo m; recurso := recurso m; timestamp := 0; id := id m |}.

Definition apagar_e (e : Envio) : Envio := (e.1, apagar_m e.2).

(** The globals but the clock, and the queue without timestamps. *)
Definition apagar_s (s : Estado) : Estado :=
  mkEstado (recurso_ocupado s) (apagar_m <$> fila_recurso s)
    (respostas_esperadas s) 0 (esperando_recurso s).

(** The messages of a network of [src/p2.py] that a network of
    [src/p1.py] also holds: all but the nacks. *)
Definition sem_nacks (l : list Envio) : list Envio :=
  filter (fun e : Envio => tipo e.2 ≠ "nack") l.

(** [l2] (of [src/p2.py]) and [l1] (of [src/p1.py]) hold the same
    messages in the same order, up to timestamps and the nacks of [l2]. *)
Definition rede_rel (l2 l1 : list Envio) : Prop :=
  apagar_e <$> sem_nacks l2 = apagar_e <$> l1.

Lemma apagar_s_inv s t :
  apagar_s s = apagar_s t ->
  recurso_ocupado s = recurso_ocupado t /\
  apagar_m <$> fila_recurso s = apagar_m <$> fila_recurso t /\
  respostas_esperadas s = respostas_esperadas t /\
  esperando_recurso s = esperando_recurso t.
Proof. unfold apagar_s. intros H. by simplify_eq. Qed.

Lemma apagar_m_inv m1 m2 :
  apagar_m m1 = apagar_m m2 ->
  tipo m1 = tipo m2 /\ recurso m1 = recurso m2 /\ id m1 = id m2.
Proof. unfold apagar_m. intros H. by simplify_eq. Qed.

Lemma sem_nacks_app l1 l2 : sem_nacks (l1 ++ l2) = sem_nacks l1 ++ sem_nacks l2.
Proof. apply filter_app. Qed.

Lemma sem_nacks_todos l :
  Forall (fun e : Envio => tipo e.2 ≠ "nack") l -> sem_nacks l = l.
Proof.
  induction l as [|e l IH]; intros Hl; [done|].
  apply Forall_cons in Hl as [He Hl]. unfold sem_nacks.
  rewrite filter_cons_True by done. f_equal. by apply IH.
Qed.

Lemma rede_rel_app l2 l1 o2 o1 :
  rede_rel l2 l1 -> rede_rel o2 o1 -> rede_rel (l2 ++ o2) (l1 ++ o1).
Proof. unfold rede_rel. rewrite sem_nacks_app, !fmap_app. congruence. Qed.

(** Messages sent by both programs, none of them a nack. *)
Lemma rede_rel_iguais o2 o1 :
  Forall (fun e : Envio => tipo e.2 ≠ "nack") o2 ->
  apagar_e <$> o2 = apagar_e <$> o1 -> rede_rel o2 o1.
Proof. intros H. unfold rede_rel. by rewrite sem_nacks_todos. Qed.

(** Removing a message that is not a nack: it sits at the same place of
    the network of [src/p1.py]. *)
Lemma rede_rel_meio l1 x l2 L :
  rede_rel (l1 ++ x :: l2) L -> tipo x.2 ≠ "nack" ->
  exists L1 y L2, L = L1 ++ y :: L2 /\ apagar_e y = apagar_e x /\
    rede_rel (l1 ++ l2) (L1 ++ L2).
Proof.
  unfold rede_rel. intros H Hx.
  rewrite sem_nacks_app in H. unfold sem_nacks at 2 in H.
  rewrite filter_cons_True in H by done. rewrite fmap_app, fmap_cons in H.
  symmetry in H. apply fmap_app_inv in H as (L1 & L' & H1 & H2 & ->).
  symmetry in H2. apply fmap_cons_inv in H2 as (y & L2 & Hy & H3 & ->).
  exists L1, y, L2. split_and!; [done|done|].
  rewrite sem_nacks_app, !fmap_app. unfold sem_nacks in *. congruence.
Qed.

(** Removing a nack: the network of [src/p1.py] does not change. *)
Lemma rede_rel_nack l1 x l2 L :
  rede_rel (l1 ++ x :: l2) L -> tipo x.2 = "nack" -> rede_rel (l1 ++ l2) L.
Proof.
  unfold rede_rel. intros H Hx. rewrite <-H, !sem_nacks_app.
  unfold sem_nacks at 2 4. by rewrite filter_cons_False by naive_solver.
Qed.

Lemma apagar_acks_da_fila i r c f :
  apagar_e <$> acks_da_fila i r c f = (fun q => (id q, msg_ack i r 0)) <$> f.
Proof. revert c. induction f as [|q f IH]; intros c; simpl; [done|]. by rewrite IH. Qed.

Lemma acks_da_fila_acks i r c f :
  Forall (fun e : Envio => tipo e.2 ≠ "nack") (acks_da_fila i r c f).
Proof.
  revert c. induction f as [|q f IH]; intros c; simpl; [done|].
  constructor; [done|apply IH].
Qed.

(** The acks of two drains of queues that are equal up to timestamps. *)
Lemma rede_rel_acks i r c c' f f' :
  apagar_m <$> f = apagar_m <$> f' ->
  rede_rel (acks_da_fila i r c f) (acks_da_fila i r c' f').
Proof.
  intros Hf. apply rede_rel_iguais; [apply acks_da_fila_acks|].
  rewrite !apagar_acks_da_fila.
  change ((fun q => (id q, msg_ack i r 0)) <$> f)
    with ((fun q => (id q, msg_ack i r 0)) ∘ apagar_m <$> f).
  change ((fun q => (id q, msg_ack i r 0)) <$> f')
    with ((fun q => (id q, msg_ack i r 0)) ∘ apagar_m <$> f').
  by rewrite !list_fmap_compose, Hf.
Qed.

Lemma take_acks_da_fila i r c f :
  take 1 (acks_da_fila i r c f) = acks_da_fila i r c (take 1 f).
Proof. by destruct f. Qed.

Lemma rede_rel_requisicoes i r c c' l :
  rede_rel ((fun d => (d, msg_requisicao i r c)) <$> l)
           ((fun d => (d, msg_requisicao i r c')) <$> l).
Proof.
  apply rede_rel_iguais.
  - apply Forall_fmap, Forall_forall. by intros d _.
  - rewrite <-!list_fmap_compose. by apply list_fmap_ext.
Qed.

Lemma ids_fila_apagar (ids : list string) f f' :
  apagar_m <$> f = apagar_m <$> f' ->
  Forall (fun q => id q ∈ ids) f' -> Forall (fun q => id q ∈ ids) f.
Proof.
  intros Hf H. apply (Forall_fmap apagar_m (fun q => id q ∈ ids)).
  rewrite Hf. by apply Forall_fmap.
Qed.

(** ** The handlers

    [simula ok e2 e1]: the run [e2] of a handler of [src/p2.py] and the
    run [e1] of one of [src/p1.py] end the same way (values related by
    [ok], or both an exception), leave the same globals up to the clocks,
    and send the same messages up to timestamps and nacks. *)
Definition simula {A B} (ok : A -> B -> Prop)
    (e2 : Exec Estado Envio A) (e1 : Exec Estado Envio B) : Prop :=
  match resultado e2, resultado e1 with
  | Ok a, Ok b => ok a b
  | Exc _, Exc _ => True
  | _, _ => False
  end /\ apagar_s (estado_final e2) = apagar_s (estado_final e1) /\
  rede_rel (saidas e2) (saidas e1).

Ltac simula_simpl :=
  unfold simula, apagar_s; cbn [resultado estado_final saidas];
  cbn beta iota delta [recurso_ocupado fila_recurso respostas_esperadas relogio_local
    esperando_recurso com_ocupado com_fila com_respostas com_relogio com_esperando];
  split_and!; rewrite ?fmap_app; try done; try (f_equal; simpl; congruence).

Section Handlers.
Context (i : string) (PROCESSOS : list (string * (string * Z))).

(** The wait for the acks is the same code in both programs, and reads
    no clock. *)
Lemma simula_acks r s t :
  apagar_s s = apagar_s t ->
  simula eq (passo_aguardar_acks r s) (passo_aguardar_acks r t).
Proof.
  intros Hst. destruct (apagar_s_inv _ _ Hst) as (Ho & Hf & Hr & He).
  destruct (respostas_esperadas t !! r) as [p|] eqn:Hp.
  - rewrite !(passo_aguardar_acks_eq r _ p) by congruence.
    destruct (bool_decide (p = ∅)); simula_simpl.
  - unfold passo_aguardar_acks, verificar_acks. proc_simpl.
    rewrite Hr, Hp. simula_simpl.
Qed.

(** The delivery of a request or an ack: [src/p2.py] also sends a nack
    with a deferral, which [rede_rel] leaves out. *)
Lemma simula_servidor esc m2 m1 s t :
  apagar_m m2 = apagar_m m1 -> apagar_s s = apagar_s t ->
  tipo m1 ≠ "nack" -> id m1 ∈ PROCESSOS.*1 ->
  simula (fun o (_ : unit) => o = None)
    (P2.processar_mensagem i PROCESSOS esc m2 s) (processar_mensagem i PROCESSOS m1 t).
Proof.
  intros Hm Hst Hn Hid. destruct (apagar_m_inv _ _ Hm) as (Ht & Hrc & Hi).
  destruct (apagar_s_inv _ _ Hst) as (Ho & Hf & Hr & He).
  destruct (decide (tipo m1 = "requisicao")) as [Hq|Hq].
  - rewrite P2.processar_requisicao2_eq, processar_requisicao_eq by congruence. cbv zeta.
    rewrite Ho, He, Hrc. destruct (recurso_ocupado t || _).
    + rewrite P2.enviar_nack_ok by congruence. simula_simpl.
    + P2.p2_comum. rewrite !enviar_ack_ok by congruence. simula_simpl.
      apply rede_rel_iguais; [by repeat constructor|]. cbv [apagar_e apagar_m msg_ack]; simpl. congruence.
  - rewrite P2.processar_nao_requisicao2_eq by congruence.
    rewrite (bool_decide_eq_false_2 (tipo m2 = "nack" /\ esc = "1")) by (rewrite Ht; naive_solver).
    destruct (decide (tipo m1 = "ack")) as [Ha|Ha].
    + rewrite !processar_ack_eq by congruence. cbv zeta. rewrite Hr, Hrc, Hi.
      destruct (respostas_esperadas t !! recurso m1); simula_simpl.
    + rewrite !processar_outro_eq by congruence. simula_simpl.
Qed.

(** The delivery of a nack: the clock only, and [aguardar_recurso] on the
    answer ["1"]. *)
Lemma servidor_nack esc m s :
  tipo m = "nack" ->
  let e := P2.processar_mensagem i PROCESSOS esc m s in
  resultado e = Ok (if bool_decide (esc = "1") then Some (recurso m) else None) /\
  apagar_s (estado_final e) = apagar_s s /\ saidas e = [].
Proof.
  intros Hn. rewrite P2.processar_nao_requisicao2_eq by (rewrite Hn; done).
  rewrite processar_outro_eq by (rewrite Hn; done). cbn. split_and!; [|done|done].
  by repeat case_bool_decide; naive_solver.
Qed.

(** A command other than [solicitar] of a busy resource: the command of
    [src/p1.py] does what the one of [src/p2.py] does, and then sends the
    messages [extra], the acks that p2's release leaves out. *)
Lemma simula_comando esc c s t :
  apagar_s s = apagar_s t -> Forall (fun q => id q ∈ PROCESSOS.*1) (fila_recurso t) ->
  (forall r, c = Solicitar r -> recurso_ocupado s = false) ->
  let e1 := passo_comando i PROCESSOS c t in
  exists o1 extra, saidas e1 = o1 ++ extra /\
    simula (fun a f => a = (f, None)) (P2.passo_comando i PROCESSOS esc c s)
      (mkExec (resultado e1) (estado_final e1) o1).
Proof.
  intros Hst Hids Hc e1. subst e1.
  destruct (apagar_s_inv _ _ Hst) as (Ho & Hf & Hr & He).
  destruct c as [r|r| |].
  - pose proof (Hc r eq_refl) as Hs.
    rewrite P2.passo_comando2_solicitar_eq, !passo_comando_solicitar_eq, <-Ho, Hs.
    cbv zeta. eexists _, []. rewrite app_nil_r. split; [done|]. simula_simpl.
    apply rede_rel_requisicoes.
  - assert (Hids2 : Forall (fun q => id q ∈ PROCESSOS.*1) (fila_recurso s))
      by (by apply (ids_fila_apagar _ _ _ Hf)).
    rewrite passo_comando_liberar_eq by done.
    unfold P2.passo_comando. pym_simpl. rewrite P2.sair_recurso_critico2_eq by done.
    rewrite Ho, He. destruct (_ && _); cbn.
    + rewrite <-(take_drop 1 (acks_da_fila _ _ _ _)).
      eexists _, _. split; [done|]. simula_simpl.
      rewrite app_nil_r, !take_acks_da_fila. apply rede_rel_acks. by rewrite !fmap_take, Hf.
    + eexists [], []. split; [done|]. simula_simpl.
  - eexists [], []. split; [done|]. simula_simpl.
  - eexists [], []. split; [done|]. simula_simpl.
Qed.

End Handlers.

(** ** The runs *)

(** A process of [src/p2.py] and one of [src/p1.py] with the same
    globals up to the clocks, the main thread at the same place and the
    same server. *)
Definition no_rel (n2 : No2) (n1 : No) : Prop :=
  apagar_s (estado2 n2) = apagar_s (estado n1) /\ fase2 n2 = fase n1 /\
  servidor_ativo2 n2 = servidor_ativo n1.

Definition rel (g2 : Global2) (g1 : Global) : Prop :=
  (forall k, no_rel (nos2 g2 k) (nos g1 k)) /\ rede_rel (rede2 g2) (rede g1).

Lemma nos_atualizar g i n o k :
  nos (atualizar g i n o) k = if bool_decide (k = i) then n else nos g k.
Proof. done. Qed.

(** A step of [src/p2.py] at the process [i], matched by a run of
    [src/p1.py] to [g1'] that changes no other process. *)
Lemma rel_atualizar g2 g1 g1' i n2 o2 ls :
  (forall k, no_rel (nos2 g2 k) (nos g1 k)) ->
  (forall k, k ≠ i -> nos g1' k = nos g1 k) ->
  no_rel n2 (nos g1' i) -> rede_rel (rede2 g2 ++ o2) (rede g1') ->
  rel (atualizar2 g2 i n2 o2 ls) g1'.
Proof.
  intros Hn Hout Hi Hr. split; [|done]. intros k. simpl.
  case_bool_decide as Hk; [by subst|]. rewrite Hout by done. apply Hn.
Qed.

(** The three ways a thread ends a step: [simula] fixes which. *)
Ltac no_rel_caso :=
  let Hres := fresh "Hres" in
  intros (? & ? & ?) (Hres & ? & _);
  unfold no2_apos_servidor, no_apos_servidor, no2_apos_comando, no2_apos_acks, no_apos_main;
  revert Hres; destruct (resultado _), (resultado _); intros Hres; try contradiction;
  try subst; unfold no_rel; simpl; split_and!; done.

Lemma no_rel_servidor n2 n1 e2 e1 :
  no_rel n2 n1 -> simula (fun o (_ : unit) => o = None) e2 e1 ->
  no_rel (no2_apos_servidor n2 e2) (no_apos_servidor n1 e1) /\
  aguardadores (no2_apos_servidor n2 e2) = aguardadores n2.
Proof. no_rel_caso. Qed.

Lemma no_rel_main n2 n1 e2 e1 :
  no_rel n2 n1 -> simula (fun a f => a = (f, None)) e2 e1 ->
  no_rel (no2_apos_comando n2 e2) (no_apos_main n1 e1) /\
  aguardadores (no2_apos_comando n2 e2) = aguardadores n2.
Proof. no_rel_caso. Qed.

Lemma no_rel_acks n2 n1 e2 e1 :
  no_rel n2 n1 -> simula eq e2 e1 ->
  no_rel (no2_apos_acks n2 e2) (no_apos_main n1 e1).
Proof. no_rel_caso. Qed.

Section Simulacao.
Context (PROCESSOS : list (string * (string * Z))).
Context (Hnodup : NoDup PROCESSOS.*1).

Abbreviation ids := (PROCESSOS.*1).

(** No process has an [aguardar_recurso] thread. *)
Definition sem_aguardador (g : Global2) : Prop :=
  forall k, k ∈ ids -> aguardadores (nos2 g k) = [].

(** The runs of [src/p2.py] in which no [aguardar_recurso] thread is
    ever started. *)
Definition passo_sem_aguardador (g g' : Global2) : Prop :=
  passo2 PROCESSOS g g' /\ sem_aguardador g'.

Definition alcancavel_sem_aguardador (g : Global2) : Prop :=
  rtc passo_sem_aguardador global2_inicial g.

(** The messages lost at the end of the network. *)
Lemma perder_fim n l x :
  rtc (passo PROCESSOS) (mkGlobal n (l ++ x)) (mkGlobal n l).
Proof.
  induction x as [|y x IH]; [rewrite app_nil_r; apply rtc_refl|].
  eapply rtc_l; [|exact IH]. by apply (ev_perda PROCESSOS (mkGlobal n (l ++ y :: x)) y l x).
Qed.

Lemma lancar_nao_vazio ag r : lancar ag (Some r) ≠ [].
Proof. simpl. by destruct ag. Qed.

(** The busy prompt of [src/p2.py] (lines 119-128): p2 asks at once,
    p1 answers the command and then the question; the answer "" keeps
    p1 at the prompt, as p2's answer other than "1" does. *)
Lemma sim_comando_ocupado g2 g1 i r esc :
  rel g2 g1 -> i ∈ ids -> fase2 (nos2 g2 i) = Prompt ->
  let s := estado2 (nos2 g2 i) in
  let e := P2.passo_comando i PROCESSOS esc (Solicitar r) s in
  let g2' := atualizar2 g2 i (no2_apos_comando (nos2 g2 i) e) (saidas e)
               (impressao_liberacao i (Solicitar r) s) in
  recurso_ocupado s = true -> sem_aguardador g2' ->
  exists g1', rtc (passo PROCESSOS) g1 g1' /\ rel g2' g1'.
Proof.
  intros [Hn Hr] Hi Hf s e g2' Ho Hsem'.
  destruct (Hn i) as (Hst & Hfi & Hsv).
  set (t := estado (nos g1 i)).
  assert (Hfase : fase (nos g1 i) = Prompt) by congruence.
  assert (Hesc : esc ≠ "1").
  { intros ->. pose proof (Hsem' i Hi) as Ha. subst g2' e.
    unfold atualizar2 in Ha. cbn [nos2] in Ha. rewrite bool_decide_eq_true_2 in Ha by done.
    unfold no2_apos_comando in Ha. rewrite P2.passo_comando2_solicitar_eq, Ho in Ha.
    by apply lancar_nao_vazio in Ha. }
  destruct (apagar_s_inv _ _ Hst) as (Ho' & _).
  assert (Hot : recurso_ocupado t = true) by (unfold t; rewrite <-Ho'; exact Ho).
  set (g1a := atualizar g1 i (mkNo t (EscolhaOcupado r) (servidor_ativo (nos g1 i))) []).
  assert (Hp1 : passo PROCESSOS g1 g1a).
  { pose proof (ev_comando PROCESSOS g1 i (Solicitar r) Hi Hfase) as Hp. cbv zeta in Hp.
    fold t in Hp. rewrite passo_comando_solicitar_eq, Hot in Hp. exact Hp. }
  assert (Hfa : fase (nos g1a i) = EscolhaOcupado r)
    by (unfold g1a; rewrite nos_atualizar, bool_decide_eq_true_2; done).
  exists (atualizar g1a i (mkNo (estado (nos g1a i)) (passo_escolha r "")
                                (servidor_ativo (nos g1a i))) []).
  split; [eapply rtc_l; [exact Hp1|apply rtc_once, ev_resposta; done]|].
  subst g2' e. apply (rel_atualizar _ g1); [done| | |].
  + intros k Hk. unfold g1a. rewrite !nos_atualizar. by rewrite !bool_decide_eq_false_2.
  + unfold g1a. rewrite !nos_atualizar, !bool_decide_eq_true_2 by done.
    unfold no2_apos_comando.
    rewrite P2.passo_comando2_solicitar_eq, Ho, bool_decide_eq_false_2 by done.
    unfold no_rel. cbn. split_and!; [exact Hst|done|exact Hsv].
  + unfold g1a. cbn [rede2 atualizar2 rede atualizar].
    rewrite P2.passo_comando2_solicitar_eq, Ho. cbn [saidas]. by rewrite !List.app_nil_r.
Qed.

Lemma sim_comando g2 g1 i c esc :
  Seguranca.Inv PROCESSOS g1 -> rel g2 g1 -> i ∈ ids -> fase2 (nos2 g2 i) = Prompt ->
  let s := estado2 (nos2 g2 i) in
  let e := P2.passo_comando i PROCESSOS esc c s in
  let g2' := atualizar2 g2 i (no2_apos_comando (nos2 g2 i) e) (saidas e)
               (impressao_liberacao i c s) in
  sem_aguardador g2 -> sem_aguardador g2' ->
  exists g1', rtc (passo PROCESSOS) g1 g1' /\ rel g2' g1'.
Proof.
  intros HI [Hn Hr] Hi Hf s e g2' Hsem Hsem'.
  destruct (Hn i) as (Hst & Hfi & Hsv).
  set (t := estado (nos g1 i)).
  assert (Hfase : fase (nos g1 i) = Prompt) by congruence.
  assert ((exists r, c = Solicitar r /\ recurso_ocupado s = true) \/
          (forall r, c = Solicitar r -> recurso_ocupado s = false)) as [(r & -> & Ho)|Hc].
  { destruct c as [r| | |]; try (right; congruence).
    destruct (recurso_ocupado s) eqn:?; [left; eauto|right; congruence]. }
  - by apply sim_comando_ocupado.
  - destruct (simula_comando i PROCESSOS esc c s t Hst (Seguranca.fila_nos_ids PROCESSOS g1 i HI) Hc)
      as (o1 & extra & Ho1 & Hsim).
    set (e1 := passo_comando i PROCESSOS c t) in *.
    exists (mkGlobal (nos (atualizar g1 i (no_apos_main (nos g1 i) e1) (saidas e1)))
              (rede g1 ++ o1)).
    split.
    + eapply rtc_l; [by apply (ev_comando PROCESSOS g1 i c)|].
      unfold atualizar at 1. change (passo_comando i PROCESSOS c (estado (nos g1 i))) with e1.
      rewrite Ho1, app_assoc. apply perder_fim.
    + subst g2'. apply (rel_atualizar _ g1); [done| | |].
      * intros k Hk. simpl. by rewrite bool_decide_eq_false_2.
      * simpl. rewrite bool_decide_eq_true_2 by done.
        apply (no_rel_main _ _ e (mkExec (resultado e1) (estado_final e1) o1)); [done|].
        exact Hsim.
      * apply rede_rel_app; [done|apply Hsim].
Qed.

(** The delivery of a message, not a nack, that the network of
    [src/p1.py] holds as [(i, m1)]. *)
Lemma sim_entrega g2 g1 i m m1 l1 l2 L1 L2 esc :
  Seguranca.Inv PROCESSOS g1 -> (forall k, no_rel (nos2 g2 k) (nos g1 k)) ->
  rede g1 = L1 ++ (i, m1) :: L2 -> rede_rel (l1 ++ l2) (L1 ++ L2) ->
  apagar_m m = apagar_m m1 ->
  i ∈ ids -> fase2 (nos2 g2 i) ≠ Encerrado -> servidor_ativo2 (nos2 g2 i) = true ->
  let e := P2.processar_objeto i PROCESSOS esc (para_objeto m) (estado2 (nos2 g2 i)) in
  let g2' := atualizar2 (mkGlobal2 (nos2 g2) (l1 ++ l2) (impressos g2)) i
               (no2_apos_servidor (nos2 g2 i) e) (saidas e) [] in
  exists g1', rtc (passo PROCESSOS) g1 g1' /\ rel g2' g1'.
Proof.
  intros HI Hn HL Hrest Hm Hi Hf Hs e g2'.
  destruct (Hn i) as (Hst & Hfi & Hsv).
  destruct (Seguranca.inv_rede _ _ HI (i, m1)) as (_ & Hid & _ & Htipo).
  { rewrite HL. apply elem_of_app. right. by left. }
  set (e1 := processar_objeto i PROCESSOS (para_objeto m1) (estado (nos g1 i))).
  assert (Hsim : simula (fun o (_ : unit) => o = None) e e1).
  { subst e e1. rewrite P2.processar_objeto2_para_objeto, processar_objeto_para_objeto.
    apply simula_servidor; [done|done| |done]. cbn in Htipo. by destruct Htipo as [-> | ->]. }
  exists (atualizar (mkGlobal (nos g1) (L1 ++ L2)) i (no_apos_servidor (nos g1 i) e1) (saidas e1)).
  split.
  - apply rtc_once. apply (ev_entrega PROCESSOS g1 i m1 L1 L2); congruence.
  - apply (rel_atualizar _ g1); [done| | |].
    + intros k Hk. simpl. by rewrite bool_decide_eq_false_2.
    + rewrite nos_atualizar, bool_decide_eq_true_2 by done. by apply no_rel_servidor.
    + apply rede_rel_app; [done|apply Hsim].
Qed.

(** Every step of a run without [aguardar_recurso] threads is matched by
    a run of [src/p1.py]. *)
Lemma sim_passo g2 g1 g2' :
  Seguranca.Inv PROCESSOS g1 -> rel g2 g1 -> sem_aguardador g2 ->
  passo2 PROCESSOS g2 g2' -> sem_aguardador g2' ->
  exists g1', rtc (passo PROCESSOS) g1 g1' /\ rel g2' g1'.
Proof.
  intros HI Hrel Hsem Hstep Hsem'. pose proof Hrel as [Hn Hr].
  destruct Hstep as [g i c esc Hi Hf s e|g i r Hi Hf e|g i k f Hi Hf Hk e
                    |g i m l1 l2 esc Hr2 Hi Hf Hs e|g x l1 l2 Hr2].
  - by apply sim_comando.
  - destruct (Hn i) as (Hst & Hfi & _).
    pose proof (simula_acks r _ _ Hst) as Hsim.
    exists (atualizar g1 i (no_apos_main (nos g1 i) (passo_aguardar_acks r (estado (nos g1 i))))
              (saidas (passo_aguardar_acks r (estado (nos g1 i))))).
    split; [apply rtc_once, ev_acks; congruence|].
    apply (rel_atualizar _ g1); [done| | |].
    + intros k Hk. simpl. by rewrite bool_decide_eq_false_2.
    + rewrite nos_atualizar, bool_decide_eq_true_2 by done. by apply no_rel_acks.
    + apply rede_rel_app; [done|apply Hsim].
  - by rewrite (Hsem i Hi) in Hk.
  - rewrite Hr2 in Hr. destruct (decide (tipo m = "nack")) as [Hnack|Hnack].
    + destruct (servidor_nack i PROCESSOS esc m (estado2 (nos2 g i)) Hnack) as (Hres & Hst & Hout).
      rewrite <-P2.processar_objeto2_para_objeto in Hres, Hst, Hout. fold e in Hres, Hst, Hout.
      assert (Hesc : esc ≠ "1").
      { intros ->. pose proof (Hsem' i Hi) as Ha. cbn [nos2 atualizar2] in Ha.
        rewrite bool_decide_eq_true_2 in Ha by done. unfold no2_apos_servidor in Ha.
        rewrite Hres, bool_decide_eq_true_2 in Ha by done. by apply lancar_nao_vazio in Ha. }
      exists g1. split; [apply rtc_refl|].
      apply (rel_atualizar _ g1); [done|done| |].
      * destruct (Hn i) as (Hs0 & Hfi & Hsv). unfold no2_apos_servidor.
        rewrite Hres, bool_decide_eq_false_2 by done. unfold no_rel. simpl. split_and!; congruence.
      * rewrite Hout, List.app_nil_r. by apply (rede_rel_nack l1 (i, m) l2).
    + destruct (rede_rel_meio _ _ _ _ Hr Hnack) as (L1 & [j m1] & L2 & HL & Hy & Hrest).
      assert (j = i /\ apagar_m m = apagar_m m1) as [-> Hm]
        by (inversion Hy; unfold apagar_m; split; congruence).
      by apply (sim_entrega g g1 i m m1 l1 l2 L1 L2 esc).
  - rewrite Hr2 in Hr. destruct (decide (tipo x.2 = "nack")) as [Hnack|Hnack].
    + exists g1. split; [apply rtc_refl|]. split; [done|]. by apply (rede_rel_nack l1 x l2).
    + destruct (rede_rel_meio _ _ _ _ Hr Hnack) as (L1 & y & L2 & HL & _ & Hrest).
      exists (mkGlobal (nos g1) (L1 ++ L2)).
      split; [by apply rtc_once, (ev_perda PROCESSOS g1 y L1 L2)|]. by split.
Qed.

(** Every run of [src/p2.py] without [aguardar_recurso] threads is
    matched by a reachable run of [src/p1.py]. *)
Lemma sim_alcancavel g2 :
  alcancavel_sem_aguardador g2 ->
  sem_aguardador g2 /\ exists g1, alcancavel PROCESSOS g1 /\ rel g2 g1.
Proof.
  revert g2. apply rtc_ind_r.
  - split; [by intros k _|]. exists global_inicial.
    split; [apply rtc_refl|]. split; [|done]. intros k. by unfold no_rel.
  - intros g2 g2' _ [Hp Hsem'] [Hsem (g1 & Hg1 & Hrel)]. split; [done|].
    destruct (sim_passo g2 g1 g2' (Seguranca.inv_alcancavel PROCESSOS Hnodup g1 Hg1)
                Hrel Hsem Hp Hsem') as (g1' & Hrtc & Hrel').
    exists g1'. split; [|done]. unfold alcancavel in *. by etrans.
Qed.

(** The process [i] holds [r]. *)
Definition detem2 (g : Global2) (i r : string) : Prop :=
  recurso_ocupado (estado2 (nos2 g i)) = true /\
  esperando_recurso (estado2 (nos2 g i)) = Some r.

(** C5: without [aguardar_recurso] threads, [src/p2.py] keeps mutual
    exclusion.  In every state reachable by a run of processes of
    [src/p2.py] in which no process ever has an [aguardar_recurso] thread,
    no two distinct processes hold the same resource.  With
    [P2Sistema.exclusao_mutua_violada_p2], this locates the loss of mutual
    exclusion in those threads: the nacks and the release that acks only
    the first deferred request do not break it. *)
Theorem exclusao_mutua_p2_sem_aguardador g i j r :
  alcancavel_sem_aguardador g -> i ∈ ids -> j ∈ ids -> i ≠ j ->
  ~ (detem2 g i r /\ detem2 g j r).
Proof.
  intros Hg Hi Hj Hij [[Hoi Hei] [Hoj Hej]].
  destruct (sim_alcancavel g Hg) as (_ & g1 & Hg1 & Hn & _).
  destruct (apagar_s_inv _ _ (proj1 (Hn i))) as (Hoi' & _ & _ & Hei').
  destruct (apagar_s_inv _ _ (proj1 (Hn j))) as (Hoj' & _ & _ & Hej').
  apply (Seguranca.inv_detem_exclusivo PROCESSOS Hnodup g1 i j r
           (Seguranca.inv_alcancavel PROCESSOS Hnodup g1 Hg1) Hi Hj Hij).
  unfold Seguranca.detem, Seguranca.est. split; split; congruence.
Qed.

End Simulacao.

(** ** Concrete runs without [aguardar_recurso] threads

    [executar_evento_sem] runs one event of [P2Sistema.executar_evento2]
    and refuses it when a process is left with an [aguardar_recurso]
    thread. *)

Section Escalonador.
Context (PROCESSOS : list (string * (string * Z))).

Definition executar_evento_sem (g : Global2) (ev : Evento2) : option Global2 :=
  match executar_evento2 PROCESSOS g ev with
  | Some g' =>
      if bool_decide (Forall (fun k => aguardadores (nos2 g' k) = []) (PROCESSOS.*1))
      then Some g' else None
  | None => None
  end.

Lemma executar_sem_rtc g evs g' :
  executar_lista executar_evento_sem g evs = Some g' ->
  rtc (passo_sem_aguardador PROCESSOS) g g'.
Proof.
  apply executar_lista_rtc. intros g0 ev g2. unfold executar_evento_sem.
  destruct (executar_evento2 PROCESSOS g0 ev) as [g1|] eqn:He; [|done].
  case_bool_decide as Hall; [|done]. intros [= <-]. split.
  - by apply (executar_passo2 PROCESSOS g0 ev).
  - intros k Hk. by apply (proj1 (Forall_forall _ _) Hall).
Qed.

Lemma executar_sem_alcancavel evs g :
  executar_lista executar_evento_sem global2_inicial evs = Some g ->
  alcancavel_sem_aguardador PROCESSOS g.
Proof. apply executar_sem_rtc. Qed.

End Escalonador.

(** p1 takes r1; p2 then requests r1, p1 defers it and answers with a
    nack, p3 acks, p2 answers "2" to the nack and gets p3's ack. *)
Definition execucao_nack : list Evento2 :=
  [Ev2Comando "p1" (Solicitar "r1") ""; Ev2Entrega 0 ""; Ev2Entrega 0 "";
   Ev2Entrega 0 ""; Ev2Entrega 0 ""; Ev2Acks "p1";
   Ev2Comando "p2" (Solicitar "r1") ""; Ev2Entrega 0 ""; Ev2Entrega 0 "";
   Ev2Entrega 0 "2"; Ev2Entrega 0 ""].

Definition g_nack : Global2 :=
  default global2_inicial
    (executar_lista (executar_evento_sem P2.PROCESSOS_P2) global2_inicial execucao_nack).

(** Witness: in that run p1 holds r1, p2 waits for it with p1's ack
    pending, and p2 does not hold it. *)
Example exclusao_mutua_p2_sem_aguardador_exemplo :
  detem2 g_nack "p1" "r1" /\
  respostas_esperadas (estado2 (nos2 g_nack "p2")) !! "r1" = Some {["p1"]} /\
  ~ (detem2 g_nack "p1" "r1" /\ detem2 g_nack "p2" "r1").
Proof.
  split_and!; [split; vm_compute; reflexivity|vm_compute; reflexivity|].
  apply (exclusao_mutua_p2_sem_aguardador P2.PROCESSOS_P2); [decidir| |decidir|decidir|decidir].
  apply (executar_sem_alcancavel _ execucao_nack). vm_compute. reflexivity.
Defined.

End SimulacaoP2.
