(* ===== verification/Processo2Sistema.v ===== *)
(** * Processo2Sistema: runs of [src/processo2.py], and engines in general

    The threads of [src/processo2.py] are those of [src/p1.py]: a daemon
    [servidor] (lines 126-136) that handles each received message, and
    [interface_usuario] (lines 139-151) in the main thread (lines
    154-156), which blocks at the prompt of [entrar_recurso_critico]
    (lines 67-79), in its [while recurso_ocupado] loop (lines 74-76) and in
    its wait for the acks (lines 84-86).

    What the threads need of the protocol is an engine: the record
    [Motor] of the five handlers they call.  [passo_motor mot] is the step
    relation of a run whose processes run the engine [mot], over the
    [Global] states of [Sistema].  [motor_p1] is the engine of [src/p1.py]
    and [motor_processo2] that of [src/processo2.py].

    - [passo_motor_p1] shows that [passo_motor motor_p1] is the step
      relation [Sistema.passo];
    - [passo_motor_ext] shows that two engines whose handlers agree on
      every input have the same runs;
    - [motores_iguais] discharges that law for [motor_processo2] and
      [motor_p1] (the equalities of [Processo2]).
    So the runs of [src/processo2.py] are those of [src/p1.py], and
    [exclusao_mutua_processo2] is mutual exclusion for them. *)

From S2P Require Import Prelude Relogio Mensagem Processo Processo2 Sistema Seguranca.
Import Mensagem Processo Sistema.

Module Processo2Sistema.

#[local] Open Scope Z_scope.

(** The handlers a process's threads call, for the process [i]. *)
Record Motor := {
  motor_comando : string -> Comando -> M Fase;
  motor_escolha : string -> string -> Fase;
  motor_liberacao : string -> string -> M Fase;
  motor_acks : string -> M Fase;
  motor_objeto : string -> Objeto -> M unit
}.

(** Two engines whose handlers agree on every input. *)
Definition motores_equivalentes (m1 m2 : Motor) : Prop :=
  (forall i c s, motor_comando m1 i c s = motor_comando m2 i c s) /\
  (forall r esc, motor_escolha m1 r esc = motor_escolha m2 r esc) /\
  (forall i r s, motor_liberacao m1 i r s = motor_liberacao m2 i r s) /\
  (forall r s, motor_acks m1 r s = motor_acks m2 r s) /\
  (forall i o s, motor_objeto m1 i o s = motor_objeto m2 i o s).

(** Lines 72-79: the operator's answer at the prompt of line 71; ["1"]
    waits for the release, anything else gives up. *)
Definition passo_escolha2 (recurso escolha : string) : Fase :=
  if bool_decide (escolha = "1") then AguardandoLiberacao recurso else Prompt.

Section Passos.
Context (PROCESSOS : list (string * (string * Z))).

Definition motor_p1 : Motor := {|
  motor_comando i := passo_comando i PROCESSOS;
  motor_escolha := passo_escolha;
  motor_liberacao i := passo_aguardar_liberacao i PROCESSOS;
  motor_acks := passo_aguardar_acks;
  motor_objeto i := processar_objeto i PROCESSOS
|}.

Definition motor_processo2 : Motor := {|
  motor_comando i := Processo2.passo_comando i PROCESSOS;
  motor_escolha := passo_escolha2;
  motor_liberacao i := Processo2.passo_aguardar_liberacao i PROCESSOS;
  motor_acks := Processo2.passo_aguardar_acks;
  motor_objeto i := Processo2.processar_objeto i PROCESSOS
|}.

(** The threads of a process running the engine [mot]: a command at the
    prompt, the answer at the busy prompt, one iteration of each polling
    loop, the delivery of a message to the server, the loss of a
    message. *)
Inductive passo_motor (mot : Motor) : Global -> Global -> Prop :=
| pm_comando g i c :
    i ∈ PROCESSOS.*1 ->
    fase (nos g i) = Prompt ->
    let e := motor_comando mot i c (estado (nos g i)) in
    passo_motor mot g (atualizar g i (no_apos_main (nos g i) e) (saidas e))
| pm_resposta g i r escolha :
    i ∈ PROCESSOS.*1 ->
    fase (nos g i) = EscolhaOcupado r ->
    passo_motor mot g (atualizar g i
      (mkNo (estado (nos g i)) (motor_escolha mot r escolha) (servidor_ativo (nos g i))) [])
| pm_liberacao g i r :
    i ∈ PROCESSOS.*1 ->
    fase (nos g i) = AguardandoLiberacao r ->
    let e := motor_liberacao mot i r (estado (nos g i)) in
    passo_motor mot g (atualizar g i (no_apos_main (nos g i) e) (saidas e))
| pm_acks g i r :
    i ∈ PROCESSOS.*1 ->
    fase (nos g i) = AguardandoAcks r ->
    let e := motor_acks mot r (estado (nos g i)) in
    passo_motor mot g (atualizar g i (no_apos_main (nos g i) e) (saidas e))
| pm_entrega g i m l1 l2 :
    rede g = l1 ++ (i, m) :: l2 ->
    i ∈ PROCESSOS.*1 ->
    fase (nos g i) ≠ Encerrado ->
    servidor_ativo (nos g i) = true ->
    let e := motor_objeto mot i (para_objeto m) (estado (nos g i)) in
    passo_motor mot g (atualizar (mkGlobal (nos g) (l1 ++ l2)) i
                         (no_apos_servidor (nos g i) e) (saidas e))
| pm_perda g x l1 l2 :
    rede g = l1 ++ x :: l2 ->
    passo_motor mot g (mkGlobal (nos g) (l1 ++ l2)).

Definition alcancavel_motor (mot : Motor) (g : Global) : Prop :=
  rtc (passo_motor mot) global_inicial g.

(** A run of processes of [src/processo2.py]. *)
Definition alcancavel_o2 : Global -> Prop := alcancavel_motor motor_processo2.

(** ** Laws *)

Ltac subst_lets := repeat match goal with e := _ |- _ => subst e end.

Lemma passo_motor_ext m1 m2 g g' :
  motores_equivalentes m1 m2 -> passo_motor m1 g g' -> passo_motor m2 g g'.
Proof.
  intros (Hc & Hs & Hl & Ha & Ho) Hp. destruct Hp; subst_lets.
  - rewrite !Hc. by apply pm_comando.
  - rewrite Hs. by apply pm_resposta.
  - rewrite !Hl. by apply pm_liberacao.
  - rewrite !Ha. by apply pm_acks.
  - rewrite !Ho. by eapply pm_entrega.
  - by eapply pm_perda.
Qed.

Lemma motores_equivalentes_sym m1 m2 :
  motores_equivalentes m1 m2 -> motores_equivalentes m2 m1.
Proof. intros (Hc & Hs & Hl & Ha & Ho). split_and!; congruence. Qed.

Lemma rtc_motor_ext m1 m2 g g' :
  motores_equivalentes m1 m2 -> rtc (passo_motor m1) g g' -> rtc (passo_motor m2) g g'.
Proof.
  intros He. induction 1 as [|x y z Hp _ IH]; [done|].
  eapply rtc_l; [|exact IH]. by eapply passo_motor_ext.
Qed.

Lemma passo_motor_p1 g g' : passo_motor motor_p1 g g' <-> passo PROCESSOS g g'.
Proof.
  split; intros Hp; destruct Hp; subst_lets.
  - by apply ev_comando.
  - by apply ev_resposta.
  - by apply ev_liberacao.
  - by apply ev_acks.
  - by eapply ev_entrega.
  - by eapply ev_perda.
  - by apply (pm_comando motor_p1).
  - by apply (pm_resposta motor_p1).
  - by apply (pm_liberacao motor_p1).
  - by apply (pm_acks motor_p1).
  - by eapply (pm_entrega motor_p1).
  - by eapply (pm_perda motor_p1).
Qed.

Lemma rtc_motor_p1 g g' : rtc (passo_motor motor_p1) g g' <-> rtc (passo PROCESSOS) g g'.
Proof.
  split; induction 1 as [|x y z Hp _ IH]; [done| |done|];
    eapply rtc_l; [|exact IH| |exact IH]; by apply passo_motor_p1.
Qed.

(** The engine of [src/processo2.py] is the engine of [src/p1.py]. *)
Lemma motores_iguais : motores_equivalentes motor_processo2 motor_p1.
Proof.
  split_and!; simpl.
  - exact (fun i => Processo2.passo_comando_igual i PROCESSOS).
  - done.
  - exact (fun i => Processo2.passo_aguardar_liberacao_igual i PROCESSOS).
  - exact Processo2.passo_aguardar_acks_igual.
  - exact (fun i => Processo2.processar_objeto_igual i PROCESSOS).
Qed.

Lemma alcancavel_o2_iff g : alcancavel_o2 g <-> alcancavel PROCESSOS g.
Proof.
  unfold alcancavel_o2, alcancavel_motor, alcancavel. rewrite <-rtc_motor_p1.
  split; apply rtc_motor_ext;
    [apply motores_iguais|apply motores_equivalentes_sym, motores_iguais].
Qed.

End Passos.

(** C7: mutual exclusion for [src/processo2.py].  In every state of a run
    of processes of [src/processo2.py] with distinct ids, no two of them
    hold the same resource. *)
Theorem exclusao_mutua_processo2 PROCESSOS (Hnodup : NoDup PROCESSOS.*1) g i j r :
  alcancavel_o2 PROCESSOS g -> i ∈ PROCESSOS.*1 -> j ∈ PROCESSOS.*1 -> i ≠ j ->
  ~ (Seguranca.detem g i r /\ Seguranca.detem g j r).
Proof.
  intros Ha. apply (Seguranca.inv_detem_exclusivo PROCESSOS Hnodup).
  apply (Seguranca.inv_alcancavel PROCESSOS Hnodup), alcancavel_o2_iff, Ha.
Qed.

(** A run of the three processes of [src/processo2.py] in which
    "processo1" acquires r1. *)
Definition execucao_o2 : list Evento :=
  [EvComando "processo1" (Solicitar "r1"); EvEntrega 0; EvEntrega 0; EvEntrega 0;
   EvEntrega 0; EvIteracao "processo1"].

Definition g_o2 : Global :=
  default global_inicial (executar Processo2.PROCESSOS2 global_inicial execucao_o2).

Example exclusao_mutua_processo2_exemplo :
  Seguranca.detem g_o2 "processo1" "r1" /\
  ~ (Seguranca.detem g_o2 "processo1" "r1" /\ Seguranca.detem g_o2 "processo2" "r1").
Proof.
  split; [split; vm_compute; reflexivity|].
  apply (exclusao_mutua_processo2 Processo2.PROCESSOS2); [decidir| |decidir|decidir|discriminate].
  apply alcancavel_o2_iff, (executar_alcancavel _ execucao_o2). vm_compute. reflexivity.
Defined.

End Processo2Sistema.
