(* ===== verification/Impasse.v ===== *)
(** * Impasse: the runs of [src/p1.py] that never make progress

    Two ways a run of the processes of [src/p1.py] blocks for ever:
    - two processes request the same resource at the same time.  Each
      receives the other's request while [esperando_recurso] names that
      resource, and [processar_mensagem] defers it, because the priority
      test of line 160 is always true.  Neither sends the ack the other
      waits for, so neither leaves [AguardandoAcks]
      ([impasse_pedidos_cruzados]).  The proof keeps, for each side of the
      pair, the predicate [lado]: the side waits for [r] with the other
      still pending, no ack of the other is in flight to it, and its
      requests in flight to the other are for [r].  [lado_passo] shows that
      every rule of [passo] keeps both sides, from the facts on what each
      step sends ([saidas_comando_de], [saidas_entrega], ...);
    - a process holding a resource asks for a resource again and answers
      ["1"] at the prompt of line 108.  The [while recurso_ocupado] of line
      111 then spins in the only thread that could release it
      ([espera_liberacao_permanente]).
    Concrete runs reaching both situations are computed by the scheduler of
    [Sistema]. *)

From S2P Require Import Prelude Relogio Mensagem Processo Sistema Seguranca.
Import Mensagem Processo Sistema Seguranca.

Module Impasse.

(** [i] spins in the loop of line 111 waiting for [r], with
    [recurso_ocupado] set and [esp] as the resource it holds. *)
Definition preso (g : Global) (i r : string) (esp : option string) : Prop :=
  fase (nos g i) = AguardandoLiberacao r /\ recurso_ocupado (est g i) = true /\
  esperando_recurso (est g i) = esp.

Section Impasses.
Context (PROCESSOS : list (string * (string * Z))).
Context (Hnodup : NoDup PROCESSOS.*1).

(** A process spinning in [while recurso_ocupado] keeps the resource and
    stays in the loop: the server thread never clears the flag. *)
Lemma liberacao_passo g g' k r :
  passo PROCESSOS g g' -> fase (nos g k) = AguardandoLiberacao r ->
  recurso_ocupado (est g k) = true ->
  fase (nos g' k) = AguardandoLiberacao r /\ recurso_ocupado (est g' k) = true /\
  esperando_recurso (est g' k) = esperando_recurso (est g k).
Proof.
  intros Hstep Hk Ho. destruct Hstep as
    [g i c Hi Hf e|g i r' esc Hi Hf|g i r' Hi Hf e|g i r' Hi Hf e|g i m l1 l2 Hr Hi Hf Hs e
    |g x l1 l2 Hr]; try subst e; rewrite ?est_atualizar, ?fase_atualizar; try done.
  all: case_bool_decide; [subst k|done]; autorewrite with mutex_rw; try congruence.
  - rewrite Hk in Hf. injection Hf as <-. unfold est in Ho.
    by rewrite passo_aguardar_liberacao_ocupado.
  - destruct (processar_objeto_locais i PROCESSOS (para_objeto m) (estado (nos g i)))
      as (H1 & H2 & _). rewrite H1, H2. done.
Qed.

(** ** Who sends what

    Every message that a step of process [i] sends carries [id = i]; the
    server thread sends only acks, and only for a request that it does not
    defer. *)

Lemma saidas_comando_de i c s e :
  Forall (fun q => id q ∈ PROCESSOS.*1) (fila_recurso s) ->
  e ∈ saidas (passo_comando i PROCESSOS c s) -> id e.2 = i.
Proof.
  intros Hids. destruct c as [r|r| |].
  - rewrite passo_comando_solicitar_eq. destruct (recurso_ocupado s); simpl;
      [by intros ?%elem_of_nil|]. by intros (d & -> & _)%list_elem_of_fmap.
  - rewrite passo_comando_liberar_eq by done. destruct (_ && _); simpl;
      [|by intros ?%elem_of_nil]. by intros (q & c' & _ & ->)%acks_da_fila_elem.
  - by intros ?%elem_of_nil.
  - by intros ?%elem_of_nil.
Qed.

Lemma saidas_liberacao_de i r s e :
  e ∈ saidas (passo_aguardar_liberacao i PROCESSOS r s) -> id e.2 = i.
Proof.
  unfold passo_aguardar_liberacao. proc_simpl.
  destruct (recurso_ocupado s) eqn:Ho; [by intros ?%elem_of_nil|].
  rewrite entrar_recurso_critico_eq, Ho. simpl. rewrite app_nil_r.
  by intros (d & -> & _)%list_elem_of_fmap.
Qed.

Lemma saidas_acks_vazias r s : saidas (passo_aguardar_acks r s) = [].
Proof.
  destruct (respostas_esperadas s !! r) as [p|] eqn:Hp.
  - rewrite (passo_aguardar_acks_eq r s p Hp). by case_bool_decide.
  - unfold passo_aguardar_acks, verificar_acks. proc_simpl. by rewrite Hp.
Qed.

(** The server thread answers a request with an ack to its sender, and
    only when it neither holds a resource nor requests that one. *)
Lemma saidas_entrega i m s e :
  e ∈ saidas (processar_objeto i PROCESSOS (para_objeto m) s) ->
  e.1 = id m /\ id e.2 = i /\ tipo e.2 = "ack" /\ tipo m = "requisicao" /\
  recurso_ocupado s = false /\ esperando_recurso s ≠ Some (recurso m).
Proof.
  rewrite processar_objeto_para_objeto.
  destruct (decide (tipo m = "requisicao")) as [Hr|Hr];
    [|destruct (decide (tipo m = "ack")) as [Ha|Ha]].
  - rewrite processar_requisicao_eq by done. cbv zeta.
    destruct (recurso_ocupado s) eqn:Ho; [by intros ?%elem_of_nil|].
    case_bool_decide as He; [by intros ?%elem_of_nil|]. simpl.
    destruct (decide (id m ∈ PROCESSOS.*1)).
    + rewrite enviar_ack_ok by done. intros ->%list_elem_of_singleton. done.
    + rewrite enviar_ack_erro by done. by intros ?%elem_of_nil.
  - rewrite processar_ack_eq by done. by intros ?%elem_of_nil.
  - rewrite processar_outro_eq by done. by intros ?%elem_of_nil.
Qed.

(** The server thread removes at most the sender of an ack from a pending
    set. *)
Lemma respostas_entrega i m s x p :
  respostas_esperadas s !! x = Some p ->
  exists p', respostas_esperadas
               (estado_final (processar_objeto i PROCESSOS (para_objeto m) s)) !! x = Some p' /\
    forall y, y ∈ p -> (tipo m = "ack" -> y ≠ id m) -> y ∈ p'.
Proof.
  intros Hp. rewrite processar_objeto_para_objeto.
  destruct (decide (tipo m = "requisicao")) as [Hr|Hr];
    [|destruct (decide (tipo m = "ack")) as [Ha|Ha]].
  - rewrite processar_requisicao_eq by done. cbv zeta.
    destruct (_ || _); [by exists p|]. rewrite enviar_ack_estado. by exists p.
  - rewrite processar_ack_eq by done. simpl.
    destruct (respostas_esperadas s !! recurso m) as [q|] eqn:Hq; [|by exists p].
    simpl. destruct (decide (x = recurso m)) as [->|Hne].
    + rewrite lookup_insert_eq. eexists; split; [done|].
      rewrite Hq in Hp. injection Hp as ->. set_solver.
    + rewrite lookup_insert_ne by done. by exists p.
  - rewrite processar_outro_eq by done. by exists p.
Qed.

(** One side of two crossed requests for [r]: [a] waits for the acks of
    [r] with [b] still pending, no ack of [b] to [a] is in flight, and every
    request of [a] to [b] in flight is for [r]. *)
Definition lado (g : Global) (a b r : string) : Prop :=
  fase (nos g a) = AguardandoAcks r /\
  (exists p, respostas_esperadas (est g a) !! r = Some p /\ b ∈ p) /\
  (forall e, e ∈ rede g -> eh_ack b a e = false) /\
  (forall e, e ∈ rede g -> eh_req a b e = true -> recurso e.2 = r).

Lemma lado_atualizar g g0 i n outs a b r :
  lado g a b r -> nos g0 = nos g -> (forall e, e ∈ rede g0 -> e ∈ rede g) ->
  (forall e, e ∈ outs -> eh_ack b a e = false /\ eh_req a b e = false) ->
  (i ≠ a \/ (fase n = AguardandoAcks r /\
              exists p, respostas_esperadas (estado n) !! r = Some p /\ b ∈ p)) ->
  lado (atualizar g0 i n outs) a b r.
Proof.
  intros (Hf & Hp & Hack & Hreq) Hnos Hsub Houts Hi.
  unfold lado. rewrite fase_atualizar, est_atualizar. unfold est. rewrite Hnos.
  refine (conj _ (conj _ (conj _ _))).
  - case_bool_decide; [subst; naive_solver|done].
  - case_bool_decide; [subst; naive_solver|done].
  - simpl. intros e [He|He]%elem_of_app; [by apply Hack, Hsub|by apply Houts].
  - simpl. intros e [He|He]%elem_of_app Hr; [apply Hreq; [by apply Hsub|done]|].
    by rewrite (proj2 (Houts e He)) in Hr.
Qed.

Lemma de_outro a b i e :
  id e.2 = i -> i ≠ a -> i ≠ b -> eh_ack b a e = false /\ eh_req a b e = false.
Proof.
  intros Hid Ha Hb. unfold eh_ack, eh_req.
  split; apply bool_decide_eq_false_2; naive_solver.
Qed.

Lemma lado_passo g g' a b r :
  Inv PROCESSOS g -> lado g a b r -> lado g b a r -> passo PROCESSOS g g' -> lado g' a b r.
Proof.
  intros HI La Lb Hstep.
  pose proof La as (Ha & Hpa & Hacka & Hreqa). pose proof Lb as (Hb & _ & _ & _).
  destruct (inv_aguardando _ _ HI b r Hb) as [Heb _].
  destruct Hstep as
    [g i c Hi Hf e|g i r' esc Hi Hf|g i r' Hi Hf e|g i r' Hi Hf e|g i m l1 l2 Hr Hi Hf Hs e
    |g x l1 l2 Hr]; try subst e.
  - apply (lado_atualizar g); [done|done|done| |left; congruence].
    intros e He. apply (de_outro a b i); [|congruence..].
    eapply saidas_comando_de; [apply (fila_nos_ids _ g i HI)|exact He].
  - apply (lado_atualizar g); [done..| |left; congruence]. by intros ? ?%elem_of_nil.
  - apply (lado_atualizar g); [done|done|done| |left; congruence].
    intros e He. apply (de_outro a b i); [|congruence..].
    by eapply saidas_liberacao_de.
  - apply (lado_atualizar g); [done|done|done| |].
    { intros e. rewrite saidas_acks_vazias. by intros ?%elem_of_nil. }
    destruct (decide (i = a)) as [->|]; [right|by left].
    rewrite Ha in Hf. injection Hf as <-. destruct Hpa as (p & Hp & Hbp).
    unfold est in Hp. rewrite (passo_aguardar_acks_eq r _ p Hp).
    rewrite bool_decide_eq_false_2 by set_solver. simpl. eauto.
  - assert (Hm : (i, m) ∈ rede g) by (rewrite Hr; set_solver).
    apply (lado_atualizar g); [done|done|intros e' He'; rewrite Hr; set_solver| |].
    + intros e He. apply saidas_entrega in He as (H1 & H2 & H3 & H4 & _ & H6). split.
      * unfold eh_ack. apply bool_decide_eq_false_2. intros (Hea & _ & Heb').
        assert (i = b) as -> by congruence. apply H6. unfold est in Heb. rewrite Heb.
        f_equal. symmetry. apply (Hreqa (b, m) Hm). unfold eh_req.
        apply bool_decide_eq_true_2. simpl. split; [done|split; [done|congruence]].
      * unfold eh_req. apply bool_decide_eq_false_2. rewrite H3. naive_solver.
    + destruct (decide (i = a)) as [->|]; [right|by left].
      rewrite fase_no_apos_servidor, estado_no_apos_servidor. split; [done|].
      destruct Hpa as (p & Hp & Hbp).
      destruct (respostas_entrega a m (estado (nos g a)) r p Hp) as (p' & Hp' & Hsub).
      exists p'. split; [done|]. apply Hsub; [done|]. intros Hack Hbm.
      pose proof (Hacka (a, m) Hm) as H. unfold eh_ack in H.
      rewrite bool_decide_eq_true_2 in H; [discriminate|]. simpl. naive_solver.
  - unfold lado in *. simpl. unfold est in *. simpl.
    refine (conj Ha (conj Hpa (conj _ _))); intros e He; [apply Hacka|apply Hreqa];
      rewrite Hr; set_solver.
Qed.

Lemma lado_rtc g g' a b r :
  Inv PROCESSOS g -> lado g a b r -> lado g b a r -> rtc (passo PROCESSOS) g g' ->
  Inv PROCESSOS g' /\ lado g' a b r /\ lado g' b a r.
Proof.
  intros HI La Lb Hrtc. revert HI La Lb.
  induction Hrtc as [|g1 g2 g3 Hs _ IH]; [done|]. intros HI La Lb.
  apply IH; [by eapply inv_passo|by eapply lado_passo|by eapply lado_passo].
Qed.

(** A request of [a] for [r] in flight to [b] is the only permission token
    of the pair, so it gives one side of the crossing. *)
Lemma lado_inicial g a b r m :
  Inv PROCESSOS g -> fase (nos g a) = AguardandoAcks r ->
  (b, m) ∈ rede g -> tipo m = "requisicao" -> id m = a -> recurso m = r ->
  lado g a b r.
Proof.
  intros HI Ha Hm Ht Hid Hr.
  assert (Hreq : eh_req a b (b, m) = true)
    by (unfold eh_req; apply bool_decide_eq_true_2; naive_solver).
  pose proof (contar_pos _ _ _ Hm Hreq) as Hpos.
  pose proof (inv_tokens_le _ _ HI a b) as Hle. unfold tokens in Hle.
  refine (conj Ha (conj _ (conj _ _))).
  - destruct (inv_tokens _ _ HI a b) as (r' & p & Hf & Hp & Hb); [unfold tokens; lia|].
    rewrite Ha in Hf. injection Hf as <-. eauto.
  - intros e He. apply (proj1 (contar_zero (eh_ack b a) (rede g))); [lia|done].
  - intros e He Hre.
    assert (e = (b, m)) as -> by (apply (contar_le_1_unico (eh_req a b) (rede g)); [lia|done..]).
    done.
Qed.

(** [k] waits for the acks of [r] and holds nothing. *)
Definition bloqueado (g : Global) (k r : string) : Prop :=
  fase (nos g k) = AguardandoAcks r /\ recurso_ocupado (est g k) = false.

Lemma lado_bloqueado g a b r : Inv PROCESSOS g -> lado g a b r -> bloqueado g a r.
Proof. intros HI [Ha _]. split; [done|]. by apply (inv_aguardando _ _ HI a r). Qed.

Lemma liberacao_rtc g g' k r :
  rtc (passo PROCESSOS) g g' -> fase (nos g k) = AguardandoLiberacao r ->
  recurso_ocupado (est g k) = true ->
  fase (nos g' k) = AguardandoLiberacao r /\ recurso_ocupado (est g' k) = true /\
  esperando_recurso (est g' k) = esperando_recurso (est g k).
Proof.
  induction 1 as [|g1 g2 g3 Hs _ IH]; intros Hf Ho; [done|].
  destruct (liberacao_passo g1 g2 k r Hs Hf Ho) as (Hf2 & Ho2 & He2).
  rewrite <- He2. by apply IH.
Qed.

(** ** Theorems *)

(** C2: deadlock of two concurrent requests.  Let two processes [a] and
    [b] of a reachable state both wait for the acks of the same resource
    [r], each one's request for [r] on its way to the other.  Then in every
    later state, whatever is delivered or lost and whatever the other
    processes do, both still wait for the acks of [r] and neither holds it.
    Each defers the other's request (line 160 compares the clock after
    [atualizar_relogio]), and a deferred request is answered only by
    [sair_recurso_critico], which neither can reach. *)
Theorem impasse_pedidos_cruzados g a b r ma mb :
  alcancavel PROCESSOS g ->
  fase (nos g a) = AguardandoAcks r -> fase (nos g b) = AguardandoAcks r ->
  (b, ma) ∈ rede g -> tipo ma = "requisicao" -> id ma = a -> recurso ma = r ->
  (a, mb) ∈ rede g -> tipo mb = "requisicao" -> id mb = b -> recurso mb = r ->
  forall g', rtc (passo PROCESSOS) g g' -> bloqueado g' a r /\ bloqueado g' b r.
Proof.
  intros Hr Ha Hb Hma Hta Hia Hra Hmb Htb Hib Hrb g' Hrtc.
  pose proof (inv_alcancavel PROCESSOS Hnodup g Hr) as HI.
  destruct (lado_rtc g g' a b r) as (HI' & La & Lb); [done|by eapply lado_inicial..|done|].
  split; eapply lado_bloqueado; done.
Qed.

(** C11: the wait of line 111 never ends.  A process of a reachable state
    that spins in [while recurso_ocupado] (the operator asked for a
    resource while holding one and answered ["1"]) stays in that loop in
    every later state, keeps [recurso_ocupado] set and keeps the resource
    it holds: only its own main thread could release it. *)
Theorem espera_liberacao_permanente g g' i r :
  alcancavel PROCESSOS g -> fase (nos g i) = AguardandoLiberacao r ->
  rtc (passo PROCESSOS) g g' ->
  preso g' i r (esperando_recurso (est g i)).
Proof.
  intros Hr Hf Hrtc. apply liberacao_rtc; [done|done|].
  apply (inv_escolha _ _ (inv_alcancavel PROCESSOS Hnodup g Hr) i r). by right.
Qed.

End Impasses.

(** ** Concrete runs of three processes of [src/p1.py] *)

(** [p1] and [p2] request [r1] one after the other, before any message is
    delivered. *)
Definition execucao_pedidos : list Evento :=
  [EvComando "p1" (Solicitar "r1"); EvComando "p2" (Solicitar "r1")].

Definition g_pedidos : Global :=
  default global_inicial (executar PROCESSOS_P1 global_inicial execucao_pedidos).

Definition requisicao_r1 (p : string) : Mensagem :=
  {| tipo := "requisicao"; recurso := "r1"; timestamp := 1; id := p |}.

(** Then both requests are delivered, each to the other process. *)
Definition g_cruzado : Global :=
  default global_inicial (executar PROCESSOS_P1 g_pedidos [EvEntrega 0; EvEntrega 1]).

(** Witness: after the two deliveries neither [p1] nor [p2] has [r1], and
    both still wait. *)
Example impasse_pedidos_cruzados_exemplo :
  bloqueado g_cruzado "p1" "r1" /\ bloqueado g_cruzado "p2" "r1".
Proof.
  apply (impasse_pedidos_cruzados PROCESSOS_P1 ltac:(decidir) g_pedidos "p1" "p2" "r1"
           (requisicao_r1 "p1") (requisicao_r1 "p2"));
    try reflexivity; try decidir.
  - apply (executar_alcancavel _ execucao_pedidos). vm_compute. reflexivity.
  - apply (executar_rtc _ _ [EvEntrega 0; EvEntrega 1]). vm_compute. reflexivity.
Defined.

(** [p1] acquires [r1], requests it again and answers ["1"]. *)
Definition execucao_espera : list Evento :=
  [EvComando "p1" (Solicitar "r1"); EvEntrega 0; EvEntrega 0; EvEntrega 0; EvEntrega 0;
   EvIteracao "p1"; EvComando "p1" (Solicitar "r1"); EvResposta "p1" "1"].

Definition g_espera : Global :=
  default global_inicial (executar PROCESSOS_P1 global_inicial execucao_espera).

(** Witness: after that run [p1] spins in the loop of line 111 holding
    [r1]. *)
Example espera_liberacao_permanente_exemplo : preso g_espera "p1" "r1" (Some "r1").
Proof.
  assert (Halc : alcancavel PROCESSOS_P1 g_espera).
  { apply (executar_alcancavel _ execucao_espera). vm_compute. reflexivity. }
  destruct (espera_liberacao_permanente PROCESSOS_P1 ltac:(decidir) g_espera g_espera
              "p1" "r1" Halc ltac:(vm_compute; reflexivity) (rtc_refl _ _))
    as (H1 & H2 & _).
  split; [exact H1|split; [exact H2|]]. vm_compute. reflexivity.
Defined.

End Impasse.
