(* ===== verification/Abandono.v ===== *)
(** * Abandono: a deferred request that [src/p2.py] drops is never answered

    [P2.sair_p2_so_primeiro] shows that the release of [src/p2.py] acks
    only the first deferred request, and labels that ack with the
    resource it releases.  This file proves what that does to a run:
    a process [a] whose request the releasing process [b] dropped, or
    whose ack from [b] names another resource, waits for [b] for ever.

    The predicate [abandono g a b r] says: [a] waits for the acks of [r]
    with [b] pending, every ack of [b] to [a] in flight is for another
    resource, no request of [a] to [b] is in flight, and [b]'s queue holds
    no request of [a].  [abandono_passo] proves that every rule of
    [Sistema.passo] keeps it: [b] acks [a] only when it answers a request
    of [a] or drains one from its queue, and [a]'s main thread, blocked in
    the wait, sends no new request.  [SimulacaoP2] carries the predicate
    from a run of [src/p2.py] without [aguardar_recurso] threads to the
    run of [src/p1.py] that simulates it, and back. *)

From S2P Require Import Prelude Mensagem Processo P2 P2Sistema Sistema Seguranca SimulacaoP2 Impasse.
Import Mensagem Processo Sistema Seguranca.

Module Abandono.

#[local] Open Scope Z_scope.

Section Abandono.
Context (PROCESSOS : list (string * (string * Z))).
Context (Hnodup : NoDup PROCESSOS.*1).

Abbreviation ids := (PROCESSOS.*1).

(** ** The queue after each handler, and where the acks go *)

(** The server thread appends at most the request it received. *)
Lemma fila_servidor i m s q :
  q ∈ fila_recurso (estado_final (processar_objeto i PROCESSOS (para_objeto m) s)) ->
  q ∈ fila_recurso s \/ (q = m /\ tipo m = "requisicao").
Proof.
  rewrite processar_objeto_para_objeto.
  destruct (decide (tipo m = "requisicao")) as [Hr|Hr];
    [|destruct (decide (tipo m = "ack")) as [Ha|Ha]].
  - rewrite processar_requisicao_eq by done. cbv zeta. destruct (_ || _); proc_simpl.
    + intros [Hq| ->%list_elem_of_singleton]%elem_of_app; auto.
    + rewrite enviar_ack_estado. proc_simpl. auto.
  - rewrite processar_ack_eq by done. proc_simpl.
    destruct (respostas_esperadas s !! recurso m); proc_simpl; auto.
  - rewrite processar_outro_eq by done. proc_simpl. auto.
Qed.

(** The main thread never adds to the queue. *)
Lemma fila_comando i c s q :
  Forall (fun q => id q ∈ ids) (fila_recurso s) ->
  q ∈ fila_recurso (estado_final (passo_comando i PROCESSOS c s)) -> q ∈ fila_recurso s.
Proof.
  intros Hids. destruct c as [r|r| |]; try done.
  - rewrite passo_comando_solicitar_eq. by destruct (recurso_ocupado s).
  - rewrite passo_comando_liberar_eq by done.
    destruct (_ && _); [by intros ?%elem_of_nil|done].
Qed.

Lemma fila_liberacao i r s q :
  q ∈ fila_recurso (estado_final (passo_aguardar_liberacao i PROCESSOS r s)) ->
  q ∈ fila_recurso s.
Proof.
  unfold passo_aguardar_liberacao. proc_simpl.
  destruct (recurso_ocupado s) eqn:Ho; [done|].
  rewrite entrar_recurso_critico_eq, Ho. done.
Qed.

Lemma estado_acks r s : estado_final (passo_aguardar_acks r s) = s \/
  estado_final (passo_aguardar_acks r s) = com_ocupado true s.
Proof.
  destruct (respostas_esperadas s !! r) as [p|] eqn:Hp.
  - rewrite (passo_aguardar_acks_eq r s p Hp). case_bool_decide; auto.
  - unfold passo_aguardar_acks, verificar_acks. proc_simpl. rewrite Hp. auto.
Qed.

(** A command sends requests, or acks to the senders of queued
    requests. *)
Lemma saidas_comando_destino i c s e :
  Forall (fun q => id q ∈ ids) (fila_recurso s) ->
  e ∈ saidas (passo_comando i PROCESSOS c s) ->
  tipo e.2 = "requisicao" \/ exists q, q ∈ fila_recurso s /\ e.1 = id q.
Proof.
  intros Hids. destruct c as [r|r| |].
  - rewrite passo_comando_solicitar_eq. destruct (recurso_ocupado s); simpl;
      [by intros ?%elem_of_nil|]. intros (d & -> & _)%list_elem_of_fmap. by left.
  - rewrite passo_comando_liberar_eq by done. destruct (_ && _); simpl;
      [|by intros ?%elem_of_nil].
    intros (q & c' & Hq & ->)%acks_da_fila_elem. right. by exists q.
  - by intros ?%elem_of_nil.
  - by intros ?%elem_of_nil.
Qed.

Lemma saidas_liberacao_requisicoes i r s e :
  e ∈ saidas (passo_aguardar_liberacao i PROCESSOS r s) -> tipo e.2 = "requisicao".
Proof.
  unfold passo_aguardar_liberacao. proc_simpl.
  destruct (recurso_ocupado s) eqn:Ho; [by intros ?%elem_of_nil|].
  rewrite entrar_recurso_critico_eq, Ho. simpl. rewrite app_nil_r.
  by intros (d & -> & _)%list_elem_of_fmap.
Qed.

(** The server thread keeps [y] pending for [x], unless it delivers an
    ack of [y] for [x]. *)
Lemma respostas_mantidas i m s x y p :
  respostas_esperadas s !! x = Some p -> y ∈ p ->
  (tipo m = "ack" -> id m = y -> recurso m ≠ x) ->
  exists p', respostas_esperadas
               (estado_final (processar_objeto i PROCESSOS (para_objeto m) s)) !! x = Some p' /\
    y ∈ p'.
Proof.
  intros Hp Hy Hm. destruct (decide (tipo m = "ack" /\ id m = y)) as [[Ha Hid]|Hn].
  - rewrite processar_objeto_para_objeto, processar_ack_eq by done. simpl.
    destruct (respostas_esperadas s !! recurso m); simpl; [|by exists p].
    rewrite lookup_insert_ne by (intros Heq; by apply (Hm Ha Hid)). by exists p.
  - destruct (Impasse.respostas_entrega PROCESSOS Hnodup i m s x p Hp) as (p' & Hp' & Hsub).
    exists p'. split; [done|]. apply Hsub; [done|]. intros Ha ->. naive_solver.
Qed.

(** ** The predicate and its preservation *)

(** [b] will never ack [a]'s request for [r]. *)
Definition abandono (g : Global) (a b r : string) : Prop :=
  fase (nos g a) = AguardandoAcks r /\
  (exists p, respostas_esperadas (est g a) !! r = Some p /\ b ∈ p) /\
  (forall e, e ∈ rede g -> eh_ack b a e = true -> recurso e.2 ≠ r) /\
  (forall e, e ∈ rede g -> eh_req a b e = false) /\
  (forall q, q ∈ fila_recurso (est g b) -> id q ≠ a).

(** A step of process [i] keeps [abandono] when what it sends neither
    acks [a] for [r] from [b] nor requests from [a] to [b], [a] still
    waits, and [b]'s queue gets no request of [a]. *)
Lemma abandono_atualizar g g0 i n outs a b r :
  abandono g a b r -> nos g0 = nos g -> (forall e, e ∈ rede g0 -> e ∈ rede g) ->
  (forall e, e ∈ outs -> (eh_ack b a e = true -> recurso e.2 ≠ r) /\ eh_req a b e = false) ->
  (i ≠ a \/ (fase n = AguardandoAcks r /\
              exists p, respostas_esperadas (estado n) !! r = Some p /\ b ∈ p)) ->
  (i ≠ b \/ forall q, q ∈ fila_recurso (estado n) -> id q ≠ a) ->
  abandono (atualizar g0 i n outs) a b r.
Proof.
  intros (Hf & Hp & Hack & Hreq & Hfila) Hnos Hsub Houts Ha Hb.
  unfold abandono. rewrite fase_atualizar, !est_atualizar. unfold est. rewrite Hnos.
  split_and!.
  - case_bool_decide; [subst; naive_solver|done].
  - case_bool_decide; [subst; naive_solver|done].
  - simpl. intros e [He|He]%elem_of_app; [by apply Hack, Hsub|by apply Houts].
  - simpl. intros e [He|He]%elem_of_app; [by apply Hreq, Hsub|by apply Houts].
  - case_bool_decide; [subst; naive_solver|]. apply Hfila.
Qed.

(** What a process other than [b] sends acks [a] from itself, not from
    [b]; what anyone sends as a request or an ack comes from its sender. *)
Lemma saida_de_i a b r i e :
  id e.2 = i -> i ≠ a -> (i ≠ b \/ tipo e.2 ≠ "ack") ->
  (eh_ack b a e = true -> recurso e.2 ≠ r) /\ eh_req a b e = false.
Proof.
  intros Hid Ha Hb. unfold eh_ack, eh_req.
  split; [intros H%bool_decide_eq_true_1|apply bool_decide_eq_false_2]; naive_solver.
Qed.

(** Delivery of [m] to [i]: [b] acks only a request it receives, and
    no request of [a] to [b] is in flight; [a]'s server thread removes
    [b] only on an ack of [b] for [r], and none is in flight. *)
Lemma abandono_entrega g i m l1 l2 a b r :
  abandono g a b r -> rede g = l1 ++ (i, m) :: l2 ->
  let e := processar_objeto i PROCESSOS (para_objeto m) (estado (nos g i)) in
  abandono (atualizar (mkGlobal (nos g) (l1 ++ l2)) i (no_apos_servidor (nos g i) e) (saidas e))
    a b r.
Proof.
  intros Hab0 Hr e. pose proof Hab0 as (Ha & Hpa & Hacka & Hreqa & Hfila).
  assert (Hm : (i, m) ∈ rede g) by (rewrite Hr; set_solver).
  assert (Hnreq : i = b -> tipo m = "requisicao" -> id m ≠ a).
  { intros -> Ht Hid. pose proof (Hreqa (b, m) Hm) as H. unfold eh_req in H.
    rewrite bool_decide_eq_true_2 in H; [discriminate|]. simpl. naive_solver. }
  apply (abandono_atualizar g); [done|done|intros e' He'; rewrite Hr; set_solver| | |].
  - intros e' He. apply Impasse.saidas_entrega in He as (H1 & H2 & H3 & H4 & _ & _). split.
    + unfold eh_ack. intros (Hea & _ & Heb)%bool_decide_eq_true_1.
      exfalso. apply (Hnreq); [congruence|done|congruence].
    + unfold eh_req. apply bool_decide_eq_false_2. rewrite H3. naive_solver.
  - destruct (decide (i = a)) as [->|]; [right|by left].
    rewrite fase_no_apos_servidor, estado_no_apos_servidor. split; [done|].
    destruct Hpa as (p & Hp & Hbp).
    apply (respostas_mantidas a m _ r b p Hp Hbp). intros Ht Hid.
    apply (Hacka (a, m) Hm). unfold eh_ack. apply bool_decide_eq_true_2. done.
  - destruct (decide (i = b)) as [->|]; [right|by left].
    rewrite estado_no_apos_servidor. intros q [Hq|[-> Ht]]%fila_servidor; [by apply Hfila|].
    by apply Hnreq.
Qed.

Lemma abandono_passo g g' a b r :
  Inv PROCESSOS g -> a ≠ b -> abandono g a b r -> passo PROCESSOS g g' -> abandono g' a b r.
Proof.
  intros HI Hab Hab0 Hstep. pose proof Hab0 as (Ha & Hpa & Hacka & Hreqa & Hfila).
  destruct Hstep as
    [g i c Hi Hf e|g i r' esc Hi Hf|g i r' Hi Hf e|g i r' Hi Hf e|g i m l1 l2 Hr Hi Hf Hs e
    |g x l1 l2 Hr]; try subst e.
  - assert (Hia : i ≠ a) by congruence.
    pose proof (fila_nos_ids _ g i HI) as Hids.
    apply (abandono_atualizar g); [done|done|done| |by left|].
    + intros e He. pose proof (Impasse.saidas_comando_de PROCESSOS i c _ e Hids He) as Hid.
      destruct (saidas_comando_destino i c _ e Hids He) as [Ht|(q & Hq & Hd)].
      * apply saida_de_i with i; [done|done|]. right. rewrite Ht. done.
      * split; [|unfold eh_req; apply bool_decide_eq_false_2; naive_solver].
        unfold eh_ack. intros (Hea & _ & Heb)%bool_decide_eq_true_1.
        exfalso. assert (i = b) as -> by congruence. apply (Hfila q Hq). congruence.
    + destruct (decide (i = b)) as [->|]; [right|by left].
      rewrite estado_no_apos_main. intros q Hq. apply Hfila.
      by apply (fila_comando b c _ q Hids).
  - apply (abandono_atualizar g); [done..| |left; congruence|].
    + by intros ? ?%elem_of_nil.
    + destruct (decide (i = b)) as [->|]; [right|by left]. apply Hfila.
  - apply (abandono_atualizar g); [done|done|done| |left; congruence|].
    + intros e He. apply saida_de_i with i;
        [by eapply Impasse.saidas_liberacao_de|congruence|].
      right. by rewrite (saidas_liberacao_requisicoes i r' _ e He).
    + destruct (decide (i = b)) as [->|]; [right|by left].
      rewrite estado_no_apos_main. intros q Hq. apply Hfila.
      by apply (fila_liberacao b r' _ q).
  - apply (abandono_atualizar g); [done|done|done| | |].
    + intros e. rewrite Impasse.saidas_acks_vazias. by intros ?%elem_of_nil.
    + destruct (decide (i = a)) as [->|]; [right|by left].
      rewrite Ha in Hf. injection Hf as <-. destruct Hpa as (p & Hp & Hbp).
      unfold est in Hp. rewrite (passo_aguardar_acks_eq r _ p Hp).
      rewrite bool_decide_eq_false_2 by set_solver. simpl. eauto.
    + destruct (decide (i = b)) as [->|]; [right|by left].
      rewrite estado_no_apos_main. intros q.
      destruct (estado_acks r' (estado (nos g b))) as [->| ->]; apply Hfila.
  - by apply abandono_entrega.
  - unfold abandono in *. simpl. unfold est in *. simpl.
    split_and!; [done|done| | |done]; intros e He; [apply Hacka|apply Hreqa];
      rewrite Hr; set_solver.
Qed.

Lemma abandono_rtc g g' a b r :
  Inv PROCESSOS g -> a ≠ b -> abandono g a b r -> rtc (passo PROCESSOS) g g' ->
  Inv PROCESSOS g' /\ abandono g' a b r.
Proof.
  intros HI Hab Hg Hrtc. revert HI Hg.
  induction Hrtc as [|g1 g2 g3 Hs _ IH]; [done|]. intros HI Hg.
  apply IH; [by eapply inv_passo|by eapply abandono_passo].
Qed.

(** ** The runs of [src/p2.py] without [aguardar_recurso] threads *)

(** [abandono] on a state of [src/p2.py]. *)
Definition abandono2 (g : P2Sistema.Global2) (a b r : string) : Prop :=
  P2Sistema.fase2 (P2Sistema.nos2 g a) = AguardandoAcks r /\
  (exists p, respostas_esperadas (P2Sistema.estado2 (P2Sistema.nos2 g a)) !! r = Some p /\
             b ∈ p) /\
  (forall e, e ∈ P2Sistema.rede2 g -> eh_ack b a e = true -> recurso e.2 ≠ r) /\
  (forall e, e ∈ P2Sistema.rede2 g -> eh_req a b e = false) /\
  (forall q, q ∈ fila_recurso (P2Sistema.estado2 (P2Sistema.nos2 g b)) -> id q ≠ a).

(** A message of the network of [src/p1.py] comes from one of the
    network of [src/p2.py]. *)
Lemma rede_rel_elem l2 l1 e1 :
  SimulacaoP2.rede_rel l2 l1 -> e1 ∈ l1 ->
  exists e2, e2 ∈ l2 /\ SimulacaoP2.apagar_e e2 = SimulacaoP2.apagar_e e1.
Proof.
  unfold SimulacaoP2.rede_rel, SimulacaoP2.sem_nacks. intros H He.
  assert (Hin : SimulacaoP2.apagar_e e1 ∈ SimulacaoP2.apagar_e <$> l1)
    by (by apply list_elem_of_fmap_2).
  rewrite <-H in Hin. apply list_elem_of_fmap in Hin as (e2 & Heq & He2).
  apply list_elem_of_filter in He2 as [_ He2]. by exists e2.
Qed.

Lemma apagar_e_campos e1 e2 :
  SimulacaoP2.apagar_e e2 = SimulacaoP2.apagar_e e1 ->
  e2.1 = e1.1 /\ tipo e2.2 = tipo e1.2 /\ recurso e2.2 = recurso e1.2 /\ id e2.2 = id e1.2.
Proof.
  intros H. pose proof (f_equal fst H) as H1. pose proof (f_equal snd H) as H2.
  cbn [fst snd SimulacaoP2.apagar_e] in H1, H2.
  destruct (SimulacaoP2.apagar_m_inv _ _ H2) as (? & ? & ?). done.
Qed.

Lemma fila_rel_elem (f2 f1 : list Mensagem) q1 :
  SimulacaoP2.apagar_m <$> f2 = SimulacaoP2.apagar_m <$> f1 -> q1 ∈ f1 ->
  exists q2, q2 ∈ f2 /\ id q2 = id q1.
Proof.
  intros H Hq. assert (Hin : SimulacaoP2.apagar_m q1 ∈ SimulacaoP2.apagar_m <$> f1)
    by (by apply list_elem_of_fmap_2).
  rewrite <-H in Hin. apply list_elem_of_fmap in Hin as (q2 & Heq & Hq2).
  exists q2. split; [done|]. by apply SimulacaoP2.apagar_m_inv in Heq as (_ & _ & ->).
Qed.

Lemma abandono_rel g2 g1 a b r :
  SimulacaoP2.rel g2 g1 -> abandono2 g2 a b r -> abandono g1 a b r.
Proof.
  intros [Hn Hr] (Ha & Hpa & Hack & Hreq & Hfila).
  destruct (Hn a) as (Hsa & Hfa & _). destruct (Hn b) as (Hsb & _ & _).
  destruct (SimulacaoP2.apagar_s_inv _ _ Hsa) as (_ & _ & Hra & _).
  destruct (SimulacaoP2.apagar_s_inv _ _ Hsb) as (_ & Hfb & _ & _).
  unfold abandono, est. split_and!; [congruence|by rewrite <-Hra| | |].
  - intros e1 He1. destruct (rede_rel_elem _ _ e1 Hr He1) as (e2 & He2 & Heq).
    destruct (apagar_e_campos _ _ Heq) as (H1 & H2 & H3 & H4).
    unfold eh_ack. rewrite <-H1, <-H2, <-H3, <-H4. apply Hack, He2.
  - intros e1 He1. destruct (rede_rel_elem _ _ e1 Hr He1) as (e2 & He2 & Heq).
    destruct (apagar_e_campos _ _ Heq) as (H1 & H2 & H3 & H4).
    unfold eh_req. rewrite <-H1, <-H2, <-H4. apply Hreq, He2.
  - intros q1 Hq1. destruct (fila_rel_elem _ _ q1 Hfb Hq1) as (q2 & Hq2 & <-). by apply Hfila.
Qed.

Lemma abandono_espera g2 g1 a b r :
  SimulacaoP2.rel g2 g1 -> abandono g1 a b r ->
  P2Sistema.fase2 (P2Sistema.nos2 g2 a) = AguardandoAcks r /\
  exists p, respostas_esperadas (P2Sistema.estado2 (P2Sistema.nos2 g2 a)) !! r = Some p /\
            b ∈ p.
Proof.
  intros [Hn _] (Ha & Hpa & _). destruct (Hn a) as (Hsa & Hfa & _).
  destruct (SimulacaoP2.apagar_s_inv _ _ Hsa) as (_ & _ & Hra & _).
  split; [congruence|]. unfold est in Hpa. by rewrite Hra.
Qed.

(** C6: a request that [src/p2.py] drops is never granted.  Let a state
    reachable by a run of [src/p2.py] without [aguardar_recurso] threads
    have a process [a] waiting for the acks of [r] with [b] pending, no
    ack of [b] to [a] for [r] in flight, no request of [a] to [b] in
    flight, and no request of [a] in [b]'s queue: the state that [b]'s
    release leaves for every deferred requester but the first, and for
    the first when it requested another resource (the ack names the
    released resource).  Then in every later state of such a run [a]
    still waits for [r] with [b] pending. *)
Theorem pedido_abandonado_p2 g a b r :
  SimulacaoP2.alcancavel_sem_aguardador PROCESSOS g -> a ≠ b -> abandono2 g a b r ->
  forall g', rtc (SimulacaoP2.passo_sem_aguardador PROCESSOS) g g' ->
  P2Sistema.fase2 (P2Sistema.nos2 g' a) = AguardandoAcks r /\
  exists p, respostas_esperadas (P2Sistema.estado2 (P2Sistema.nos2 g' a)) !! r = Some p /\
            b ∈ p.
Proof.
  intros Hg Hab Ha g' Hrtc.
  destruct (SimulacaoP2.sim_alcancavel PROCESSOS Hnodup g Hg) as (Hsem & g1 & Hg1 & Hrel).
  pose proof (abandono_rel g g1 a b r Hrel Ha) as Ha1. clear Hg Ha.
  revert g1 Hsem Hg1 Hrel Ha1.
  induction Hrtc as [g|x y z [Hp Hsem'] _ IH]; intros g1 Hsem Hg1 Hrel Ha1;
    [by apply (abandono_espera g g1)|].
  pose proof (inv_alcancavel PROCESSOS Hnodup g1 Hg1) as HI.
  destruct (SimulacaoP2.sim_passo PROCESSOS x g1 y HI Hrel Hsem Hp Hsem')
    as (g1' & Hs & Hrel').
  destruct (abandono_rtc g1 g1' a b r HI Hab Ha1 Hs) as [_ Ha1'].
  apply (IH g1'); [done| |done|done]. unfold alcancavel in *. by etrans.
Qed.

End Abandono.

(** ** A concrete run of three processes of [src/p2.py] *)

(** p1 takes r1; p2 requests r2 and p3 requests r3; p1 defers both and
    answers with nacks (answered "2"), while p2 and p3 ack each other.
    Then p1 releases r1: it acks p2 only, and labels the ack r1. *)
Definition execucao_abandono : list P2Sistema.Evento2 :=
  [P2Sistema.Ev2Comando "p1" (Solicitar "r1") ""; P2Sistema.Ev2Entrega 0 "";
   P2Sistema.Ev2Entrega 0 ""; P2Sistema.Ev2Entrega 0 ""; P2Sistema.Ev2Entrega 0 "";
   P2Sistema.Ev2Acks "p1";
   P2Sistema.Ev2Comando "p2" (Solicitar "r2") ""; P2Sistema.Ev2Comando "p3" (Solicitar "r3") "";
   P2Sistema.Ev2Entrega 0 ""; P2Sistema.Ev2Entrega 0 ""; P2Sistema.Ev2Entrega 0 "";
   P2Sistema.Ev2Entrega 0 ""; P2Sistema.Ev2Entrega 0 "2"; P2Sistema.Ev2Entrega 0 "";
   P2Sistema.Ev2Entrega 0 "2"; P2Sistema.Ev2Entrega 0 "";
   P2Sistema.Ev2Comando "p1" (Liberar "r1") ""].

Definition g_abandono : P2Sistema.Global2 :=
  default P2Sistema.global2_inicial
    (executar_lista (SimulacaoP2.executar_evento_sem P2.PROCESSOS_P2)
       P2Sistema.global2_inicial execucao_abandono).

(** The ack of r1 reaches p2. *)
Definition g_abandono_fim : P2Sistema.Global2 :=
  default g_abandono
    (executar_lista (SimulacaoP2.executar_evento_sem P2.PROCESSOS_P2)
       g_abandono [P2Sistema.Ev2Entrega 0 ""]).

(** Witness: after the release, p2 (whose ack names r1) and p3 (whose
    request was dropped) are both abandoned by p1, and once the ack of r1
    has reached p2, p2 still waits for p1. *)
Example pedido_abandonado_p2_exemplo :
  abandono2 g_abandono "p2" "p1" "r2" /\ abandono2 g_abandono "p3" "p1" "r3" /\
  P2Sistema.fase2 (P2Sistema.nos2 g_abandono_fim "p2") = AguardandoAcks "r2" /\
  exists p, respostas_esperadas (P2Sistema.estado2 (P2Sistema.nos2 g_abandono_fim "p2"))
              !! "r2" = Some p /\ "p1" ∈ p.
Proof.
  assert (Hab : forall a r, a = "p2" /\ r = "r2" \/ a = "p3" /\ r = "r3" ->
                abandono2 g_abandono a "p1" r).
  { intros a r [[-> ->]|[-> ->]]; split_and!;
      try (vm_compute; reflexivity);
      try (eexists; split; [vm_compute; reflexivity|set_solver]);
      rewrite <-Forall_forall; decidir. }
  split; [by apply Hab; left|split; [by apply Hab; right|]].
  apply (pedido_abandonado_p2 P2.PROCESSOS_P2 ltac:(decidir) g_abandono "p2" "p1" "r2").
  - apply (SimulacaoP2.executar_sem_alcancavel _ execucao_abandono). vm_compute. reflexivity.
  - decidir.
  - apply Hab. by left.
  - apply (SimulacaoP2.executar_sem_rtc _ _ [P2Sistema.Ev2Entrega 0 ""]).
    vm_compute. reflexivity.
Defined.

End Abandono.
