(* ===== verification/Lamport.v ===== *)
(** * Lamport: the logical clocks of a run

    Every message a process sends carries its own id and a timestamp read
    from its [relogio_local], and no handler ever moves a clock back.  So
    in every reachable state of a run, of [src/p1.py] ([Sistema]) or of
    [src/p2.py] ([P2Sistema]), every message in flight carries a timestamp
    at most the current clock of its sender, and a delivery moves the
    receiver's clock past the timestamp of the message: the clock condition
    of Lamport's clocks.

    The per-handler facts are proved in a small program logic over the
    monad [M] of [Processo]: [carimbado_em ID m s] says that running [m]
    from [s] does not decrease the clock and that every message it sends
    has id [ID] and a timestamp at most the final clock.  It has one rule
    per statement of the monad ([carimbado_ret], [carimbado_emit],
    [carimbado_modify], [carimbado_bind], ...), and the handlers are
    proved by following their code. *)

From S2P Require Import Prelude Relogio Mensagem Processo P2 P2Sistema Sistema.
Import Mensagem Processo.

Module Lamport.

#[local] Open Scope Z_scope.

Section Carimbo.
Context (ID : string).

Definition carimbado_em {A} (m : M A) (s : Estado) : Prop :=
  relogio_local s <= relogio_local (estado_final (m s)) /\
  Forall (fun e : Envio => id e.2 = ID /\ timestamp e.2 <= relogio_local (estado_final (m s)))
    (saidas (m s)).

(** ** The rules of the logic *)

Lemma carimbado_ret {A} (a : A) s : carimbado_em (py_ret a) s.
Proof. split; [simpl; lia|constructor]. Qed.

Lemma carimbado_raise {A} e s : carimbado_em (py_raise (A:=A) e) s.
Proof. split; [simpl; lia|constructor]. Qed.

Lemma carimbado_modify f s :
  relogio_local s <= relogio_local (f s) -> carimbado_em (py_modify f) s.
Proof. intros H. split; [done|constructor]. Qed.

Lemma carimbado_emit d m s :
  id m = ID -> timestamp m <= relogio_local s -> carimbado_em (py_emit (d, m)) s.
Proof. intros H1 H2. split; [simpl; lia|]. by repeat constructor. Qed.

Lemma carimbado_bind {A B} (m : M A) (f : A -> M B) s :
  carimbado_em m s ->
  (forall a s1 o1, m s = mkExec (Ok a) s1 o1 -> carimbado_em (f a) s1) ->
  carimbado_em (py_bind f m) s.
Proof.
  intros [Hm1 Hm2] Hf. unfold py_bind, carimbado_em in *.
  destruct (m s) as [[a|e] s1 o1]; simpl in *; [|done].
  destruct (Hf a s1 o1 eq_refl) as [Hf1 Hf2].
  destruct (f a s1) as [r s2 o2]; simpl in *.
  split; [lia|]. apply Forall_app; split; [|done].
  eapply Forall_impl; [exact Hm2|]. intros e [? ?]. split; [done|lia].
Qed.

Lemma carimbado_get {A} (k : Estado -> M A) s :
  carimbado_em (k s) s -> carimbado_em (py_bind k py_get) s.
Proof. intros H. apply carimbado_bind; [apply carimbado_ret|]. by intros ? ? ? [= <- <- _]. Qed.

Lemma carimbado_if {A} (b : bool) (m1 m2 : M A) s :
  carimbado_em m1 s -> carimbado_em m2 s -> carimbado_em (if b then m1 else m2) s.
Proof. by destruct b. Qed.

(** A loop whose body is [carimbado] from every state with a clock at
    least [c] is [carimbado] from such a state. *)
Lemma carimbado_para_cada {X} (l : list X) (body : X -> M unit) c s :
  (forall x s', c <= relogio_local s' -> carimbado_em (body x) s') ->
  c <= relogio_local s -> carimbado_em (para_cada l body) s.
Proof.
  intros Hb. revert s. induction l as [|x l IH]; intros s Hc; [apply carimbado_ret|].
  cbn [para_cada]. apply carimbado_bind; [by apply Hb|].
  intros a s1 o1 Hs. apply IH. destruct (Hb x s Hc) as [H _]. rewrite Hs in H. simpl in H. lia.
Qed.

End Carimbo.

(** [carimbo] follows the code of a handler with the rules of the logic:
    it unfolds the monad's notation and applies the rule of the first
    statement. *)
Ltac carimbo :=
  repeat (unfold mbind, mret, py_mbind, py_mret;
    match goal with
    | |- carimbado_em _ (py_bind _ py_get) _ => apply carimbado_get
    | |- carimbado_em _ (py_bind _ _) _ => apply carimbado_bind; [|intros ?a ?s1 ?o1 ?Hs1]
    | |- carimbado_em _ (py_ret _) _ => apply carimbado_ret
    | |- carimbado_em _ (py_raise _) _ => apply carimbado_raise
    | |- carimbado_em _ (if _ then _ else _) _ => apply carimbado_if
    | |- carimbado_em _ (match ?x with _ => _ end) _ => destruct x
    | |- carimbado_em _ (py_modify _) _ =>
        apply carimbado_modify;
        unfold com_ocupado, com_fila, com_respostas, com_esperando, com_relogio,
          Relogio.incrementar, Relogio.atualizar_relogio; simpl; lia
    end).

(** ** The handlers of [src/p1.py] and [src/p2.py] *)

Section Manipuladores.
Context (ID_PROCESSO : string) (PROCESSOS : list (string * (string * Z))).

Lemma carimbado_enviar_mensagem d m s :
  id m = ID_PROCESSO -> timestamp m <= relogio_local s ->
  carimbado_em ID_PROCESSO (enviar_mensagem PROCESSOS d m) s.
Proof.
  intros H1 H2. unfold enviar_mensagem.
  apply carimbado_if; [by apply carimbado_emit|apply carimbado_raise].
Qed.

Lemma carimbado_enviar_ack d r s :
  carimbado_em ID_PROCESSO (enviar_ack ID_PROCESSO PROCESSOS d r) s.
Proof.
  unfold enviar_ack. carimbo.
  apply carimbado_enviar_mensagem; simpl; [done|lia].
Qed.

Lemma carimbado_enviar_nack d r s :
  carimbado_em ID_PROCESSO (P2.enviar_nack ID_PROCESSO PROCESSOS d r) s.
Proof.
  unfold P2.enviar_nack. carimbo.
  apply carimbado_enviar_mensagem; simpl; [done|lia].
Qed.

Lemma carimbado_multicast r s :
  carimbado_em ID_PROCESSO (multicast_requisicao ID_PROCESSO PROCESSOS r) s.
Proof.
  unfold multicast_requisicao. carimbo.
  injection Hs0 as <- <- _.
  apply (carimbado_para_cada _ _ _ (relogio_local s1)); [|unfold com_respostas; simpl; lia].
  intros x s' Hs'. apply carimbado_if; [|apply carimbado_ret].
  by apply carimbado_enviar_mensagem.
Qed.

Lemma carimbado_entrar r s :
  carimbado_em ID_PROCESSO (entrar_recurso_critico ID_PROCESSO PROCESSOS r) s.
Proof. unfold entrar_recurso_critico. carimbo. apply carimbado_multicast. Qed.

Lemma carimbado_drenar_fila fuel r s :
  carimbado_em ID_PROCESSO (drenar_fila ID_PROCESSO PROCESSOS fuel r) s.
Proof.
  revert s. induction fuel as [|fuel IH]; intros s; cbn [drenar_fila]; carimbo;
    [apply carimbado_enviar_ack|apply IH].
Qed.

Lemma carimbado_sair r s :
  carimbado_em ID_PROCESSO (sair_recurso_critico ID_PROCESSO PROCESSOS r) s.
Proof. unfold sair_recurso_critico. carimbo. apply carimbado_drenar_fila. Qed.

Lemma carimbado_processar_objeto o s :
  carimbado_em ID_PROCESSO (processar_objeto ID_PROCESSO PROCESSOS o) s.
Proof.
  unfold processar_objeto, processar_mensagem, atualizar_relogio. carimbo;
    apply carimbado_enviar_ack.
Qed.

Lemma carimbado_passo_comando c s :
  carimbado_em ID_PROCESSO (passo_comando ID_PROCESSO PROCESSOS c) s.
Proof.
  unfold passo_comando. carimbo; [apply carimbado_entrar|apply carimbado_sair].
Qed.

Lemma carimbado_passo_aguardar_liberacao r s :
  carimbado_em ID_PROCESSO (passo_aguardar_liberacao ID_PROCESSO PROCESSOS r) s.
Proof. unfold passo_aguardar_liberacao. carimbo. apply carimbado_entrar. Qed.

Lemma carimbado_passo_aguardar_acks r s :
  carimbado_em ID_PROCESSO (passo_aguardar_acks r) s.
Proof. unfold passo_aguardar_acks, verificar_acks. carimbo. Qed.

Lemma carimbado_entrar2 esc r s :
  carimbado_em ID_PROCESSO (P2.entrar_recurso_critico ID_PROCESSO PROCESSOS esc r) s.
Proof. unfold P2.entrar_recurso_critico. carimbo. apply carimbado_multicast. Qed.

Lemma carimbado_sair2 r s :
  carimbado_em ID_PROCESSO (P2.sair_recurso_critico ID_PROCESSO PROCESSOS r) s.
Proof. unfold P2.sair_recurso_critico. carimbo. apply carimbado_enviar_ack. Qed.

Lemma carimbado_processar_objeto2 esc o s :
  carimbado_em ID_PROCESSO (P2.processar_objeto ID_PROCESSO PROCESSOS esc o) s.
Proof.
  unfold P2.processar_objeto, P2.processar_mensagem. P2.p2_comum.
  unfold atualizar_relogio. carimbo;
    first [apply carimbado_enviar_nack|apply carimbado_enviar_ack].
Qed.

Lemma carimbado_passo_comando2 esc c s :
  carimbado_em ID_PROCESSO (P2.passo_comando ID_PROCESSO PROCESSOS esc c) s.
Proof.
  unfold P2.passo_comando. carimbo; [apply carimbado_entrar2|apply carimbado_sair2].
Qed.

Lemma carimbado_passo_aguardador f s :
  carimbado_em ID_PROCESSO (P2Sistema.passo_aguardador PROCESSOS ID_PROCESSO f) s.
Proof.
  destruct f; unfold P2Sistema.passo_aguardador; carimbo;
    [|apply carimbado_passo_aguardar_acks].
  unfold P2.passo_aguardar_recurso. carimbo. apply carimbado_entrar2.
Qed.

End Manipuladores.

(** ** Clocks and messages in flight *)

(** Every message of [rede] carries a timestamp at most the clock [c] of
    its sender. *)
Definition coerente (rede : list Envio) (c : string -> Z) : Prop :=
  Forall (fun e : Envio => timestamp e.2 <= c (id e.2)) rede.

Lemma coerente_remover l1 x l2 c : coerente (l1 ++ x :: l2) c -> coerente (l1 ++ l2) c.
Proof. unfold coerente. rewrite !Forall_app, Forall_cons. tauto. Qed.

(** One process [i] takes a step: the clocks do not go back, and what [i]
    sends carries its id and a timestamp at most its new clock. *)
Lemma coerente_passo_local rede envs c c' i :
  (forall k, c k <= c' k) ->
  Forall (fun e : Envio => id e.2 = i /\ timestamp e.2 <= c' i) envs ->
  coerente rede c -> coerente (rede ++ envs) c'.
Proof.
  intros Hc Henv Hr. apply Forall_app. split.
  - eapply Forall_impl; [exact Hr|]. intros e He. specialize (Hc (id e.2)). simpl in *. lia.
  - eapply Forall_impl; [exact Henv|]. by intros e [-> ?].
Qed.

(** After a first statement that returns, the rest of a [carimbado]
    handler does not move the clock back. *)
Lemma relogio_apos_bind {A B} ID (m : M A) (f : A -> M B) s a s1 o1 :
  m s = mkExec (Ok a) s1 o1 -> carimbado_em ID (f a) s1 ->
  relogio_local s1 <= relogio_local (estado_final (py_bind f m s)).
Proof.
  intros Hm [Hf _]. unfold py_bind. rewrite Hm. by destruct (f a s1).
Qed.

(** The receiver of a message moves its clock past the message's
    timestamp, whatever it does after [atualizar_relogio]. *)
Lemma processar_mensagem_relogio ID_PROCESSO PROCESSOS m s :
  timestamp m < relogio_local (estado_final (processar_mensagem ID_PROCESSO PROCESSOS m s)).
Proof.
  pose proof (Relogio.atualizar_relogio_gt_ts (relogio_local s) (timestamp m)).
  unfold processar_mensagem, mbind, py_mbind.
  eapply Z.lt_le_trans; [|eapply (relogio_apos_bind ID_PROCESSO); [reflexivity|]];
    [simpl; exact H|].
  carimbo. apply carimbado_enviar_ack.
Qed.

Lemma processar_mensagem2_relogio ID_PROCESSO PROCESSOS esc m s :
  timestamp m
  < relogio_local (estado_final (P2.processar_mensagem ID_PROCESSO PROCESSOS esc m s)).
Proof.
  pose proof (Relogio.atualizar_relogio_gt_ts (relogio_local s) (timestamp m)).
  unfold P2.processar_mensagem, mbind, py_mbind.
  eapply Z.lt_le_trans; [|eapply (relogio_apos_bind ID_PROCESSO); [reflexivity|]];
    [simpl; exact H|].
  carimbo; first [apply carimbado_enviar_nack|apply carimbado_enviar_ack].
Qed.

(** ** Runs of [src/p1.py] *)

Section SistemaP1.
Import Sistema.
Context (PROCESSOS : list (string * (string * Z))).

Definition relogio_de (g : Global) (k : string) : Z := relogio_local (estado (nos g k)).

(** A step of process [i] that runs a [carimbado] handler from its
    globals. *)
Lemma coerente_atualizar {A} g i n (m : M A) :
  carimbado_em i m (estado (nos g i)) -> estado n = estado_final (m (estado (nos g i))) ->
  (coerente (rede g) (relogio_de g) ->
   coerente (rede (atualizar g i n (saidas (m (estado (nos g i))))))
     (relogio_de (atualizar g i n (saidas (m (estado (nos g i))))))) /\
  (forall k, relogio_de g k <= relogio_de (atualizar g i n (saidas (m (estado (nos g i))))) k).
Proof.
  intros [Hmono Hout] Hn.
  assert (Hk : forall k, relogio_de g k
                 <= relogio_de (atualizar g i n (saidas (m (estado (nos g i))))) k).
  { intros k. unfold relogio_de, atualizar; simpl. case_bool_decide; subst; [|lia].
    rewrite Hn. lia. }
  split; [|exact Hk]. intros Hc. apply (coerente_passo_local _ _ _ _ i Hk); [|done].
  eapply Forall_impl; [exact Hout|]. intros e [He1 He2]. split; [done|].
  unfold relogio_de, atualizar; simpl. rewrite bool_decide_eq_true_2, Hn; done.
Qed.

Lemma passo_relogios g g' :
  passo PROCESSOS g g' ->
  (coerente (rede g) (relogio_de g) -> coerente (rede g') (relogio_de g')) /\
  (forall k, relogio_de g k <= relogio_de g' k).
Proof.
  intros Hp. destruct Hp as [g i c ? ? e|g i r esc ? ?|g i r ? ? e|g i r ? ? e
                             |g i m l1 l2 Hr ? ? ? e|g x l1 l2 Hr].
  - apply coerente_atualizar; [apply carimbado_passo_comando|apply estado_no_apos_main].
  - change (@nil Envio) with (saidas (py_ret (S:=Estado) (O:=Envio) tt (estado (nos g i)))).
    apply coerente_atualizar; [apply carimbado_ret|done].
  - apply coerente_atualizar;
      [apply carimbado_passo_aguardar_liberacao|apply estado_no_apos_main].
  - apply coerente_atualizar; [apply carimbado_passo_aguardar_acks|apply estado_no_apos_main].
  - destruct (coerente_atualizar (mkGlobal (nos g) (l1 ++ l2)) i (no_apos_servidor (nos g i) e)
                (processar_objeto i PROCESSOS (para_objeto m)))
      as [Hc1 Hc2]; [apply carimbado_processar_objeto|apply estado_no_apos_servidor|].
    split; [|exact Hc2]. intros Hc. apply Hc1. simpl. rewrite Hr in Hc.
    by eapply coerente_remover.
  - split; [|done]. rewrite Hr. apply coerente_remover.
Qed.

Lemma coerente_rtc g g' :
  rtc (passo PROCESSOS) g g' -> coerente (rede g) (relogio_de g) -> coerente (rede g') (relogio_de g').
Proof. induction 1 as [|g1 g2 g3 Hp _ IH]; [done|]. intros Hc. by apply IH, (passo_relogios _ _ Hp). Qed.

End SistemaP1.

(** ** Runs of [src/p2.py] *)

Section SistemaP2.
Import P2Sistema.
Context (PROCESSOS : list (string * (string * Z))).

Definition relogio_de2 (g : Global2) (k : string) : Z := relogio_local (estado2 (nos2 g k)).

Lemma coerente_atualizar2 {A} g i n (m : M A) linhas :
  carimbado_em i m (estado2 (nos2 g i)) -> estado2 n = estado_final (m (estado2 (nos2 g i))) ->
  (coerente (rede2 g) (relogio_de2 g) ->
   coerente (rede2 (atualizar2 g i n (saidas (m (estado2 (nos2 g i)))) linhas))
     (relogio_de2 (atualizar2 g i n (saidas (m (estado2 (nos2 g i)))) linhas))) /\
  (forall k, relogio_de2 g k
             <= relogio_de2 (atualizar2 g i n (saidas (m (estado2 (nos2 g i)))) linhas) k).
Proof.
  intros [Hmono Hout] Hn.
  assert (Hk : forall k, relogio_de2 g k
                 <= relogio_de2 (atualizar2 g i n (saidas (m (estado2 (nos2 g i)))) linhas) k).
  { intros k. unfold relogio_de2, atualizar2; simpl. case_bool_decide; subst; [|lia].
    rewrite Hn. lia. }
  split; [|exact Hk]. intros Hc. apply (coerente_passo_local _ _ _ _ i Hk); [|done].
  eapply Forall_impl; [exact Hout|]. intros e [He1 He2]. split; [done|].
  unfold relogio_de2, atualizar2; simpl. rewrite bool_decide_eq_true_2, Hn; done.
Qed.

Lemma passo2_relogios g g' :
  passo2 PROCESSOS g g' ->
  (coerente (rede2 g) (relogio_de2 g) -> coerente (rede2 g') (relogio_de2 g')) /\
  (forall k, relogio_de2 g k <= relogio_de2 g' k).
Proof.
  intros Hp. destruct Hp as [g i c esc ? ? s e|g i r ? ? e|g i k f ? ? ? e
                             |g i m l1 l2 esc Hr ? ? ? e|g x l1 l2 Hr].
  - apply coerente_atualizar2; [apply carimbado_passo_comando2|apply estado2_no2_apos_comando].
  - apply coerente_atualizar2; [apply carimbado_passo_aguardar_acks|apply estado2_no2_apos_acks].
  - apply coerente_atualizar2;
      [apply carimbado_passo_aguardador|apply estado2_no2_apos_aguardador].
  - destruct (coerente_atualizar2 (mkGlobal2 (nos2 g) (l1 ++ l2) (impressos g)) i
                (no2_apos_servidor (nos2 g i) e)
                (P2.processar_objeto i PROCESSOS esc (para_objeto m)) [])
      as [Hc1 Hc2]; [apply carimbado_processar_objeto2|apply estado2_no2_apos_servidor|].
    split; [|exact Hc2]. intros Hc. apply Hc1. simpl. rewrite Hr in Hc.
    by eapply coerente_remover.
  - split; [|done]. rewrite Hr. apply coerente_remover.
Qed.

Lemma coerente2_rtc g g' :
  rtc (passo2 PROCESSOS) g g' ->
  coerente (rede2 g) (relogio_de2 g) -> coerente (rede2 g') (relogio_de2 g').
Proof. induction 1 as [|g1 g2 g3 Hp _ IH]; [done|]. intros Hc. by apply IH, (passo2_relogios _ _ Hp). Qed.

End SistemaP2.

(** ** The clock condition *)

(** C35: Lamport's clock condition in the runs of [src/p1.py].  In every
    reachable state, every message in flight carries a timestamp at most
    the current clock of its sender; no step moves a clock back; and when
    the message is delivered, the receiver's clock ends above the
    timestamp. *)
Theorem relogios_lamport PROCESSOS (g : Sistema.Global) :
  Sistema.alcancavel PROCESSOS g ->
  (forall g', Sistema.passo PROCESSOS g g' -> forall k, relogio_de g k <= relogio_de g' k) /\
  (forall i m, (i, m) ∈ Sistema.rede g ->
     timestamp m <= relogio_de g (id m) /\
     timestamp m < relogio_local (estado_final
       (processar_objeto i PROCESSOS (para_objeto m) (Sistema.estado (Sistema.nos g i))))).
Proof.
  intros Ha. split; [intros g' Hp; apply (passo_relogios _ _ _ Hp)|].
  intros i m Hm. split.
  - apply (coerente_rtc PROCESSOS) in Ha; [|constructor].
    exact (proj1 (Forall_forall _ _) Ha _ Hm).
  - rewrite processar_objeto_para_objeto. apply processar_mensagem_relogio.
Qed.

(** C36: the same clock condition in the runs of [src/p2.py], with its
    extra threads, its nacks and its server prompt. *)
Theorem relogios_lamport_p2 PROCESSOS (g : P2Sistema.Global2) :
  P2Sistema.alcancavel2 PROCESSOS g ->
  (forall g', P2Sistema.passo2 PROCESSOS g g' -> forall k, relogio_de2 g k <= relogio_de2 g' k) /\
  (forall i m esc, (i, m) ∈ P2Sistema.rede2 g ->
     timestamp m <= relogio_de2 g (id m) /\
     timestamp m < relogio_local (estado_final
       (P2.processar_objeto i PROCESSOS esc (para_objeto m)
          (P2Sistema.estado2 (P2Sistema.nos2 g i))))).
Proof.
  intros Ha. split; [intros g' Hp; apply (passo2_relogios _ _ _ Hp)|].
  intros i m esc Hm. split.
  - apply (coerente2_rtc PROCESSOS) in Ha; [|constructor].
    exact (proj1 (Forall_forall _ _) Ha _ Hm).
  - rewrite P2.processar_objeto2_para_objeto. apply processar_mensagem2_relogio.
Qed.

(** ** Witnesses: a request of p1 in flight *)

Definition g_lamport : Sistema.Global :=
  default Sistema.global_inicial
    (Sistema.executar PROCESSOS_P1 Sistema.global_inicial [Sistema.EvComando "p1" (Solicitar "r1")]).

Example relogios_lamport_exemplo :
  timestamp (msg_requisicao ID_P1 "r1" 1) <= relogio_de g_lamport "p1" /\
  timestamp (msg_requisicao ID_P1 "r1" 1)
  < relogio_local (estado_final (processar_objeto "p2" PROCESSOS_P1
      (para_objeto (msg_requisicao ID_P1 "r1" 1)) (Sistema.estado (Sistema.nos g_lamport "p2")))).
Proof.
  apply (proj2 (relogios_lamport PROCESSOS_P1 g_lamport
    ltac:(apply (Sistema.executar_alcancavel _ [Sistema.EvComando "p1" (Solicitar "r1")]);
          vm_compute; reflexivity))).
  assert (Hr : Sistema.rede g_lamport
               = [("p2", msg_requisicao ID_P1 "r1" 1); ("p3", msg_requisicao ID_P1 "r1" 1)])
    by (vm_compute; reflexivity).
  rewrite Hr. by left.
Defined.

Definition g_lamport2 : P2Sistema.Global2 :=
  default P2Sistema.global2_inicial
    (P2Sistema.executar2 PROCESSOS_P1 P2Sistema.global2_inicial
       [P2Sistema.Ev2Comando "p1" (Solicitar "r1") ""]).

Example relogios_lamport_p2_exemplo :
  timestamp (msg_requisicao ID_P1 "r1" 1) <= relogio_de2 g_lamport2 "p1" /\
  timestamp (msg_requisicao ID_P1 "r1" 1)
  < relogio_local (estado_final (P2.processar_objeto "p3" PROCESSOS_P1 "1"
      (para_objeto (msg_requisicao ID_P1 "r1" 1))
      (P2Sistema.estado2 (P2Sistema.nos2 g_lamport2 "p3")))).
Proof.
  apply (proj2 (relogios_lamport_p2 PROCESSOS_P1 g_lamport2
    ltac:(apply (P2Sistema.executar2_alcancavel _ [P2Sistema.Ev2Comando "p1" (Solicitar "r1") ""]);
          vm_compute; reflexivity))).
  assert (Hr : P2Sistema.rede2 g_lamport2
               = [("p2", msg_requisicao ID_P1 "r1" 1); ("p3", msg_requisicao ID_P1 "r1" 1)])
    by (vm_compute; reflexivity).
  rewrite Hr. right. by left.
Defined.

End Lamport.
