(* ===== verification/Servico.v ===== *)
(** * Servico: the lock service that the runs of [src/p1.py] implement

    What the program promises its users is a lock service: a set of
    (process, resource) grants, where a process may take a resource that
    no one holds, when it holds none (the code has one [esperando_recurso]
    per process), and may give back a resource it holds.  [passo_servico]
    is that abstract state machine on [gset (string * string)].

    [detidos g] abstracts a [Sistema.Global]: the pairs [(i, r)] such that
    [i] holds [r] in the sense of the code ([recurso_ocupado] is set and
    [esperando_recurso] is [r]).  The refinement theorem
    [refinamento_servico] shows that every step of a reachable state is a
    step of the service: the end of the wait for the acks takes a
    resource, a release gives it back, and every other step (messages,
    prompts, losses, failed handlers) leaves the grants as they are.  So
    every run of [src/p1.py] is, seen through [detidos], a run of the
    service.

    [refinamento_servico_p2] does the same for the runs of [src/p2.py]
    in which no [aguardar_recurso] thread is started, through the
    simulation of [SimulacaoP2]: each of their steps is a run of the
    service (a release of [src/p2.py] is matched by p1's release and
    losses, which the service sees as one release and stutters). *)

From S2P Require Import Prelude Relogio Mensagem Processo P2 Sistema Seguranca P2Sistema SimulacaoP2.
Import Mensagem Processo Sistema Seguranca.

Module Servico.

#[local] Open Scope Z_scope.

(** ** The abstract service *)

Abbreviation Concessoes := (gset (string * string)).

Inductive passo_servico : Concessoes -> Concessoes -> Prop :=
| sv_parado A : passo_servico A A
| sv_adquirir A i r :
    (forall j, (j, r) ∉ A) -> (forall r', (i, r') ∉ A) ->
    passo_servico A (A ∪ {[(i, r)]})
| sv_liberar A i r :
    (i, r) ∈ A -> passo_servico A (A ∖ {[(i, r)]}).

(** ** The abstraction of a run's state *)

(** The resource a process holds, if any. *)
Definition posse (s : Estado) : option string :=
  if recurso_ocupado s then esperando_recurso s else None.

Section Abstracao.
Context (PROCESSOS : list (string * (string * Z))).
Context (Hnodup : NoDup PROCESSOS.*1).

Abbreviation ids := (PROCESSOS.*1).

Definition detidos (g : Global) : Concessoes :=
  list_to_set (omap (fun i => pair i <$> posse (est g i)) ids).

Lemma elem_of_detidos g k r :
  (k, r) ∈ detidos g <-> k ∈ ids /\ posse (est g k) = Some r.
Proof.
  unfold detidos. rewrite elem_of_list_to_set, list_elem_of_omap. split.
  - intros (k' & Hk & Hp). destruct (posse (est g k')) eqn:E; simpl in Hp; [|done].
    injection Hp as <- <-. done.
  - intros [Hk Hp]. exists k. by rewrite Hp.
Qed.

Lemma posse_detem g i r : posse (est g i) = Some r <-> detem g i r.
Proof.
  unfold posse, detem. destruct (recurso_ocupado (est g i)); [|naive_solver].
  naive_solver.
Qed.

(** A step of process [i] changes the grants of [i] only. *)
Lemma detidos_no g g' i k r :
  i ∈ ids -> (forall k, k ≠ i -> posse (est g' k) = posse (est g k)) ->
  (k, r) ∈ detidos g' <->
  (k ≠ i /\ (k, r) ∈ detidos g) \/ (k = i /\ posse (est g' i) = Some r).
Proof.
  intros Hi Hk. rewrite !elem_of_detidos.
  destruct (decide (k = i)) as [->|Hne]; [naive_solver|]. rewrite Hk by done. naive_solver.
Qed.

Lemma detidos_parado g g' i :
  i ∈ ids -> (forall k, k ≠ i -> posse (est g' k) = posse (est g k)) ->
  posse (est g' i) = posse (est g i) -> detidos g' = detidos g.
Proof.
  intros Hi Hk Hp. apply set_eq. intros [k r].
  rewrite (detidos_no g g' i k r Hi Hk), Hp, elem_of_detidos.
  destruct (decide (k = i)); naive_solver.
Qed.

Lemma detidos_adquirir g g' i r :
  i ∈ ids -> (forall k, k ≠ i -> posse (est g' k) = posse (est g k)) ->
  posse (est g i) = None -> posse (est g' i) = Some r ->
  detidos g' = detidos g ∪ {[(i, r)]}.
Proof.
  intros Hi Hk H0 H1. apply set_eq. intros [k r'].
  rewrite (detidos_no g g' i k r' Hi Hk), H1, elem_of_union, elem_of_singleton, elem_of_detidos.
  destruct (decide (k = i)) as [->|]; [rewrite H0|]; naive_solver.
Qed.

Lemma detidos_liberar g g' i r :
  i ∈ ids -> (forall k, k ≠ i -> posse (est g' k) = posse (est g k)) ->
  posse (est g i) = Some r -> posse (est g' i) = None ->
  detidos g' = detidos g ∖ {[(i, r)]}.
Proof.
  intros Hi Hk H0 H1. apply set_eq. intros [k r'].
  rewrite (detidos_no g g' i k r' Hi Hk), H1, elem_of_difference, elem_of_singleton,
    elem_of_detidos.
  destruct (decide (k = i)) as [->|]; [rewrite H0|]; naive_solver.
Qed.

(** ** One step of one process *)

(** The three things a step of process [i] can do to its grant: nothing,
    take a resource no other process holds, give back its resource. *)
Lemma servico_atualizar g i n envs :
  i ∈ ids ->
  posse (estado n) = posse (est g i) \/
  (posse (est g i) = None /\ exists r, posse (estado n) = Some r /\
     forall j, j ∈ ids -> j ≠ i -> posse (est g j) ≠ Some r) \/
  (exists r, posse (est g i) = Some r /\ posse (estado n) = None) ->
  passo_servico (detidos g) (detidos (atualizar g i n envs)).
Proof.
  intros Hi Hcasos.
  assert (Hk : forall k, k ≠ i -> posse (est (atualizar g i n envs) k) = posse (est g k)).
  { intros k Hk. rewrite est_atualizar. by case_bool_decide. }
  assert (Hn : posse (est (atualizar g i n envs) i) = posse (estado n)).
  { rewrite est_atualizar. by case_bool_decide. }
  destruct Hcasos as [Hp|[(H0 & r & H1 & Hj)|(r & H0 & H1)]].
  - rewrite (detidos_parado g (atualizar g i n envs) i); [constructor|done|done|by rewrite Hn].
  - rewrite (detidos_adquirir g (atualizar g i n envs) i r); [|done|done|done|by rewrite Hn].
    constructor.
    + intros j Hjr. apply elem_of_detidos in Hjr as [Hjid Hjp].
      destruct (decide (j = i)) as [->|Hne]; [congruence|]. by apply (Hj j).
    + intros r' Hr'. apply elem_of_detidos in Hr' as [_ Hr']. congruence.
  - rewrite (detidos_liberar g (atualizar g i n envs) i r); [|done|done|done|by rewrite Hn].
    constructor. by apply elem_of_detidos.
Qed.

(** A step that leaves the globals of [i] as they were. *)
Lemma servico_mesmo_estado g i n envs :
  i ∈ ids -> estado n = est g i -> passo_servico (detidos g) (detidos (atualizar g i n envs)).
Proof. intros Hi Hn. apply servico_atualizar; [done|left]. by rewrite Hn. Qed.

(** The handlers of a reachable state, one rule of [passo] at a time. *)
Lemma servico_passo g g' :
  Inv PROCESSOS g -> passo PROCESSOS g g' -> passo_servico (detidos g) (detidos g').
Proof.
  intros HI Hp. pose proof (inv_passo PROCESSOS Hnodup g g' HI Hp) as HI'.
  destruct Hp as [g i c Hi Hf e|g i r esc Hi Hf|g i r Hi Hf e|g i r Hi Hf e
                 |g i m l1 l2 Hr Hi Hf Hs e|g x l1 l2 Hr].
  - apply servico_atualizar; [done|]. rewrite estado_no_apos_main. subst e.
    destruct c as [r|r| |]; [left| | left; done | left; done].
    + rewrite passo_comando_solicitar_eq. unfold posse, est.
      destruct (recurso_ocupado (estado (nos g i))) eqn:Ho; [simpl; by rewrite Ho|].
      unfold com_respostas, com_relogio, com_esperando. simpl. by rewrite Ho.
    + rewrite passo_comando_liberar_eq by (apply Forall_forall; intros q Hq;
        by apply (inv_fila _ _ HI i)).
      destruct (recurso_ocupado _ && _) eqn:Hc; [|by left].
      apply andb_true_iff in Hc as [Ho He]. apply bool_decide_eq_true_1 in He.
      right; right. exists r. split; [|done]. unfold posse, est. by rewrite Ho, He.
  - by apply servico_mesmo_estado.
  - apply servico_mesmo_estado; [done|]. rewrite estado_no_apos_main. subst e.
    rewrite passo_aguardar_liberacao_ocupado; [done|].
    apply (inv_escolha _ _ HI i r). by right.
  - apply servico_atualizar; [done|]. rewrite estado_no_apos_main. subst e.
    destruct (inv_aguardando _ _ HI i r Hf) as [He Ho].
    destruct (inv_esperando _ _ HI i r He) as [p Hpend].
    unfold est in Ho, He, Hpend.
    pose proof (passo_aguardar_acks_eq r _ p Hpend) as Hacks.
    destruct (bool_decide (p = ∅)) eqn:Hp; rewrite Hacks; [|left; done].
    right; left. unfold posse at 1, est. rewrite Ho. split; [done|].
    exists r. split; [unfold posse, com_ocupado; simpl; by rewrite He|].
    intros j Hj Hji Hjr.
    apply (inv_detem_exclusivo PROCESSOS Hnodup _ i j r HI' Hi Hj (not_eq_sym Hji)).
    split; apply posse_detem; unfold est; simpl.
    + rewrite bool_decide_eq_true_2, estado_no_apos_main, Hacks by done.
      unfold posse, com_ocupado. simpl. by rewrite He.
    + rewrite bool_decide_eq_false_2 by done. exact Hjr.
  - change (detidos g) with (detidos (mkGlobal (nos g) (l1 ++ l2))).
    apply servico_atualizar; [done|left]. rewrite estado_no_apos_servidor. subst e.
    destruct (processar_objeto_locais i PROCESSOS (para_objeto m) (estado (nos g i)))
      as (Ho & He & _).
    unfold posse, est. simpl. by rewrite Ho, He.
  - constructor.
Qed.

Lemma servico_rtc g g' :
  Inv PROCESSOS g -> rtc (passo PROCESSOS) g g' -> rtc passo_servico (detidos g) (detidos g').
Proof.
  intros HI Hr. revert HI. induction Hr as [|x y z Hp _ IH]; intros HI; [done|].
  eapply rtc_l; [by apply servico_passo|].
  by apply IH, (inv_passo PROCESSOS Hnodup x y).
Qed.

Lemma detidos_inicial : detidos global_inicial = ∅.
Proof. apply set_eq. intros [k r]. rewrite elem_of_detidos. set_solver. Qed.

(** C8: the runs of [src/p1.py] refine the lock service.  Initially no
    process holds anything; from a reachable state, every step of
    [passo] is a step of [passo_servico] on the grants: either nothing
    changes, or a process that holds nothing takes a resource no one
    holds, or a process gives back the resource it holds.  So the grants
    of every reachable state are reached by a run of the service. *)
Theorem refinamento_servico :
  detidos global_inicial = ∅ /\
  (forall g g', alcancavel PROCESSOS g -> passo PROCESSOS g g' ->
     passo_servico (detidos g) (detidos g')) /\
  (forall g, alcancavel PROCESSOS g -> rtc passo_servico ∅ (detidos g)).
Proof.
  split_and!; [apply detidos_inicial| |].
  - intros g g' Ha. apply servico_passo, (inv_alcancavel PROCESSOS Hnodup), Ha.
  - intros g Ha. rewrite <-detidos_inicial. apply servico_rtc; [apply inv_inicial|exact Ha].
Qed.

End Abstracao.

(** ** The runs of [src/p2.py] without [aguardar_recurso] threads *)

Section AbstracaoP2.
Context (PROCESSOS : list (string * (string * Z))).
Context (Hnodup : NoDup PROCESSOS.*1).

(** The grants of a state of [src/p2.py], as [detidos]. *)
Definition detidos2 (g : P2Sistema.Global2) : Concessoes :=
  list_to_set (omap (fun i => pair i <$> posse (P2Sistema.estado2 (P2Sistema.nos2 g i)))
                    (PROCESSOS.*1)).

(** Related states have the same grants. *)
Lemma detidos2_rel g2 g1 : SimulacaoP2.rel g2 g1 -> detidos2 g2 = detidos PROCESSOS g1.
Proof.
  intros [Hn _]. unfold detidos2, detidos. f_equal.
  apply list_omap_ext, Forall_Forall2_diag, Forall_forall. intros k _.
  destruct (SimulacaoP2.apagar_s_inv _ _ (proj1 (Hn k))) as (Ho & _ & _ & He).
  unfold posse, est. by rewrite Ho, He.
Qed.

(** C9: the runs of [src/p2.py] in which no [aguardar_recurso] thread is
    started refine the lock service.  Initially nothing is granted; from
    a reachable state of such a run, every step is a run of
    [passo_servico] on the grants; and the grants of every reachable
    state are reached by a run of the service. *)
Theorem refinamento_servico_p2 :
  detidos2 P2Sistema.global2_inicial = ∅ /\
  (forall g g', SimulacaoP2.alcancavel_sem_aguardador PROCESSOS g ->
     SimulacaoP2.passo_sem_aguardador PROCESSOS g g' ->
     rtc passo_servico (detidos2 g) (detidos2 g')) /\
  (forall g, SimulacaoP2.alcancavel_sem_aguardador PROCESSOS g ->
     rtc passo_servico ∅ (detidos2 g)).
Proof.
  assert (H0 : detidos2 P2Sistema.global2_inicial = ∅).
  { apply set_eq. intros [k r]. unfold detidos2.
    rewrite elem_of_list_to_set, list_elem_of_omap. set_solver. }
  split_and!; [done| |].
  - intros g g' Ha [Hp Hsem'].
    destruct (SimulacaoP2.sim_alcancavel PROCESSOS Hnodup g Ha) as (Hsem & g1 & Hg1 & Hrel).
    pose proof (inv_alcancavel PROCESSOS Hnodup g1 Hg1) as HI.
    destruct (SimulacaoP2.sim_passo PROCESSOS g g1 g' HI Hrel Hsem Hp Hsem')
      as (g1' & Hrtc & Hrel').
    rewrite (detidos2_rel g g1), (detidos2_rel g' g1') by done.
    by apply (servico_rtc PROCESSOS Hnodup).
  - intros g Ha. destruct (SimulacaoP2.sim_alcancavel PROCESSOS Hnodup g Ha)
      as (_ & g1 & Hg1 & Hrel).
    rewrite (detidos2_rel g g1), <-(detidos_inicial PROCESSOS) by done.
    apply (servico_rtc PROCESSOS Hnodup); [apply inv_inicial|exact Hg1].
Qed.

End AbstracaoP2.

(** Witness: p1's wait for the acks of r1 ends, and the service grants r1
    to p1. *)
Definition g_antes_concessao : Global :=
  default global_inicial (executar PROCESSOS_P1 global_inicial (take 5 execucao_detem)).

Definition g_apos_concessao : Global :=
  default g_antes_concessao (executar_evento PROCESSOS_P1 g_antes_concessao (EvIteracao "p1")).

Example refinamento_servico_exemplo :
  passo_servico (detidos PROCESSOS_P1 g_antes_concessao) (detidos PROCESSOS_P1 g_apos_concessao) /\
  detidos PROCESSOS_P1 g_apos_concessao = {[("p1", "r1")]}.
Proof.
  split.
  - apply (refinamento_servico PROCESSOS_P1 ltac:(decidir)).
    + apply (executar_alcancavel _ (take 5 execucao_detem)). vm_compute. reflexivity.
    + apply (executar_passo _ _ (EvIteracao "p1")). vm_compute. reflexivity.
  - vm_compute. reflexivity.
Defined.

(** Witness: the run [SimulacaoP2.execucao_nack] of [src/p2.py], with a
    nack and no [aguardar_recurso] thread, is seen as the service granting
    r1 to p1. *)
Example refinamento_servico_p2_exemplo :
  rtc passo_servico ∅ (detidos2 P2.PROCESSOS_P2 SimulacaoP2.g_nack) /\
  detidos2 P2.PROCESSOS_P2 SimulacaoP2.g_nack = {[("p1", "r1")]}.
Proof.
  split; [|vm_compute; reflexivity].
  apply (proj2 (proj2 (refinamento_servico_p2 P2.PROCESSOS_P2 ltac:(decidir)))).
  apply (SimulacaoP2.executar_sem_alcancavel _ SimulacaoP2.execucao_nack).
  vm_compute. reflexivity.
Defined.

End Servico.
